(** * OpenWebUI R2R pipe and tool: permission-scoped retrieval

    A shallow embedding of [r2rpipe.py] (class [Pipe]) and [r2rtool.py]
    (class [Tools]) together with the properties of the retrieval
    pipeline: input parsing, identity resolution, collection-scoped
    search, relevance filtering and citation-safe context assembly.

    Conventions of the embedding.
    - A Python [str] is a [string]; its characters are the code points
      0 to 255, on which [str.isdigit] and [str.isspace] are Python's:
      beside [0] to [9] the superscripts one, two and three are digits,
      and beside the ASCII white space the next-line and no-break-space
      characters are white space.  [str.upper] is given on the ASCII
      letters; it is applied to the text of a UUID only.  [len] counts
      characters.
    - A JSON value (the result of [response.json()], a metadata mapping)
      is a [pyval]; a [dict] is an association list read by its first
      binding of a key.
    - Integers are [Z]; relevance scores are finite floats, compared
      exactly, hence rationals [Q].
    - The collaborators (directory service, collection lookup, search
      endpoint, downstream model, the [uuid] and [re] modules) are the
      fields of an environment record; every call to one of the services
      is recorded in a trace of events. *)

From Stdlib Require Import String Ascii List ZArith QArith Bool Lia DecimalString.
Import ListNotations.

Open Scope string_scope.
Open Scope Z_scope.

(** ** Python strings *)

Module Py.

Definition len (s : string) : Z := Z.of_nat (String.length s).

(** [str(n)] of an integer. *)
Definition str_of_int (n : Z) : string := NilZero.string_of_int (Z.to_int n).

(** [str.isspace] and [str.isdigit] on one character. *)
Definition isspace_char (c : ascii) : bool :=
  let n := nat_of_ascii c in
  ((9 <=? n) && (n <=? 13) || (28 <=? n) && (n <=? 32)
   || (n =? 133) || (n =? 160))%nat.

Definition isdigit_char (c : ascii) : bool :=
  let n := nat_of_ascii c in
  ((48 <=? n) && (n <=? 57) || (n =? 178) || (n =? 179) || (n =? 185))%nat.

Definition upper_char (c : ascii) : ascii :=
  let n := nat_of_ascii c in
  if ((97 <=? n) && (n <=? 122))%nat then ascii_of_nat (n - 32) else c.

Fixpoint all_chars (p : ascii -> bool) (s : string) : bool :=
  match s with
  | EmptyString => true
  | String c r => p c && all_chars p r
  end.

(** [s.isdigit()]: at least one character and all of them digits. *)
Definition isdigit (s : string) : bool :=
  match s with
  | EmptyString => false
  | _ => all_chars isdigit_char s
  end.

Fixpoint upper (s : string) : string :=
  match s with
  | EmptyString => EmptyString
  | String c r => String (upper_char c) (upper r)
  end.

(** Truth value of a string: [bool(s)]. *)
Definition truthy_str (s : string) : bool :=
  match s with EmptyString => false | _ => true end.

Fixpoint mem_char (c : ascii) (chars : string) : bool :=
  match chars with
  | EmptyString => false
  | String d r => Ascii.eqb c d || mem_char c r
  end.

Fixpoint lstrip_by (p : ascii -> bool) (s : string) : string :=
  match s with
  | EmptyString => EmptyString
  | String c r => if p c then lstrip_by p r else s
  end.

Fixpoint rstrip_by (p : ascii -> bool) (s : string) : string :=
  match s with
  | EmptyString => EmptyString
  | String c r =>
      match rstrip_by p r with
      | EmptyString => if p c then EmptyString else String c EmptyString
      | r' => String c r'
      end
  end.

Definition strip_by (p : ascii -> bool) (s : string) : string :=
  rstrip_by p (lstrip_by p s).

(** [s.strip()], [s.strip(chars)] and [s.rstrip(chars)]. *)
Definition strip (s : string) : string := strip_by isspace_char s.
Definition strip_chars (chars s : string) : string :=
  strip_by (fun c => mem_char c chars) s.
Definition rstrip_chars (chars s : string) : string :=
  rstrip_by (fun c => mem_char c chars) s.
Definition lstrip_chars (chars s : string) : string :=
  lstrip_by (fun c => mem_char c chars) s.

Fixpoint take (n : nat) (s : string) : string :=
  match n, s with
  | S k, String c r => String c (take k r)
  | _, _ => EmptyString
  end.

Fixpoint drop (n : nat) (s : string) : string :=
  match n, s with
  | S k, String _ r => drop k r
  | _, _ => s
  end.

(** Slice bounds as Python clamps them: a negative index counts from the
    end, and both ends are clipped to [0 .. len s]. *)
Definition clamp (s : string) (i : Z) : nat :=
  let n := len s in
  Z.to_nat (if i <? 0 then Z.max (n + i) 0 else Z.min i n).

(** [s[lo:hi]], [s[lo:]] and [s[:hi]]. *)
Definition slice (s : string) (lo hi : Z) : string :=
  let a := clamp s lo in
  let b := clamp s hi in
  take (b - a) (drop a s).
Definition slice_from (s : string) (lo : Z) : string := drop (clamp s lo) s.
Definition slice_to (s : string) (hi : Z) : string := take (clamp s hi) s.

(** Whether [pre] begins [s]; [s.startswith(pre)]. *)
Fixpoint prefixb (pre s : string) : bool :=
  match pre, s with
  | EmptyString, _ => true
  | String a p, String b r => Ascii.eqb a b && prefixb p r
  | String _ _, EmptyString => false
  end.

Definition startswith (s pre : string) : bool := prefixb pre s.

(** Lowest position of [sub] in [s], if any. *)
Fixpoint index_of (sub s : string) : option nat :=
  if prefixb sub s then Some O
  else match s with
       | EmptyString => None
       | String _ r => option_map S (index_of sub r)
       end.

(** [sub in s]. *)
Definition contains (sub s : string) : bool :=
  match index_of sub s with Some _ => true | None => false end.

(** [s.find(sub, start)] for [0 <= start]. *)
Definition find (s sub : string) (start : Z) : Z :=
  if len s <? start then -1
  else match index_of sub (drop (Z.to_nat start) s) with
       | Some i => start + Z.of_nat i
       | None => -1
       end.

(** [s.split(sep)] for a non-empty separator: [skip] counts the
    characters of a separator that is being stepped over. *)
Fixpoint split_go (sep : string) (skip : nat) (s : string) : list string :=
  match s with
  | EmptyString => [EmptyString]
  | String c r =>
      match skip with
      | S k => split_go sep k r
      | O =>
          if prefixb sep s
          then EmptyString :: split_go sep (String.length sep - 1) r
          else match split_go sep O r with
               | h :: t => String c h :: t
               | [] => [String c EmptyString]
               end
      end
  end.

Definition split (s sep : string) : list string := split_go sep O s.

(** [s.split(sep, 1)]. *)
Definition split1 (s sep : string) : list string :=
  match index_of sep s with
  | Some i => [take i s; drop (i + String.length sep) s]
  | None => [s]
  end.

End Py.

(** ** JSON values *)

#[local] Unset Elimination Schemes.
Inductive pyval : Type :=
| PNone
| PBool (b : bool)
| PInt (z : Z)
| PFloat (q : Q)
| PStr (s : string)
| PList (l : list pyval)
| PDict (d : list (string * pyval)).
#[local] Set Elimination Schemes.

Module Val.

(** [bool(v)]. *)
Definition truthy (v : pyval) : bool :=
  match v with
  | PNone => false
  | PBool b => b
  | PInt z => negb (z =? 0)
  | PFloat q => negb (Qeq_bool q 0)
  | PStr s => Py.truthy_str s
  | PList l => match l with [] => false | _ => true end
  | PDict d => match d with [] => false | _ => true end
  end.

Fixpoint assoc (k : string) (d : list (string * pyval)) : option pyval :=
  match d with
  | [] => None
  | (k', v) :: r => if String.eqb k k' then Some v else assoc k r
  end.

Definition is_dict (v : pyval) : bool :=
  match v with PDict _ => true | _ => false end.

(** [a or b]. *)
Definition por (a b : pyval) : pyval := if truthy a then a else b.

End Val.

(** ** Exceptions and results *)

Inductive exn : Type :=
| ImportError (msg : string)
| TypeError
| AttributeError
| KeyError
| ValueError
| RequestException (msg : string)
| Exception (msg : string).

Inductive res (A : Type) : Type :=
| Ret (a : A)
| Raise (e : exn).
Arguments Ret {A} a.
Arguments Raise {A} e.

(** ** Helpers shared by the two entry points *)

(** [_truncate(s, n)]; [None] stands for a missing text. *)
Definition _truncate (s : option string) (n : Z) : string :=
  let s := match s with Some s => s | None => "" end in
  if Py.len s <=? n then s else Py.slice_to s (n - 3) ++ "...".

(** The loop body of [_get_citation_identifier]: the first key of [keys]
    whose value is a string that is not blank, stripped. *)
Fixpoint first_label (d : list (string * pyval)) (keys : list string)
  : option string :=
  match keys with
  | [] => None
  | key :: rest =>
      match Val.assoc key d with
      | Some (PStr value) =>
          if Py.truthy_str (Py.strip value) then Some (Py.strip value)
          else first_label d rest
      | _ => first_label d rest
      end
  end.

Definition _get_citation_identifier (meta : pyval) : string :=
  match meta with
  | PDict d =>
      match first_label d ["title"; "source"; "filename"] with
      | Some s => s
      | None =>
          match first_label d ["file_name"; "name"; "document_id"] with
          | Some s => s
          | None => "Unknown"
          end
      end
  | _ => "Unknown"
  end.

(** [metadata.get("filename", "")] on a dict. *)
Definition get_filename (d : list (string * pyval)) : pyval :=
  match Val.assoc "filename" d with Some v => v | None => PStr "" end.

(** The guarded block
    [if "files__default:" in filename: try: ... except: pass]
    on a string: the identifier it returns, if it returns one. *)
Definition default_pattern_id (filename : string) : option string :=
  if Py.contains "files__default:" filename then
    let file_id := Py.strip (List.last (Py.split filename "files__default:") "") in
    if Py.isdigit file_id then Some file_id else None
  else None.

(** [_extract_nextcloud_file_id(metadata)].  A filename that is truthy
    and not a string reaches a string operation outside the [try]: the
    membership test raises [TypeError] on a number, and [startswith]
    raises [AttributeError] on a list or a dict. *)
Definition _extract_nextcloud_file_id (metadata : pyval) : res (option string) :=
  match metadata with
  | PDict d =>
      let filename := get_filename d in
      if negb (Val.truthy filename) then Ret None
      else
        match filename with
        | PStr f =>
            match default_pattern_id f with
            | Some file_id => Ret (Some file_id)
            | None =>
                if Py.startswith f "files_" && Py.isdigit (Py.slice_from f 6)
                then Ret (Some (Py.slice_from f 6))
                else if Py.isdigit f then Ret (Some f)
                else Ret None
            end
        | PList _ | PDict _ => Raise AttributeError
        | _ => Raise TypeError
        end
  | _ => Ret None
  end.

(** ** Result handling shared by the two entry points *)

(** [chunk.get("score", 0.0)]: only a dict has [get]. *)
Definition chunk_score (chunk : pyval) : res pyval :=
  match chunk with
  | PDict d =>
      Ret (match Val.assoc "score" d with Some s => s | None => PFloat 0 end)
  | _ => Raise AttributeError
  end.

(** The number a score stands for in a comparison, if it is one. *)
Definition number_of (score : pyval) : option Q :=
  match score with
  | PInt z => Some (inject_Z z)
  | PFloat q => Some q
  | PBool b => Some (if b then 1%Q else 0%Q)
  | _ => None
  end.

(** [score >= floor]; comparing anything but a number with a float
    raises [TypeError]. *)
Definition score_ge (score : pyval) (floor : Q) : res bool :=
  match number_of score with
  | Some q => Ret (Qle_bool floor q)
  | None => Raise TypeError
  end.

(** The relevance filter: the chunks, in order, whose score is at least
    the floor. *)
Fixpoint filter_by_score (floor : Q) (chunks : list pyval) : res (list pyval) :=
  match chunks with
  | [] => Ret []
  | chunk :: rest =>
      match chunk_score chunk with
      | Raise e => Raise e
      | Ret score =>
          match score_ge score floor with
          | Raise e => Raise e
          | Ret keep =>
              match filter_by_score floor rest with
              | Raise e => Raise e
              | Ret kept => Ret (if keep then chunk :: kept else kept)
              end
          end
      end
  end.

(** Iterating over [chunks], which is truthy here: a list yields its
    elements; a string or a dict yields strings, whose [get] is missing;
    a number is not iterable. *)
Definition iterate (chunks : pyval) : res (list pyval) :=
  match chunks with
  | PList l => Ret l
  | PStr _ | PDict _ => Raise AttributeError
  | _ => Raise TypeError
  end.

(** [l[:k]] on a list. *)
Definition list_slice_to {A} (l : list A) (k : Z) : list A :=
  firstn (Z.to_nat (if k <? 0 then Z.max (Z.of_nat (List.length l) + k) 0 else k)) l.

(** The envelope of the search response:
    [results = response_data.get("results", {})], then the chunk list
    under [chunk_search_results], a bare list, or nothing. *)
Definition chunks_of_response (response_data : pyval) : res pyval :=
  match response_data with
  | PDict data =>
      match Val.assoc "results" data with
      | None => Ret (PList [])
      | Some (PDict results) =>
          Ret (match Val.assoc "chunk_search_results" results with
               | Some c => c
               | None => PList []
               end)
      | Some (PList l) => Ret (PList l)
      | Some _ => Ret (PList [])
      end
  | _ => Raise AttributeError
  end.

(** [chunk.get("text", "").strip()] and [chunk.get("metadata", {})] on a
    chunk that is a dict. *)
Definition chunk_text (d : list (string * pyval)) : res string :=
  match Val.assoc "text" d with
  | None => Ret ""
  | Some (PStr s) => Ret (Py.strip s)
  | Some _ => Raise AttributeError
  end.

Definition chunk_metadata (d : list (string * pyval)) : pyval :=
  match Val.assoc "metadata" d with Some m => m | None => PDict [] end.

(** [chunk.get("score")], with [None] for a missing or null score. *)
Definition chunk_score_opt (d : list (string * pyval)) : option pyval :=
  match Val.assoc "score" d with
  | Some PNone | None => None
  | Some s => Some s
  end.

Definition nextcloud_link (base file_id : string) : string :=
  Py.rstrip_chars "/" base ++ "/f/" ++ file_id.

(** ** Configuration *)

(** The valves of both entry points ([Pipe.Valves] and [Tools.Valves]);
    [LOCAL_MODEL] is read by the pipe only, [system_prompt] and
    [enable_source_emission] by the tool only. *)
Record Valves : Type := {
  LOCAL_MODEL : string;
  api_url : string;
  nextcloud_base_url : string;
  bearer_token : string;
  ldap_server_uri : string;
  ldap_bind_user : string;
  ldap_bind_password : string;
  ldap_search_base : string;
  ldap_user_filter : string;
  ldap_guid_attribute : string;
  collections_api_url : string;
  default_owner_id : string;
  enforce_permissions : bool;
  ldap_timeout : Z;
  use_hybrid_search : bool;
  search_limit : Z;
  max_chunks_in_context : Z;
  max_chars_per_chunk : Z;
  min_relevance_score : Q;
  system_prompt : string;
  request_timeout : Z;
  include_metadata : bool;
  enable_source_emission : bool
}.

(** The [ldap_config] and [r2r_config] dictionaries. *)
Record ldap_config : Type := {
  lc_server_uri : string;
  lc_bind_user : string;
  lc_bind_password : string;
  lc_search_base : string;
  lc_user_filter : string;
  lc_guid_attribute : string;
  lc_timeout : Z
}.

Record r2r_config : Type := {
  rc_collections_api_url : string;
  rc_bearer_token : string;
  rc_default_owner_id : string
}.

(** ** Collaborators *)

(** The value of a directory attribute as [ldap3] hands it over. *)
Inductive ldapatom : Type :=
| ABytes (b : list ascii)
| AStr (s : string)
| AOther.

Inductive ldapval : Type :=
| LOne (a : ldapatom)
| LMany (l : list ldapatom).

(** An HTTP response: its status, the result of [response.json()]
    ([None] when the body is not JSON), its text, and the text of the
    error [raise_for_status()] raises on a 4xx or 5xx status, and the
    text of the error [response.json()] raises on a body that is not
    JSON. *)
Record response : Type := {
  status_code : Z;
  json : option pyval;
  text : string;
  http_error : string;
  json_error : string
}.

(** What [requests.post] does: it raises one of the three request
    exceptions (each with its text), or returns a response. *)
Inductive post_result : Type :=
| PostTimeout (msg : string)
| PostConnectionError (msg : string)
| PostRequestException (msg : string)
| PostResponse (r : response).

Record message : Type := {
  role : option string;
  content : option string
}.

(** The [__user__] dictionary of the host. *)
Record user : Type := {
  email : option string;
  id : option string
}.

(** One rendered block of the context: the values its header and body
    are printed from. *)
Record entry : Type := {
  e_idx : nat;
  e_citation_id : string;
  e_file_id : option string;
  e_link : option string;
  e_text : string;
  e_score : option pyval
}.

(** The text handed to the model, before it is laid out: either the
    one-line notice that no chunk met the floor, or the blocks with the
    counts of the heading and the user's instructions. *)
Inductive context : Type :=
| NoRelevantDocuments (search_query : string)
| ContextBlocks (search_query : string) (found : nat) (blocks : list entry)
    (custom_instructions : option string).

(** Calls that leave the process, in the order they are made. *)
Inductive event : Type :=
| LdapBind (cfg : ldap_config)
| LdapSearch (cfg : ldap_config) (search_filter : string)
| LdapUnbind
| CollectionsGet (url owner_id bearer : string)
| SearchPost (url bearer : string) (payload : pyval) (timeout : Z)
| ChatCompletion (model : string) (history : list message) (ctx : context).

Definition is_search (ev : event) : bool :=
  match ev with SearchPost _ _ _ _ => true | _ => false end.

Record env : Type := {
  (** whether [import ldap3] succeeded *)
  LDAP_AVAILABLE : bool;
  (** [Connection(server, ..., auto_bind=True)]: raises, or gives a
      connection whose [bound] flag is returned *)
  ldap_connect : ldap_config -> res bool;
  (** [ldap_config["user_filter"].format(email=email)]: the search
      filter, or the exception of a template that does not format *)
  filter_format : ldap_config -> string -> res string;
  (** [conn.search] with that filter: raises, or leaves [conn.entries];
      of each entry, the value of the GUID attribute, [None] when the
      entry has no such attribute *)
  ldap_entries : ldap_config -> string -> res (list (option ldapval));
  (** [conn.bound] as it reads once [conn.search] was called with that
      filter, whether the call returned or raised *)
  ldap_bound_after : ldap_config -> string -> bool;
  (** [str(uuid.UUID(bytes=b))] and [str(uuid.UUID(s))]; [None] stands
      for the [ValueError] of a malformed argument *)
  uuid_bytes_str : list ascii -> option string;
  uuid_text_str : string -> option string;
  (** [requests.get] on the collections endpoint *)
  collections_get : string -> string -> string -> res response;
  (** [requests.post] on the search endpoint *)
  search_post : string -> string -> pyval -> Z -> post_result;
  (** [re.search(pattern, text, re.IGNORECASE | re.DOTALL)]: groups 1
      and 2 of the match *)
  re_search : string -> string -> option (string * string);
  (** [Users.get_user_by_id] followed by [generate_chat_completion] *)
  generate_chat_completion : string -> list message -> context -> res string;
  (** what [Tools._get_user_email_alternative] finds in the caller's
      frames and in the process environment *)
  user_email_alternative : option string;
  (** [str(e)] of an exception raised by the interpreter *)
  exn_text : exn -> string;
  (** [json.dumps] and the printing of a float in an f-string *)
  json_dumps : pyval -> string;
  str_of_float : Q -> string
}.

Definition str_of_exn (E : env) (e : exn) : string :=
  match e with
  | ImportError msg | RequestException msg | Exception msg => msg
  | _ => exn_text E e
  end.

(** ** Effects: a trace of events and exceptions *)

Definition trace : Type := list event.

Definition M (A : Type) : Type := trace -> res A * trace.

Definition ret {A} (a : A) : M A := fun t => (Ret a, t).

Definition raise {A} (e : exn) : M A := fun t => (Raise e, t).

Definition bind {A B} (m : M A) (f : A -> M B) : M B :=
  fun t =>
    match m t with
    | (Ret a, t') => f a t'
    | (Raise e, t') => (Raise e, t')
    end.

(** [try: m except Exception as e: h e]. *)
Definition catch {A} (m : M A) (h : exn -> M A) : M A :=
  fun t =>
    match m t with
    | (Raise e, t') => h e t'
    | r => r
    end.

Definition emit (ev : event) : M unit := fun t => (Ret tt, (t ++ [ev])%list).

Definition lift {A} (r : res A) : M A := fun t => (r, t).

Declare Scope py_scope.
Delimit Scope py_scope with py.
Notation "x <- m ;; k" := (bind m (fun x => k))
  (at level 100, m at next level, right associativity) : py_scope.
Notation "m ;;; k" := (bind m (fun _ => k))
  (at level 100, right associativity) : py_scope.
Open Scope py_scope.

(** The events of a run from the empty trace, and its result. *)
Definition events {A} (m : M A) : trace := snd (m []).
Definition result {A} (m : M A) : res A := fst (m []).

(** ** Identity and collection resolution *)

Definition quote_chars : string := String (ascii_of_nat 34) "'".
Definition newline : string := String (ascii_of_nat 10) "".

(** The two conversions of [_ldap_lookup_user_guid]: [bytes] through
    [uuid.UUID(bytes=...)], whose [ValueError] is not caught locally, and
    [str] through [uuid.UUID(...)] under [except ValueError]. *)
Definition guid_from_bytes (E : env) (b : list ascii) : res (option string) :=
  match uuid_bytes_str E b with
  | Some c => Ret (Some (Py.upper c))
  | None => Raise ValueError
  end.

Definition guid_from_str (E : env) (s : string) : option string :=
  let guid_clean := Py.strip (Py.strip_chars "{}" s) in
  match uuid_text_str E guid_clean with
  | Some c => Some (Py.upper c)
  | None => None
  end.

(** [_get_collection_id_from_guid], the same in both files. *)
Definition _get_collection_id_from_guid (E : env) (user_guid : string)
  (cfg : r2r_config) : M pyval :=
  if negb (Py.truthy_str user_guid) then ret PNone
  else
    let url := rc_collections_api_url cfg ++ "/" ++ user_guid in
    catch
      (emit (CollectionsGet url (rc_default_owner_id cfg) (rc_bearer_token cfg)) ;;;
       response <- lift (collections_get E url (rc_default_owner_id cfg)
                           (rc_bearer_token cfg)) ;;
       if status_code response =? 200 then
         match json response with
         | None => raise ValueError
         | Some (PDict data) =>
             match Val.assoc "results" data with
             | None => ret PNone
             | Some (PDict results) =>
                 match Val.assoc "id" results with
                 | Some v => ret v
                 | None => ret PNone
                 end
             | Some _ => raise AttributeError
             end
         | Some _ => raise AttributeError
         end
       else ret PNone)
      (fun _ => ret PNone).


(** ** Input parsing shared by the two entry points *)

(** One turn of the loop over the lines of the block. *)
Definition yaml_line (st : option string * option string) (line : string)
  : option string * option string :=
  let line := Py.strip line in
  if Py.startswith line "search:" then
    (Some (Py.strip_chars quote_chars (Py.strip (Py.slice_from line 7))), snd st)
  else if Py.startswith line "instructions:" then
    (fst st, Some (Py.strip_chars quote_chars (Py.strip (Py.slice_from line 12))))
  else st.

(** The text between the leading marker and the next one, stripped. *)
Definition yaml_block (input_text : string) : string :=
  let yaml_end := Py.find input_text "---" 3 in
  Py.strip (Py.slice input_text 3 yaml_end).

(** The structured format: [Some] when the branch returns. *)
Definition parse_structured (input_text : string)
  : option (string * option string) :=
  if Py.startswith input_text "---"
     && Py.contains "---" (Py.slice_from input_text 3)
  then
    match fold_left yaml_line (Py.split (yaml_block input_text) newline)
            (None, None) with
    | (Some search_query, llm_instructions) =>
        if Py.truthy_str search_query
        then Some (search_query, llm_instructions)
        else None
    | (None, _) => None
    end
  else None.

(** The delimiter format: [Some] when the branch returns. *)
Definition parse_delimited (input_text : string)
  : option (string * option string) :=
  if Py.contains " | " input_text then
    match Py.split1 input_text " | " with
    | [p0] => Some (Py.strip p0, None)
    | p0 :: p1 :: _ => Some (Py.strip p0, Some (Py.strip p1))
    | [] => None
    end
  else None.

(** ** The search request *)

(** The inclusion filter on the collection dimension. *)
Definition collection_filter (user_collection_id : pyval) : pyval :=
  PDict [("collection_ids", PDict [("$in", PList [user_collection_id])])].

(** The request body, with the filter added under [search_settings]
    when [user_collection_id] is truthy. *)
Definition search_payload (v : Valves) (query : string)
  (user_collection_id : pyval) : pyval :=
  let settings :=
    [("use_hybrid_search", PBool (use_hybrid_search v));
     ("limit", PInt (Z.min (search_limit v) 100))] in
  let settings :=
    if Val.truthy user_collection_id
    then (settings ++ [("filters", collection_filter user_collection_id)])%list
    else settings in
  PDict [("query", PStr query); ("search_settings", PDict settings)].

Definition ldap_config_of (v : Valves) : ldap_config :=
  {| lc_server_uri := ldap_server_uri v;
     lc_bind_user := ldap_bind_user v;
     lc_bind_password := ldap_bind_password v;
     lc_search_base := ldap_search_base v;
     lc_user_filter := ldap_user_filter v;
     lc_guid_attribute := ldap_guid_attribute v;
     lc_timeout := ldap_timeout v |}.

Definition r2r_config_of (v : Valves) : r2r_config :=
  {| rc_collections_api_url := collections_api_url v;
     rc_bearer_token := Py.strip (bearer_token v);
     rc_default_owner_id := default_owner_id v |}.

(** ** [r2rpipe.py] *)

Module R2RPipe.

(** The [if hasattr(entry, guid_attr): ...] block and the [return None]
    after it. *)
Definition guid_of_entry (E : env) (entry : option ldapval) : res (option string) :=
  match entry with
  | Some (LOne (ABytes guid_value)) => guid_from_bytes E guid_value
  | Some (LOne (AStr guid_value)) => Ret (guid_from_str E guid_value)
  | Some (LMany (first_guid :: _)) =>
      match first_guid with
      | AStr s => Ret (guid_from_str E s)
      | ABytes b => guid_from_bytes E b
      | AOther => Ret None
      end
  | _ => Ret None
  end.

(** The [finally] block reads [conn.bound] again: it is what the
    connection gave when nothing was called on it since, and what
    [conn.search] left otherwise; the filter is formatted before
    [conn.search] is called. *)
Definition _ldap_lookup_user_guid (E : env) (email : string) (cfg : ldap_config)
  : M (option string) :=
  if negb (LDAP_AVAILABLE E) then
    raise (ImportError "ldap3 library is required for AD authentication. Install with: pip install ldap3")
  else if negb (Py.truthy_str email) || negb (Py.truthy_str (Py.strip email)) then
    ret None
  else
    emit (LdapBind cfg) ;;;
    match ldap_connect E cfg with
    | Raise _ => ret None
    | Ret false => ret None
    | Ret true =>
        match filter_format E cfg email with
        | Raise _ => emit LdapUnbind ;;; ret None
        | Ret search_filter =>
            emit (LdapSearch cfg search_filter) ;;;
            r <- catch
                   (entries <- lift (ldap_entries E cfg search_filter) ;;
                    match entries with
                    | [] => ret None
                    | entry :: _ => lift (guid_of_entry E entry)
                    end)
                   (fun _ => ret None) ;;
            (if ldap_bound_after E cfg search_filter
             then emit LdapUnbind else ret tt) ;;;
            ret r
        end
    end.

(** *** Input parsing *)

Definition _parse_user_input (input_text : string) : string * option string :=
  let input_text := Py.strip input_text in
  if negb (Py.truthy_str input_text) then ("", None)
  else
    match parse_structured input_text with
    | Some r => r
    | None =>
        match parse_delimited input_text with
        | Some r => r
        | None => (input_text, None)
        end
    end.

(** *** Search *)

Definition _perform_r2r_search (v : Valves) (E : env) (query : string)
  (user_collection_id : pyval) : M pyval :=
  let payload := search_payload v query user_collection_id in
  let url := Py.rstrip_chars "/" (api_url v) in
  let token := Py.strip (bearer_token v) in
  let timeout := Z.min (request_timeout v) 300 in
  emit (SearchPost url token payload timeout) ;;;
  match search_post E url token payload timeout with
  | PostTimeout msg | PostConnectionError msg | PostRequestException msg =>
      raise (Exception ("R2R search failed: " ++ msg))
  | PostResponse r =>
      if (400 <=? status_code r) && (status_code r <? 600) then
        raise (Exception ("R2R search failed: " ++ http_error r))
      else
        match json r with
        | Some data => ret data
        | None => raise (Exception ("R2R search failed: " ++ json_error r))
        end
  end.

Definition _get_user_collection_id (v : Valves) (E : env) (user_email : string)
  : M pyval :=
  if negb (enforce_permissions v) then ret PNone
  else
    user_guid <- _ldap_lookup_user_guid E user_email (ldap_config_of v) ;;
    match user_guid with
    | None => ret PNone
    | Some g =>
        if negb (Py.truthy_str g) then ret PNone
        else _get_collection_id_from_guid E g (r2r_config_of v)
    end.

(** *** Context assembly *)

(** The link the pipe gives a chunk: built from the file identifier when
    there is one. *)
Definition link_of_metadata (v : Valves) (metadata : pyval)
  : res (option string * option string) :=
  match _extract_nextcloud_file_id metadata with
  | Raise e => Raise e
  | Ret None => Ret (None, None)
  | Ret (Some nextcloud_file_id) =>
      if Py.truthy_str nextcloud_file_id
      then Ret (Some nextcloud_file_id,
                Some (nextcloud_link (nextcloud_base_url v) nextcloud_file_id))
      else Ret (Some nextcloud_file_id, None)
  end.

(** One turn of the loop over [top_chunks].  With [include_metadata]
    the metadata line reads [metadata.get("filename", "")], which only a
    dict has. *)
Definition context_entry (v : Valves) (idx : nat) (chunk : pyval) : res entry :=
  match chunk with
  | PDict d =>
      match chunk_text d with
      | Raise e => Raise e
      | Ret text =>
          let metadata := chunk_metadata d in
          let score := chunk_score_opt d in
          let citation_id := _get_citation_identifier metadata in
          match link_of_metadata v metadata with
          | Raise e => Raise e
          | Ret (nextcloud_file_id, link) =>
              let text := _truncate (Some text) (max_chars_per_chunk v) in
              if include_metadata v && negb (Val.is_dict metadata)
              then Raise AttributeError
              else Ret {| e_idx := idx; e_citation_id := citation_id;
                          e_file_id := nextcloud_file_id; e_link := link;
                          e_text := text; e_score := score |}
          end
      end
  | _ => Raise AttributeError
  end.

Fixpoint context_entries (v : Valves) (idx : nat) (top_chunks : list pyval)
  : res (list entry) :=
  match top_chunks with
  | [] => Ret []
  | chunk :: rest =>
      match context_entry v idx chunk with
      | Raise e => Raise e
      | Ret en =>
          match context_entries v (S idx) rest with
          | Raise e => Raise e
          | Ret ens => Ret (en :: ens)
          end
      end
  end.

Definition _build_context_from_results (v : Valves) (search_query : string)
  (chunks : pyval) (custom_instructions : option string) : res context :=
  match iterate chunks with
  | Raise e => Raise e
  | Ret l =>
      match filter_by_score (min_relevance_score v) l with
      | Raise e => Raise e
      | Ret [] => Ret (NoRelevantDocuments search_query)
      | Ret filtered_chunks =>
          let top_chunks :=
            list_slice_to filtered_chunks (max_chunks_in_context v) in
          match context_entries v 1 top_chunks with
          | Raise e => Raise e
          | Ret blocks =>
              Ret (ContextBlocks search_query (List.length filtered_chunks)
                     blocks custom_instructions)
          end
      end
  end.

(** *** The pipe *)

Definition msg_no_messages : string := "Error: No messages provided".
Definition msg_last_not_user : string := "Error: Last message must be from user".
Definition msg_empty_query : string := "Error: Empty user query".
Definition msg_query_too_short (search_query : string) : string :=
  "Error: Search query too short: '" ++ search_query ++ "'".
Definition msg_missing_token : string :=
  "Error: Missing R2R authentication token. Please configure the 'bearer_token' in pipe settings.".
Definition msg_denied_no_user : string :=
  "❌ **Access Denied**" ++ newline ++ newline ++
  "Unable to identify user for permission filtering. This search requires valid " ++
  "user authentication to ensure you only see documents you have access to.".
Definition msg_denied_no_collection (user_email : string) : string :=
  "❌ **Access Denied**" ++ newline ++ newline ++
  "No document collection found for user: " ++ user_email ++ newline ++
  "Please contact your system administrator to request access.".
Definition msg_permission_check_failed : string :=
  "❌ **Permission Check Failed**" ++ newline ++ newline ++
  "Unable to verify your document access permissions due to a system error. " ++
  "Please try again later or contact your system administrator.".
Definition msg_search_error (E : env) (e : exn) : string :=
  "Error: " ++ str_of_exn E e.
Definition msg_no_documents (search_query : string) : string :=
  "No relevant documents found for query: '" ++ search_query ++ "'" ++ newline ++ newline ++
  "The search returned no results. This could mean:" ++ newline ++
  "• No documents match your search terms" ++ newline ++
  "• You don't have access to documents containing this information" ++ newline ++
  "• Try rephrasing your question or using different keywords".
Definition msg_system_error (E : env) (e : exn) : string :=
  "❌ **System Error**: " ++ str_of_exn E e.

(** [messages[:-1]]. *)
Definition but_last {A} (l : list A) : list A := removelast l.

(** The permission stage: [inl] is the message the pipe returns with,
    [inr] the collection the search is scoped to. *)
Definition resolve_permissions (v : Valves) (E : env) (__user__ : option user)
  : M (string + pyval) :=
  if enforce_permissions v then
    let user_email :=
      match __user__ with Some u => email u | None => None end in
    match user_email with
    | None => ret (inl msg_denied_no_user)
    | Some user_email =>
        if negb (Py.truthy_str user_email) || negb (Py.contains "@" user_email)
        then ret (inl msg_denied_no_user)
        else
          catch
            (user_collection_id <- _get_user_collection_id v E user_email ;;
             if negb (Val.truthy user_collection_id)
             then ret (inl (msg_denied_no_collection user_email))
             else ret (inr user_collection_id))
            (fun _ => ret (inl msg_permission_check_failed))
    end
  else ret (inr PNone).

(** What follows a successful search. *)
Definition answer_from_results (v : Valves) (E : env) (messages : list message)
  (__user__ : option user) (search_query : string)
  (custom_instructions : option string) (response_data : pyval) : M string :=
  chunks <- lift (chunks_of_response response_data) ;;
  if negb (Val.truthy chunks) then ret (msg_no_documents search_query)
  else
    enhanced_context <-
      lift (_build_context_from_results v search_query chunks custom_instructions) ;;
    match __user__ with
    | None => raise TypeError
    | Some u =>
        match id u with
        | None => raise KeyError
        | Some _ =>
            emit (ChatCompletion (LOCAL_MODEL v) (but_last messages) enhanced_context) ;;;
            lift (generate_chat_completion E (LOCAL_MODEL v) (but_last messages)
                    enhanced_context)
        end
    end.

(** From [# Execute R2R search] on. *)
Definition search_and_answer (v : Valves) (E : env) (messages : list message)
  (__user__ : option user) (search_query : string)
  (custom_instructions : option string) (user_collection_id : pyval) : M string :=
  searched <-
    catch
      (response_data <- _perform_r2r_search v E search_query user_collection_id ;;
       ret (inr response_data))
      (fun e => ret (inl (msg_search_error E e))) ;;
  match searched with
  | inl failure => ret failure
  | inr response_data =>
      answer_from_results v E messages __user__ search_query
        custom_instructions response_data
  end.

Definition pipe (v : Valves) (E : env) (messages : list message)
  (__user__ : option user) : M string :=
  catch
    (match List.rev messages with
     | [] => ret msg_no_messages
     | last_message :: _ =>
         if negb (match role last_message with
                  | Some r => String.eqb r "user"
                  | None => false
                  end)
         then ret msg_last_not_user
         else
           let user_query :=
             Py.strip (match content last_message with Some c => c | None => "" end) in
           if negb (Py.truthy_str user_query) then ret msg_empty_query
           else
             let '(search_query, custom_instructions) := _parse_user_input user_query in
             if negb (Py.truthy_str search_query) || (Py.len (Py.strip search_query) <? 3)
             then ret (msg_query_too_short search_query)
             else if negb (Py.truthy_str (Py.strip (bearer_token v)))
             then ret msg_missing_token
             else
               perm <- resolve_permissions v E __user__ ;;
               match perm with
               | inl denial => ret denial
               | inr user_collection_id =>
                   search_and_answer v E messages __user__ search_query
                     custom_instructions user_collection_id
               end
     end)
    (fun e => ret (msg_system_error E e)).

End R2RPipe.

(** ** [r2rtool.py] *)

Module R2RTool.

(** The [user] argument of the tool: falsy, a string that is not JSON,
    or the object it holds (the result of [json.loads] on a string). *)
Inductive user_arg : Type :=
| UserEmpty
| UserBadJson (s : string)
| UserObject (o : pyval).

(** One element of [sources_for_emission]. *)
Record source : Type := {
  s_name : string;
  s_url : string;
  s_content : string
}.

(** What the tool returns: a message, or the final context with the
    sources put before it when they are emitted. *)
Inductive reply : Type :=
| Message (s : string)
| FinalContext (sources : option (list source)) (query : string) (ctx : context).

(** The tool's [_ldap_lookup_user_guid] converts a [bytes] value only.
    [email.strip()] precedes the [try], so an address that is not a
    string raises [AttributeError]. *)
Definition guid_of_entry (E : env) (entry : option ldapval) : res (option string) :=
  match entry with
  | Some (LOne (ABytes guid_bytes)) => guid_from_bytes E guid_bytes
  | _ => Ret None
  end.

Definition _ldap_lookup_user_guid (E : env) (email : pyval) (cfg : ldap_config)
  : M (option string) :=
  if negb (LDAP_AVAILABLE E) then
    raise (ImportError "ldap3 library is required for AD authentication. Install with: pip install ldap3")
  else if negb (Val.truthy email) then ret None
  else
    match email with
    | PStr email =>
        if negb (Py.truthy_str (Py.strip email)) then ret None
        else
          emit (LdapBind cfg) ;;;
          match ldap_connect E cfg with
          | Raise _ => ret None
          | Ret _ =>
              match filter_format E cfg email with
              | Raise _ => emit LdapUnbind ;;; ret None
              | Ret search_filter =>
                  emit (LdapSearch cfg search_filter) ;;;
                  r <- catch
                         (entries <- lift (ldap_entries E cfg search_filter) ;;
                          match entries with
                          | [] => ret None
                          | entry :: _ => lift (guid_of_entry E entry)
                          end)
                         (fun _ => ret None) ;;
                  emit LdapUnbind ;;;
                  ret r
              end
          end
    | _ => raise AttributeError
    end.

(** *** Input parsing *)

Definition search_patterns : list string :=
  ["(?:Search for|Find|Look for)\s+(.+?)\.\s*(?:Please|Format|Present|Show)\s+(.+)";
   "(.+?)\.\s*(?:Please|Format|Present|Show|Make sure to)\s+(.+)"].

Fixpoint first_match (E : env) (patterns : list string) (input_text : string)
  : option (string * string) :=
  match patterns with
  | [] => None
  | pattern :: rest =>
      match re_search E pattern input_text with
      | Some (g1, g2) => Some (Py.strip g1, Py.strip g2)
      | None => first_match E rest input_text
      end
  end.

Definition _parse_user_input_natural (E : env) (input_text : string)
  : string * option string :=
  let input_text := Py.strip input_text in
  if negb (Py.truthy_str input_text) then ("", None)
  else if Py.contains "Query:" input_text && Py.contains "Instructions:" input_text
  then
    let query_start := Py.find input_text "Query:" 0 + 6 in
    let instructions_start := Py.find input_text "Instructions:" 0 in
    (Py.strip (Py.slice input_text query_start instructions_start),
     Some (Py.strip (Py.slice_from input_text (instructions_start + 12))))
  else
    match first_match E search_patterns input_text with
    | Some (search_query, llm_instructions) => (search_query, Some llm_instructions)
    | None => (input_text, None)
    end.

Definition _parse_user_input (E : env) (input_text : string)
  : string * option string :=
  let input_text := Py.strip input_text in
  if negb (Py.truthy_str input_text) then ("", None)
  else
    match parse_structured input_text with
    | Some r => r
    | None =>
        match parse_delimited input_text with
        | Some r => r
        | None => _parse_user_input_natural E input_text
        end
    end.

(** *** Permission lookup *)

Definition _do_ldap_lookup (v : Valves) (E : env) (user_email : pyval)
  : M (option string) :=
  catch (_ldap_lookup_user_guid E user_email (ldap_config_of v))
        (fun _ => ret None).

Definition _get_collection_from_guid (v : Valves) (E : env) (user_guid : string)
  : M pyval :=
  catch (_get_collection_id_from_guid E user_guid (r2r_config_of v))
        (fun _ => ret PNone).

(** [user_obj], then [user_email] as the first truthy of the three keys. *)
Definition user_obj_of (u : user_arg) : option pyval :=
  match u with
  | UserEmpty => None
  | UserBadJson _ => Some (PDict [])
  | UserObject o => Some o
  end.

Definition dict_get (d : list (string * pyval)) (k : string) : pyval :=
  match Val.assoc k d with Some x => x | None => PNone end.

Definition email_of_user_obj (user_obj : option pyval) : pyval :=
  match user_obj with
  | Some (PDict d) =>
      match d with
      | [] => PNone
      | _ => Val.por (Val.por (dict_get d "email") (dict_get d "mail"))
               (dict_get d "username")
      end
  | _ => PNone
  end.

(** [user_email] as the block finds it: in the user object, else by the
    alternative detection. *)
Definition find_user_email (E : env) (u : user_arg) : pyval :=
  let user_email := email_of_user_obj (user_obj_of u) in
  if negb (Val.truthy user_email)
  then match user_email_alternative E with
       | Some e => PStr e
       | None => PNone
       end
  else user_email.

(** The block under [if self.valves.enforce_permissions:]; it leaves
    [user_collection_id], which stays [None] unless a GUID and then a
    collection are found. *)
Definition resolve_permissions (v : Valves) (E : env) (u : user_arg) : M pyval :=
  if enforce_permissions v then
    catch
      (let user_email := find_user_email E u in
       if negb (Val.truthy user_email) then ret PNone
       else
         user_guid <- _do_ldap_lookup v E user_email ;;
         match user_guid with
         | Some g =>
             if Py.truthy_str g then _get_collection_from_guid v E g
             else ret PNone
         | None => ret PNone
         end)
      (fun _ => ret PNone)
  else ret PNone.

(** *** Context assembly *)

(** The file identifier and the link of one chunk.  The identifier comes
    from the [files__default:] pattern only; without it the link falls
    back on a citation identifier that looks like a path. *)
Definition file_id_of_filename (filename : pyval) : res (option string) :=
  if negb (Val.truthy filename) then Ret None
  else
    match filename with
    | PStr f => Ret (default_pattern_id f)
    | PList _ | PDict _ => Ret None
    | _ => Raise TypeError
    end.

Definition fallback_link (v : Valves) (citation_id : string) : option string :=
  if Py.truthy_str citation_id then
    if (Py.contains "/" citation_id || Py.contains "." citation_id)
       && negb (Py.startswith citation_id "http")
    then Some (nextcloud_link (nextcloud_base_url v)
                 (Py.lstrip_chars "/" citation_id))
    else None
  else None.

Definition link_of_metadata (v : Valves) (metadata : pyval) (citation_id : string)
  : res (option string * option string) :=
  match metadata with
  | PDict d =>
      match file_id_of_filename (get_filename d) with
      | Raise e => Raise e
      | Ret (Some file_id) =>
          Ret (Some file_id, Some (nextcloud_link (nextcloud_base_url v) file_id))
      | Ret None => Ret (None, fallback_link v citation_id)
      end
  | _ => Raise AttributeError
  end.

(** One turn of the loop over [top_chunks]: the source for the host and
    the block for the model. *)
Definition context_entry (v : Valves) (idx : nat) (chunk : pyval)
  : res (source * entry) :=
  match chunk with
  | PDict d =>
      match chunk_text d with
      | Raise e => Raise e
      | Ret text =>
          let metadata := chunk_metadata d in
          let score := chunk_score_opt d in
          let citation_id := _get_citation_identifier metadata in
          match link_of_metadata v metadata citation_id with
          | Raise e => Raise e
          | Ret (nextcloud_file_id, link) =>
              Ret ({| s_name := citation_id;
                      s_url := match link with Some l => l | None => "" end;
                      s_content := _truncate (Some text) 300 |},
                   {| e_idx := idx; e_citation_id := citation_id;
                      e_file_id := nextcloud_file_id; e_link := link;
                      e_text := _truncate (Some text) (max_chars_per_chunk v);
                      e_score := score |})
          end
      end
  | _ => Raise AttributeError
  end.

Fixpoint context_entries (v : Valves) (idx : nat) (top_chunks : list pyval)
  : res (list (source * entry)) :=
  match top_chunks with
  | [] => Ret []
  | chunk :: rest =>
      match context_entry v idx chunk with
      | Raise e => Raise e
      | Ret en =>
          match context_entries v (S idx) rest with
          | Raise e => Raise e
          | Ret ens => Ret (en :: ens)
          end
      end
  end.

(** *** The tool *)

Definition msg_invalid_query : string := "Error: Invalid or empty query parameter".
Definition msg_query_too_short (search_query : string) : string :=
  "Error: Search query too short: '" ++ search_query ++ "'".
Definition msg_missing_token : string :=
  "Error: Missing authentication token. Please configure the 'bearer_token' in tool settings.".
Definition msg_timeout : string := "Error: Request timed out. Try a simpler query.".
Definition msg_connection (v : Valves) : string :=
  "Error: Could not connect to R2R at " ++ api_url v.
Definition msg_request_failed (msg : string) : string :=
  "Error: Request failed - " ++ msg.
Definition msg_401 : string := "Error: Authentication failed. Check your bearer token.".
Definition msg_403 : string := "Error: Access forbidden. Check your permissions.".
Definition msg_404 : string := "Error: R2R endpoint not found. Check the API URL.".
Definition msg_api_error (status : Z) (detail : string) : string :=
  "Error: R2R API returned " ++ Py.str_of_int status ++ ": " ++ detail.
Definition msg_invalid_json (r : response) : string :=
  "Error: Invalid JSON response from R2R: " ++ Py.slice_to (text r) 500.
Definition msg_no_documents (search_query : string) : string :=
  "No relevant documents found for query: '" ++ search_query ++ "'" ++ newline ++ newline ++
  "The search returned no results. Try rephrasing your question or using different keywords.".
Definition msg_none_relevant (E : env) (v : Valves) (search_query : string)
  (count : nat) : string :=
  "No sufficiently relevant documents found for query: '" ++ search_query ++ "'" ++ newline ++ newline ++
  "Found " ++ Py.str_of_int (Z.of_nat count) ++ " results, but none met the minimum relevance threshold of " ++
  str_of_float E (min_relevance_score v) ++ ".".
Definition msg_tool_failed (E : env) (e : exn) : string :=
  "Tool execution failed: " ++ str_of_exn E e.

(** The status checks after the request: [inl] is the message returned,
    [inr] the decoded body. *)
Definition check_response (E : env) (r : response) : string + pyval :=
  if status_code r =? 401 then inl msg_401
  else if status_code r =? 403 then inl msg_403
  else if status_code r =? 404 then inl msg_404
  else if 400 <=? status_code r then
    inl (msg_api_error (status_code r)
           (match json r with
            | Some error_detail => json_dumps E error_detail
            | None => Py.slice_to (text r) 500
            end))
  else
    match json r with
    | Some response_data => inr response_data
    | None => inl (msg_invalid_json r)
    end.

(** From [# Extract search results] to the end. *)
Definition context_from_response (v : Valves) (E : env) (query search_query : string)
  (custom_instructions : option string) (response_data : pyval) : res reply :=
  match chunks_of_response response_data with
  | Raise e => Raise e
  | Ret chunks =>
      if negb (Val.truthy chunks) then Ret (Message (msg_no_documents search_query))
      else
        match iterate chunks with
        | Raise e => Raise e
        | Ret l =>
            match filter_by_score (min_relevance_score v) l with
            | Raise e => Raise e
            | Ret [] =>
                Ret (Message (msg_none_relevant E v search_query (List.length l)))
            | Ret filtered_chunks =>
                let top_chunks :=
                  list_slice_to filtered_chunks (max_chunks_in_context v) in
                match context_entries v 1 top_chunks with
                | Raise e => Raise e
                | Ret pairs =>
                    let sources_for_emission := map fst pairs in
                    let ctx :=
                      ContextBlocks search_query (List.length filtered_chunks)
                        (map snd pairs) custom_instructions in
                    match sources_for_emission with
                    | [] => Ret (FinalContext None query ctx)
                    | _ =>
                        if enable_source_emission v
                        then Ret (FinalContext (Some sources_for_emission) query ctx)
                        else Ret (FinalContext None query ctx)
                    end
                end
            end
        end
  end.

(** From [# Prepare search payload] to the end. *)
Definition search_and_build (v : Valves) (E : env) (query search_query : string)
  (custom_instructions : option string) (user_collection_id : pyval) : M reply :=
  let search_payload := search_payload v search_query user_collection_id in
  let url := Py.rstrip_chars "/" (api_url v) in
  let token := Py.strip (bearer_token v) in
  let timeout := Z.min (request_timeout v) 25 in
  emit (SearchPost url token search_payload timeout) ;;;
  match search_post E url token search_payload timeout with
  | PostTimeout _ => ret (Message msg_timeout)
  | PostConnectionError _ => ret (Message (msg_connection v))
  | PostRequestException msg => ret (Message (msg_request_failed msg))
  | PostResponse r =>
      match check_response E r with
      | inl failure => ret (Message failure)
      | inr response_data =>
          lift (context_from_response v E query search_query
                  custom_instructions response_data)
      end
  end.

Definition r2r_search_context (v : Valves) (E : env) (query : string)
  (user : user_arg) : M reply :=
  catch
    (if negb (Py.truthy_str query) then ret (Message msg_invalid_query)
     else
       let '(search_query, custom_instructions) := _parse_user_input E query in
       if negb (Py.truthy_str search_query) || (Py.len (Py.strip search_query) <? 3)
       then ret (Message (msg_query_too_short search_query))
       else if negb (Py.truthy_str (Py.strip (bearer_token v)))
       then ret (Message msg_missing_token)
       else
         user_collection_id <- resolve_permissions v E user ;;
         search_and_build v E query search_query custom_instructions
           user_collection_id)
    (fun e => ret (Message (msg_tool_failed E e))).

End R2RTool.

(** * Specification-level definitions *)

(** A string of digits: at least one character, each of them accepted
    by [str.isdigit]. *)
Definition digits (s : string) : Prop :=
  s <> "" /\ Py.all_chars Py.isdigit_char s = true.

(** The citation keys in the order of the description, and the label a
    metadata mapping holds under a key: a string value that is not
    blank, trimmed. *)
Definition citation_keys : list string :=
  ["title"; "source"; "filename"; "file_name"; "name"; "document_id"].

Definition label_at (meta : pyval) (key : string) : option string :=
  match meta with
  | PDict d =>
      match Val.assoc key d with
      | Some (PStr s) =>
          if Py.truthy_str (Py.strip s) then Some (Py.strip s) else None
      | _ => None
      end
  | _ => None
  end.

Fixpoint first_some {A B} (f : A -> option B) (l : list A) : option B :=
  match l with
  | [] => None
  | a :: r => match f a with Some b => Some b | None => first_some f r end
  end.

(** The citation identifier as the description words it: the first
    label along [citation_keys], else ["Unknown"]. *)
Definition citation_identifier_spec (meta : pyval) : string :=
  match first_some (label_at meta) citation_keys with
  | Some s => s
  | None => "Unknown"
  end.

Definition default_marker : string := "files__default:".

(** The exact pattern of the description: the marker followed by
    digits and nothing else. *)
Definition matches_default_pattern (filename : string) : Prop :=
  exists d, digits d /\ filename = default_marker ++ d.

(** The number a chunk's score stands for, [0.0] when the chunk has no
    score; [None] when the chunk is not a dict or the score not a
    number. *)
Definition score_value (chunk : pyval) : option Q :=
  match chunk with
  | PDict d =>
      match Val.assoc "score" d with
      | Some s => number_of s
      | None => Some 0%Q
      end
  | _ => None
  end.

Definition scored (chunk : pyval) : Prop :=
  exists q, score_value chunk = Some q.

(** "Strictly below the floor". *)
Definition below_floor (floor : Q) (chunk : pyval) : Prop :=
  exists q, score_value chunk = Some q /\ (q < floor)%Q.

Definition meets_floor (floor : Q) (chunk : pyval) : bool :=
  match score_value chunk with
  | Some q => Qle_bool floor q
  | None => false
  end.

(** ** A reference configuration *)

(** The defaults of the valves, with a bearer token set and the system
    prompt cut to its first line. *)
Definition default_valves : Valves :=
  {| LOCAL_MODEL := "ga3/qwen3:30b-a3b";
     api_url := "http://your-r2r-server:7272/v3/retrieval/search";
     nextcloud_base_url := "https://your-nextcloud.domain.com";
     bearer_token := "token";
     ldap_server_uri := "ldap://your-ad-server.domain.com:389";
     ldap_bind_user := "";
     ldap_bind_password := "";
     ldap_search_base := "DC=domain,DC=com";
     ldap_user_filter := "(mail={email})";
     ldap_guid_attribute := "objectGUID";
     collections_api_url := "http://your-r2r-server:7272/v3/collections/name";
     default_owner_id := "00000000-0000-0000-0000-000000000000";
     enforce_permissions := true;
     ldap_timeout := 10;
     use_hybrid_search := true;
     search_limit := 10;
     max_chunks_in_context := 8;
     max_chars_per_chunk := 1200;
     min_relevance_score := 0;
     system_prompt := "## CRITICAL CITATION RULES - MUST FOLLOW EXACTLY:";
     request_timeout := 30;
     include_metadata := true;
     enable_source_emission := true |}.

(** ** The structured block *)

Definition dquote : string := String (ascii_of_nat 34) "".

(** A structured input: a leading marker and a further one after it. *)
Definition is_structured (input_text : string) : bool :=
  Py.startswith input_text "---"
  && Py.contains "---" (Py.slice_from input_text 3).

Definition block_lines (input_text : string) : list string :=
  Py.split (yaml_block input_text) newline.

Definition is_search_line (line : string) : bool :=
  Py.startswith (Py.strip line) "search:".

Definition is_instructions_line (line : string) : bool :=
  Py.startswith (Py.strip line) "instructions:".

(** The value of a [search:] line: what follows the key, trimmed of
    whitespace and then of quote characters at both ends. *)
Definition search_value (line : string) : string :=
  Py.strip_chars quote_chars (Py.strip (Py.slice_from (Py.strip line) 7)).

Definition last_opt {A} (l : list A) : option A :=
  match rev l with
  | [] => None
  | a :: _ => Some a
  end.

(** "The first non-empty [search:] value", as the description words
    it. *)
Definition first_nonempty_search_value (lines : list string) : option string :=
  first_some
    (fun line =>
       if is_search_line line && Py.truthy_str (search_value line)
       then Some (search_value line) else None)
    lines.

(** The number of characters of a string that are not whitespace. *)
Fixpoint nonspace_count (s : string) : nat :=
  match s with
  | EmptyString => O
  | String c r =>
      if Py.isspace_char c then nonspace_count r else S (nonspace_count r)
  end.

(** The raw input of a request to the pipe: the content of its last
    message, trimmed. *)
Definition user_query_of (m : message) : string :=
  Py.strip (match content m with Some c => c | None => "" end).

(** A computation is regular when it only appends to the trace and its
    result does not depend on the events already recorded. *)
Definition regular {A} (m : M A) : Prop :=
  forall t, m t = (fst (m []), (t ++ snd (m []))%list).

(** A computation is quiet when it sends no search request. *)
Definition quiet {A} (m : M A) : Prop :=
  Forall (fun ev => is_search ev = false) (events m).

(** The filter a request body carries under [search_settings]. *)
Definition payload_filters (payload : pyval) : option pyval :=
  match payload with
  | PDict body =>
      match Val.assoc "search_settings" body with
      | Some (PDict settings) => Val.assoc "filters" settings
      | _ => None
      end
  | _ => None
  end.

(** A collection scope is resolved for a request: enforcement is on and
    the lookups end in a collection identifier that is truthy. *)
Definition pipe_scope (v : Valves) (E : env) (u : option user) (c : pyval) : Prop :=
  enforce_permissions v = true /\
  exists usr e,
    u = Some usr /\ email usr = Some e /\ Py.contains "@" e = true /\
    result (R2RPipe._get_user_collection_id v E e) = Ret c /\
    Val.truthy c = true.

Definition tool_scope (v : Valves) (E : env) (u : R2RTool.user_arg) (c : pyval)
  : Prop :=
  enforce_permissions v = true /\
  exists g,
    result (R2RTool._do_ldap_lookup v E (R2RTool.find_user_email E u)) = Ret (Some g) /\
    result (R2RTool._get_collection_from_guid v E g) = Ret c /\
    Val.truthy c = true.

(** No scope is found for an address: the directory lookup ends in no
    GUID, or in a GUID for which the collection lookup ends in nothing
    truthy. *)
Definition unresolved_pipe (v : Valves) (E : env) (e : string) : Prop :=
  result (R2RPipe._ldap_lookup_user_guid E e (ldap_config_of v)) = Ret None \/
  exists g c,
    result (R2RPipe._ldap_lookup_user_guid E e (ldap_config_of v)) = Ret (Some g) /\
    result (_get_collection_id_from_guid E g (r2r_config_of v)) = Ret c /\
    Val.truthy c = false.

(** The directory answers a lookup: the library is there, the address
    is not blank, the bind succeeds, and the first entry found carries
    the GUID attribute with value [val]. *)
Definition directory_answers (E : env) (cfg : ldap_config) (email : string)
  (val : ldapval) : Prop :=
  LDAP_AVAILABLE E = true /\
  Py.truthy_str (Py.strip email) = true /\
  ldap_connect E cfg = Ret true /\
  exists search_filter rest,
    filter_format E cfg email = Ret search_filter /\
    ldap_entries E cfg search_filter = Ret (Some val :: rest).

(** The conforming values of the GUID attribute, with the canonical
    text of the UUID they stand for: sixteen raw bytes, UUID text that
    may be wrapped in braces, and a list that starts with either. *)
Inductive denotes (E : env) : ldapval -> string -> Prop :=
| DBytes b c :
    uuid_bytes_str E b = Some c -> denotes E (LOne (ABytes b)) c
| DText s c :
    uuid_text_str E (Py.strip (Py.strip_chars "{}" s)) = Some c ->
    denotes E (LOne (AStr s)) c
| DListBytes b c rest :
    uuid_bytes_str E b = Some c -> denotes E (LMany (ABytes b :: rest)) c
| DListText s c rest :
    uuid_text_str E (Py.strip (Py.strip_chars "{}" s)) = Some c ->
    denotes E (LMany (AStr s :: rest)) c.

(** ** A reference environment *)

(** A plain model of [uuid.UUID] on well-formed arguments, for the
    examples: sixteen bytes, or thirty-two hexadecimal digits with
    optional hyphens, printed in the canonical lower-case form. *)
Definition hex_digit (n : nat) : ascii :=
  match String.get n "0123456789abcdef" with
  | Some c => c
  | None => "0"%char
  end.

Definition hex_of_byte (b : ascii) : string :=
  let n := nat_of_ascii b in
  String (hex_digit (n / 16)) (String (hex_digit (n mod 16)) "").

Fixpoint hex_of_bytes (b : list ascii) : string :=
  match b with
  | [] => ""
  | x :: r => hex_of_byte x ++ hex_of_bytes r
  end.

Definition hyphenate (h : string) : string :=
  Py.slice h 0 8 ++ "-" ++ Py.slice h 8 12 ++ "-" ++ Py.slice h 12 16 ++ "-"
  ++ Py.slice h 16 20 ++ "-" ++ Py.slice_from h 20.

Definition reference_uuid_of_bytes (b : list ascii) : option string :=
  if (List.length b =? 16)%nat then Some (hyphenate (hex_of_bytes b)) else None.

Definition is_hex_char (c : ascii) : bool :=
  Py.isdigit_char c || Py.mem_char c "abcdefABCDEF".

Definition lower_char (c : ascii) : ascii :=
  let n := nat_of_ascii c in
  if ((65 <=? n) && (n <=? 90))%nat then ascii_of_nat (n + 32) else c.

Fixpoint hex_of_text (s : string) : string :=
  match s with
  | EmptyString => EmptyString
  | String c r =>
      if Ascii.eqb c "-" then hex_of_text r
      else String (lower_char c) (hex_of_text r)
  end.

Definition reference_uuid_of_text (s : string) : option string :=
  let h := hex_of_text s in
  if (String.length h =? 32)%nat && Py.all_chars is_hex_char h
  then Some (hyphenate h) else None.

(** An environment in which the directory is reachable and holds
    [entries] for every address, the collection lookup answers 200 with
    [collection_id] under [results.id], and the search answers 200 with
    [chunks] under [results.chunk_search_results]. *)
Definition reference_env (entries : list (option ldapval))
  (collection_id : pyval) (chunks : list pyval) : env :=
  {| LDAP_AVAILABLE := true;
     ldap_connect := fun _ => Ret true;
     filter_format := fun _ email => Ret ("(mail=" ++ email ++ ")");
     ldap_entries := fun _ _ => Ret entries;
     ldap_bound_after := fun _ _ => true;
     uuid_bytes_str := reference_uuid_of_bytes;
     uuid_text_str := reference_uuid_of_text;
     collections_get := fun _ _ _ =>
       Ret {| status_code := 200;
              json := Some (PDict [("results", PDict [("id", collection_id)])]);
              text := ""; http_error := ""; json_error := "" |};
     search_post := fun _ _ _ _ =>
       PostResponse
         {| status_code := 200;
            json := Some (PDict [("results",
                                  PDict [("chunk_search_results", PList chunks)])]);
            text := ""; http_error := ""; json_error := "" |};
     re_search := fun _ _ => None;
     generate_chat_completion := fun _ _ _ => Ret "answer";
     user_email_alternative := None;
     exn_text := fun _ => "error";
     json_dumps := fun _ => "{}";
     str_of_float := fun _ => "0.0" |}.

(** The valves with permission enforcement switched. *)
Definition with_enforcement (b : bool) (v : Valves) : Valves :=
  {| LOCAL_MODEL := LOCAL_MODEL v;
     api_url := api_url v;
     nextcloud_base_url := nextcloud_base_url v;
     bearer_token := bearer_token v;
     ldap_server_uri := ldap_server_uri v;
     ldap_bind_user := ldap_bind_user v;
     ldap_bind_password := ldap_bind_password v;
     ldap_search_base := ldap_search_base v;
     ldap_user_filter := ldap_user_filter v;
     ldap_guid_attribute := ldap_guid_attribute v;
     collections_api_url := collections_api_url v;
     default_owner_id := default_owner_id v;
     enforce_permissions := b;
     ldap_timeout := ldap_timeout v;
     use_hybrid_search := use_hybrid_search v;
     search_limit := search_limit v;
     max_chunks_in_context := max_chunks_in_context v;
     max_chars_per_chunk := max_chars_per_chunk v;
     min_relevance_score := min_relevance_score v;
     system_prompt := system_prompt v;
     request_timeout := request_timeout v;
     include_metadata := include_metadata v;
     enable_source_emission := enable_source_emission v |}.

(** The reference valves with another relevance floor and another
    maximum of chunks in the context. *)
Definition with_curation (floor : Q) (max_chunks : Z) (v : Valves) : Valves :=
  {| LOCAL_MODEL := LOCAL_MODEL v;
     api_url := api_url v;
     nextcloud_base_url := nextcloud_base_url v;
     bearer_token := bearer_token v;
     ldap_server_uri := ldap_server_uri v;
     ldap_bind_user := ldap_bind_user v;
     ldap_bind_password := ldap_bind_password v;
     ldap_search_base := ldap_search_base v;
     ldap_user_filter := ldap_user_filter v;
     ldap_guid_attribute := ldap_guid_attribute v;
     collections_api_url := collections_api_url v;
     default_owner_id := default_owner_id v;
     enforce_permissions := enforce_permissions v;
     ldap_timeout := ldap_timeout v;
     use_hybrid_search := use_hybrid_search v;
     search_limit := search_limit v;
     max_chunks_in_context := max_chunks;
     max_chars_per_chunk := max_chars_per_chunk v;
     min_relevance_score := floor;
     system_prompt := system_prompt v;
     request_timeout := request_timeout v;
     include_metadata := include_metadata v;
     enable_source_emission := enable_source_emission v |}.

(** A chunk with a text, a score and an empty metadata mapping, and
    three of them in the order the search returned them. *)
Definition scored_chunk (text : string) (score : Q) : pyval :=
  PDict [("text", PStr text); ("score", PFloat score)].

Definition ranked_chunks : list pyval :=
  [scored_chunk "low" (4 # 10); scored_chunk "high" (7 # 10);
   scored_chunk "higher" (9 # 10)].

Definition user_message (c : string) : message :=
  {| role := Some "user"; content := Some c |}.

Definition ann : user :=
  {| email := Some "ann@example.com"; id := Some "u1" |}.

Definition ann_json : R2RTool.user_arg :=
  R2RTool.UserObject (PDict [("email", PStr "ann@example.com")]).

Definition guid_bytes_example : list ascii :=
  map ascii_of_nat
    [171; 205; 239; 1; 35; 69; 103; 137; 171; 205; 239; 1; 35; 69; 103; 137]%nat.

Definition guid_text_example : string := "{abcdef01-2345-6789-abcd-ef0123456789}".

Definition example_chunk : pyval :=
  PDict [("text", PStr "Leave is granted on request.");
         ("score", PFloat (7 # 10));
         ("metadata", PDict [("title", PStr "Policy Doc");
                             ("filename", PStr "files__default:8060008")])].

(** The directory knows nobody. *)
Definition no_account_env : env := reference_env [] PNone [example_chunk].

(** The directory holds the GUID as raw bytes, and the GUID has the
    collection [c-1]. *)
Definition account_env : env :=
  reference_env [Some (LOne (ABytes guid_bytes_example))] (PStr "c-1")
    [example_chunk].

(** The directory holds the GUID as brace-wrapped text. *)
Definition text_account_env : env :=
  reference_env [Some (LOne (AStr guid_text_example))] (PStr "c-1")
    [example_chunk].

Definition two_search_lines : string :=
  "---" ++ newline ++ "search: cats" ++ newline ++ "search: dogs" ++ newline
  ++ "---".

Definition quoted_block : string :=
  "---" ++ newline ++ "search: " ++ dquote ++ "cats" ++ dquote ++ newline
  ++ "instructions: " ++ dquote ++ "be brief" ++ dquote ++ newline ++ "---".

(** * Further code of the two files *)

(** ** Metadata lines *)

Module Meta.

(** [sep.join(parts)]. *)
Fixpoint join (sep : string) (parts : list string) : string :=
  match parts with
  | [] => ""
  | [p] => p
  | p :: rest => p ++ sep ++ join sep rest
  end.

Definition is_not_none (x : pyval) : bool :=
  match x with PNone => false | _ => true end.

(** One turn of a loop of [_format_metadata_info]:
    [if key in meta and <test>(meta[key]): info_parts.append(f"{key}: {meta[key]}")];
    [fmt] is the text an f-string gives a value. *)
Definition info_part (fmt : pyval -> string) (d : list (string * pyval))
  (test : pyval -> bool) (key : string) : list string :=
  match Val.assoc key d with
  | Some x => if test x then [key ++ ": " ++ fmt x] else []
  | None => []
  end.

Definition _format_metadata_info (fmt : pyval -> string) (meta : pyval)
  : list string :=
  match meta with
  | PDict d =>
      (flat_map (info_part fmt d Val.truthy)
         ["document_id"; "document_type"; "filename"; "file_name"]
       ++ flat_map (info_part fmt d is_not_none)
            ["chunk_index"; "page"; "page_number"; "section"; "chapter"]
       ++ flat_map (info_part fmt d Val.truthy)
            ["created_at"; "updated_at"; "date"; "year"]
       ++ flat_map (info_part fmt d is_not_none)
            ["size_in_bytes"; "total_tokens"])%list
  | _ => []
  end.

(** The [meta_info] list of a block, built under
    [if self.valves.include_metadata:] from the chunk (a dict) and its
    metadata; [metadata.get] raises on a metadata that is not a dict. *)
Definition meta_info (fmt : pyval -> string) (chunk : list (string * pyval))
  : res (list string) :=
  match chunk_metadata chunk with
  | PDict m =>
      let filename := get_filename m in
      let document_id :=
        match Val.assoc "document_id" chunk with Some x => x | None => PStr "" end in
      let first :=
        if Val.truthy filename then ["filename: " ++ fmt filename] else [] in
      let other_meta := _format_metadata_info fmt (PDict m) in
      let other_meta :=
        if Val.truthy document_id
        then ("document_id: " ++ fmt document_id) :: other_meta
        else other_meta in
      Ret (first ++ firstn 5 other_meta)%list
  | _ => Raise AttributeError
  end.

(** The line appended to the context, if any. *)
Definition metadata_line (parts : list string) : option string :=
  match parts with
  | [] => None
  | _ => Some ("Metadata: " ++ join ", " parts)
  end.

End Meta.

(** ** Shapes of traces *)

Definition is_chat (ev : event) : bool :=
  match ev with ChatCompletion _ _ _ => true | _ => false end.

(** Calls to the directory or to the collection lookup. *)
Definition is_lookup (ev : event) : bool :=
  match ev with
  | LdapBind _ | LdapSearch _ _ | LdapUnbind | CollectionsGet _ _ _ => true
  | _ => false
  end.

(** The [limit] and [query] a request body carries. *)
Definition payload_limit (payload : pyval) : option pyval :=
  match payload with
  | PDict body =>
      match Val.assoc "search_settings" body with
      | Some (PDict settings) => Val.assoc "limit" settings
      | _ => None
      end
  | _ => None
  end.

Definition payload_query (payload : pyval) : option pyval :=
  match payload with
  | PDict body => Val.assoc "query" body
  | _ => None
  end.

(** A string without lower-case letters. *)
Definition no_lowercase (s : string) : Prop :=
  Py.all_chars
    (fun c => negb ((97 <=? nat_of_ascii c) && (nat_of_ascii c <=? 122))%nat) s
  = true.

(** A string that [strip] leaves as it is. *)
Definition trimmed (s : string) : Prop := Py.strip s = s.

(** A computation emits only events that satisfy [P]. *)
Definition only (P : event -> bool) {A} (m : M A) : Prop :=
  Forall (fun ev => P ev = true) (events m).

(** The user of a request to the pipe can be identified: there is an
    address and it contains [@]. *)
Definition identified (u : option user) : bool :=
  match u with
  | Some usr =>
      match email usr with
      | Some e => Py.contains "@" e
      | None => false
      end
  | None => false
  end.

(** ** Variants of the reference configuration *)

Definition with_token (token : string) (v : Valves) : Valves :=
  {| LOCAL_MODEL := LOCAL_MODEL v;
     api_url := api_url v;
     nextcloud_base_url := nextcloud_base_url v;
     bearer_token := token;
     ldap_server_uri := ldap_server_uri v;
     ldap_bind_user := ldap_bind_user v;
     ldap_bind_password := ldap_bind_password v;
     ldap_search_base := ldap_search_base v;
     ldap_user_filter := ldap_user_filter v;
     ldap_guid_attribute := ldap_guid_attribute v;
     collections_api_url := collections_api_url v;
     default_owner_id := default_owner_id v;
     enforce_permissions := enforce_permissions v;
     ldap_timeout := ldap_timeout v;
     use_hybrid_search := use_hybrid_search v;
     search_limit := search_limit v;
     max_chunks_in_context := max_chunks_in_context v;
     max_chars_per_chunk := max_chars_per_chunk v;
     min_relevance_score := min_relevance_score v;
     system_prompt := system_prompt v;
     request_timeout := request_timeout v;
     include_metadata := include_metadata v;
     enable_source_emission := enable_source_emission v |}.

(** An installation without the [ldap3] library, and one whose search
    endpoint behaves as given. *)
Definition without_ldap (E : env) : env :=
  {| LDAP_AVAILABLE := false;
     ldap_connect := ldap_connect E;
     filter_format := filter_format E;
     ldap_entries := ldap_entries E;
     ldap_bound_after := ldap_bound_after E;
     uuid_bytes_str := uuid_bytes_str E;
     uuid_text_str := uuid_text_str E;
     collections_get := collections_get E;
     search_post := search_post E;
     re_search := re_search E;
     generate_chat_completion := generate_chat_completion E;
     user_email_alternative := user_email_alternative E;
     exn_text := exn_text E;
     json_dumps := json_dumps E;
     str_of_float := str_of_float E |}.

Definition with_search (outcome : post_result) (E : env) : env :=
  {| LDAP_AVAILABLE := LDAP_AVAILABLE E;
     ldap_connect := ldap_connect E;
     filter_format := filter_format E;
     ldap_entries := ldap_entries E;
     ldap_bound_after := ldap_bound_after E;
     uuid_bytes_str := uuid_bytes_str E;
     uuid_text_str := uuid_text_str E;
     collections_get := collections_get E;
     search_post := fun _ _ _ _ => outcome;
     re_search := re_search E;
     generate_chat_completion := generate_chat_completion E;
     user_email_alternative := user_email_alternative E;
     exn_text := exn_text E;
     json_dumps := json_dumps E;
     str_of_float := str_of_float E |}.

(** A chunk that scores below every floor of the valves' range. *)
Definition poor_chunk : pyval :=
  PDict [("text", PStr "Unrelated."); ("score", PFloat (-1 # 10))].

Definition poor_env : env :=
  reference_env [Some (LOne (ABytes guid_bytes_example))] (PStr "c-1")
    [poor_chunk].

(** ** Blocks and sources *)

(** What both entry points guarantee of a block: a citation identifier
    that is not empty and has no surrounding whitespace, a text within
    the budget, and with a file identifier, which is a non-empty string
    of characters that [str.isdigit] accepts, the link made from it. *)
Definition block_ok (v : Valves) (b : entry) : Prop :=
  e_citation_id b <> "" /\ trimmed (e_citation_id b) /\
  (3 <= max_chars_per_chunk v -> Py.len (e_text b) <= max_chars_per_chunk v) /\
  (forall d, e_file_id b = Some d ->
             digits d /\
             e_link b = Some (nextcloud_link (nextcloud_base_url v) d)).

(** A source of the tool beside its block: the same name, the link or
    the empty string, and at most 300 characters of the text. *)
Definition source_ok (p : R2RTool.source * entry) : Prop :=
  R2RTool.s_name (fst p) = e_citation_id (snd p) /\
  R2RTool.s_url (fst p) = match e_link (snd p) with Some l => l | None => "" end /\
  Py.len (R2RTool.s_content (fst p)) <= 300.

(** ** [Tools.health_check] *)

Module Health.

(** [s.replace(old, new)]: the occurrences of [old] are replaced from
    the left, without overlap; [skip] counts the characters of an
    occurrence that is being stepped over.  With an empty [old], [new]
    is put before every character and at the end. *)
Fixpoint intersperse (new s : string) : string :=
  match s with
  | EmptyString => new
  | String c r => new ++ String c (intersperse new r)
  end.

Fixpoint replace_go (old new : string) (skip : nat) (s : string) : string :=
  match s with
  | EmptyString => EmptyString
  | String c r =>
      match skip with
      | S k => replace_go old new k r
      | O =>
          if Py.prefixb old s
          then new ++ replace_go old new (String.length old - 1) r
          else String c (replace_go old new O r)
      end
  end.

Definition replace (s old new : string) : string :=
  match old with
  | EmptyString => intersperse new s
  | _ => replace_go old new O s
  end.

Definition msg_no_token : string := "❌ No bearer token configured".
Definition msg_no_url : string := "❌ No API URL configured".

(** The report and the URLs requested, in order.  [get] is
    [requests.get(test_url, timeout=5)]: the status of the response, or
    [None] for any exception, which the inner [except:] catches; nothing
    else in the body raises, so the outer handler is never entered. *)
Definition health_check (v : Valves) (get : string -> option Z)
  : string * list string :=
  if negb (Py.truthy_str (Py.strip (bearer_token v))) then (msg_no_token, [])
  else if negb (Py.truthy_str (Py.strip (api_url v))) then (msg_no_url, [])
  else
    let test_url := replace (api_url v) "/search" "/health" in
    let api_status :=
      match get test_url with
      | Some status_code => "API: " ++ Py.str_of_int status_code
      | None => "API: Cannot connect"
      end in
    ("✅ R2R Tool Ready | " ++ api_status ++ " | Token: "
     ++ (if Py.truthy_str (bearer_token v) then "✓" else "✗"),
     [test_url]).

End Health.

(** * Properties *)

(** ** Strings *)

Lemma length_take (n : nat) (s : string) :
  String.length (Py.take n s) = Nat.min n (String.length s).
Proof.
  revert s; induction n as [|n IH]; intros [|c r]; simpl; auto.
Qed.

Lemma take_is_substring (n : nat) (s : string) :
  Py.take n s = String.substring 0 n s.
Proof.
  revert s; induction n as [|n IH]; intros [|c r]; simpl; auto.
  now rewrite IH.
Qed.

Lemma length_app (s t : string) :
  String.length (s ++ t) = (String.length s + String.length t)%nat.
Proof. induction s; simpl; auto. Qed.

Lemma clamp_nonneg (s : string) (i : Z) :
  0 <= i -> Py.clamp s i = Z.to_nat (Z.min i (Py.len s)).
Proof.
  intros H. unfold Py.clamp. destruct (Z.ltb_spec i 0); [lia | reflexivity].
Qed.

Lemma isdigit_digits (s : string) : Py.isdigit s = true -> digits s.
Proof.
  destruct s as [|c r]; simpl; [discriminate|].
  intros H; split; [discriminate | exact H].
Qed.

Lemma digits_isdigit (s : string) : digits s -> Py.isdigit s = true.
Proof.
  intros [Hne H]. destruct s as [|c r]; [now elim Hne | exact H].
Qed.

(** ** Truncation *)

(** C9. For a budget [n] of at least 3 (every configured budget is at
    least 100), [_truncate] returns [s] unchanged when [len s <= n], and
    otherwise the first [n - 3] characters of [s] followed by a
    three-character ellipsis, [n] characters in all; truncating
    ["abcdefghij"] to 5 gives ["ab..."]. *)
Theorem truncate_spec (s : string) (n : Z) (Hn : 3 <= n) :
  (Py.len s <= n -> _truncate (Some s) n = s) /\
  (n < Py.len s ->
     _truncate (Some s) n = String.substring 0 (Z.to_nat (n - 3)) s ++ "..." /\
     Py.len (String.substring 0 (Z.to_nat (n - 3)) s) = n - 3 /\
     Py.len (_truncate (Some s) n) = n) /\
  _truncate (Some "abcdefghij") 5 = "ab...".
Proof.
  unfold _truncate, Py.len. repeat split.
  - intros H. apply Z.leb_le in H. now rewrite H.
  - apply Z.leb_gt in H. rewrite H.
    unfold Py.slice_to. rewrite clamp_nonneg by lia. unfold Py.len.
    rewrite Z.min_l by lia. now rewrite take_is_substring.
  - rewrite <- take_is_substring, length_take. lia.
  - apply Z.leb_gt in H. rewrite H.
    unfold Py.slice_to. rewrite clamp_nonneg by lia. unfold Py.len.
    rewrite Z.min_l by lia. rewrite length_app, length_take. simpl. lia.
Qed.

Lemma truncate_spec_witness :
  3 <= 5 /\ _truncate (Some "abcdefghij") 5 = "ab...".
Proof.
  split; [lia | apply (truncate_spec "abcdefghij" 5); lia].
Defined.

(** ** Citation identifiers *)

Lemma first_label_spec (d : list (string * pyval)) (keys : list string) :
  first_label d keys = first_some (label_at (PDict d)) keys.
Proof.
  induction keys as [|k r IH]; simpl; auto.
  destruct (Val.assoc k d) as [[| | | |s| |]|]; auto.
  destruct (Py.truthy_str (Py.strip s)); auto.
Qed.

Lemma first_some_app {A B} (f : A -> option B) (l1 l2 : list A) :
  first_some f (l1 ++ l2) =
  match first_some f l1 with Some b => Some b | None => first_some f l2 end.
Proof.
  induction l1 as [|a r IH]; simpl; auto. destruct (f a); auto.
Qed.

Lemma first_some_none {A B} (f : A -> option B) (l : list A) :
  (forall a, In a l -> f a = None) -> first_some f l = None.
Proof.
  induction l as [|a r IH]; simpl; intros H; auto.
  rewrite (H a) by auto. apply IH; auto.
Qed.

Lemma citation_identifier_refines (meta : pyval) :
  _get_citation_identifier meta = citation_identifier_spec meta.
Proof.
  unfold citation_identifier_spec.
  destruct meta as [| | | | | |d]; try reflexivity.
  unfold _get_citation_identifier.
  change citation_keys with
    (["title"; "source"; "filename"] ++ ["file_name"; "name"; "document_id"])%list.
  rewrite first_some_app, !first_label_spec.
  destruct (first_some _ ["title"; "source"; "filename"]); reflexivity.
Qed.

(** C7. The citation identifier is the label under the first of the keys
    [title], [source], [filename], [file_name], [name], [document_id]
    that holds a string which is not blank, trimmed of whitespace, and
    ["Unknown"] when no key holds one; for [{"title": "Policy Doc"}] it
    is ["Policy Doc"]. *)
Theorem citation_identifier_first_label (meta : pyval) :
  _get_citation_identifier meta = citation_identifier_spec meta /\
  (forall before key after s,
      citation_keys = (before ++ key :: after)%list ->
      (forall k, In k before -> label_at meta k = None) ->
      label_at meta key = Some s ->
      _get_citation_identifier meta = s) /\
  ((forall k, In k citation_keys -> label_at meta k = None) ->
   _get_citation_identifier meta = "Unknown") /\
  _get_citation_identifier (PDict [("title", PStr "Policy Doc")]) = "Policy Doc".
Proof.
  split; [apply citation_identifier_refines|]. split; [|split].
  - intros before key after s Hk Hb Hs.
    rewrite citation_identifier_refines. unfold citation_identifier_spec.
    rewrite Hk, first_some_app, (first_some_none _ before Hb). simpl.
    now rewrite Hs.
  - intros H. rewrite citation_identifier_refines.
    unfold citation_identifier_spec. now rewrite (first_some_none _ _ H).
  - reflexivity.
Qed.

(** ** File identifiers and links *)

Lemma prefixb_cons (a b : ascii) (p r : string) :
  Py.prefixb (String a p) (String b r) = Ascii.eqb a b && Py.prefixb p r.
Proof. reflexivity. Qed.

Lemma prefix_marker_digit (c : ascii) (r : string) :
  Py.isdigit_char c = true -> Py.prefixb default_marker (String c r) = false.
Proof.
  intros H. unfold default_marker. rewrite prefixb_cons.
  destruct (Ascii.eqb_spec "f" c) as [<-|]; [discriminate H | reflexivity].
Qed.

Lemma index_of_marker_digits (s : string) :
  Py.all_chars Py.isdigit_char s = true -> Py.index_of default_marker s = None.
Proof.
  induction s as [|c r IH]; intros H; [reflexivity|].
  simpl in H. apply andb_true_iff in H as [Hc Hr].
  unfold Py.index_of; fold Py.index_of.
  rewrite (prefix_marker_digit c r Hc), (IH Hr). reflexivity.
Qed.

Lemma split_marker_digits (s : string) :
  Py.all_chars Py.isdigit_char s = true -> Py.split_go default_marker 0 s = [s].
Proof.
  induction s as [|c r IH]; intros H; [reflexivity|].
  simpl in H. apply andb_true_iff in H as [Hc Hr].
  unfold Py.split_go; fold Py.split_go.
  rewrite (prefix_marker_digit c r Hc), (IH Hr). reflexivity.
Qed.

Lemma digit_not_space (c : ascii) :
  Py.isdigit_char c = true -> Py.isspace_char c = false.
Proof.
  unfold Py.isdigit_char, Py.isspace_char. cbv zeta.
  generalize (nat_of_ascii c). intros n H.
  rewrite !orb_true_iff, andb_true_iff, !Nat.leb_le, !Nat.eqb_eq in H.
  apply not_true_is_false. intros H'.
  rewrite !orb_true_iff, !andb_true_iff, !Nat.leb_le, !Nat.eqb_eq in H'. lia.
Qed.

Lemma rstrip_digits (s : string) :
  Py.all_chars Py.isdigit_char s = true -> Py.rstrip_by Py.isspace_char s = s.
Proof.
  induction s as [|c r IH]; intros H; [reflexivity|].
  simpl in H. apply andb_true_iff in H as [Hc Hr].
  simpl. rewrite (IH Hr). destruct r; [|reflexivity].
  now rewrite (digit_not_space c Hc).
Qed.

Lemma strip_digits (s : string) :
  Py.all_chars Py.isdigit_char s = true -> Py.strip s = s.
Proof.
  intros H. unfold Py.strip, Py.strip_by.
  destruct s as [|c r]; [reflexivity|].
  assert (Hc : Py.isdigit_char c = true)
    by (simpl in H; now apply andb_true_iff in H as [Hc _]).
  simpl. rewrite (digit_not_space c Hc). now apply rstrip_digits.
Qed.

Lemma split_go_cons0 (sep : string) (c : ascii) (r : string) :
  Py.split_go sep 0 (String c r) =
  if Py.prefixb sep (String c r)
  then EmptyString :: Py.split_go sep (String.length sep - 1) r
  else match Py.split_go sep 0 r with
       | h :: t => String c h :: t
       | [] => [String c EmptyString]
       end.
Proof. reflexivity. Qed.

Lemma split_go_skip (p sep s : string) :
  Py.split_go sep (String.length p) (p ++ s) = Py.split_go sep 0 s.
Proof. induction p as [|a p IH]; [reflexivity | exact IH]. Qed.

Lemma index_of_prefix (sub s : string) :
  Py.prefixb sub s = true -> Py.index_of sub s = Some 0%nat.
Proof. destruct s; simpl; intros ->; reflexivity. Qed.

Lemma default_pattern_exact (d : string) :
  digits d -> default_pattern_id (default_marker ++ d) = Some d.
Proof.
  intros Hd. pose proof (digits_isdigit d Hd) as Hi. destruct Hd as [_ Hall].
  unfold default_pattern_id, Py.contains, Py.split.
  change ("files__default:") with default_marker.
  assert (Hp : Py.prefixb default_marker (default_marker ++ d) = true)
    by reflexivity.
  assert (Hs : Py.split_go default_marker 0 (default_marker ++ d) = [""; d]).
  { change (default_marker ++ d) with (String "f" ("iles__default:" ++ d)).
    rewrite split_go_cons0.
    change (String "f" ("iles__default:" ++ d)) with (default_marker ++ d).
    rewrite Hp.
    change (String.length default_marker - 1)%nat
      with (String.length "iles__default:").
    now rewrite split_go_skip, (split_marker_digits d Hall). }
  rewrite (index_of_prefix _ _ Hp), Hs. simpl.
  rewrite (strip_digits d Hall), Hi. reflexivity.
Qed.

Lemma default_pattern_digits (f file_id : string) :
  default_pattern_id f = Some file_id -> digits file_id.
Proof.
  unfold default_pattern_id.
  destruct (Py.contains "files__default:" f); [|discriminate].
  destruct (Py.isdigit _) eqn:H; [|discriminate].
  intros [= <-]. now apply isdigit_digits.
Qed.

Lemma default_pattern_none_digits (d : string) :
  Py.all_chars Py.isdigit_char d = true -> default_pattern_id d = None.
Proof.
  intros H. unfold default_pattern_id, Py.contains.
  change ("files__default:") with default_marker.
  now rewrite (index_of_marker_digits d H).
Qed.

Lemma index_of_cons (sub : string) (a : ascii) (s : string) :
  Py.index_of sub (String a s) =
  if Py.prefixb sub (String a s) then Some 0%nat
  else option_map S (Py.index_of sub s).
Proof. reflexivity. Qed.

Lemma default_pattern_none_files (d : string) :
  Py.all_chars Py.isdigit_char d = true -> default_pattern_id ("files_" ++ d) = None.
Proof.
  intros H. unfold default_pattern_id, Py.contains.
  change ("files__default:") with default_marker.
  assert (Hi : Py.index_of default_marker ("files_" ++ d) = None).
  { pose proof (index_of_marker_digits d H) as Hd.
    destruct d as [|c r]; [reflexivity|].
    assert (Hc : Py.isdigit_char c = true)
      by (simpl in H; now apply andb_true_iff in H as [Hc _]).
    assert (Hu : Ascii.eqb "_" c = false)
      by (destruct (Ascii.eqb_spec "_" c) as [<-|]; [discriminate Hc | reflexivity]).
    assert (Hf : Ascii.eqb "f" c = false)
      by (destruct (Ascii.eqb_spec "f" c) as [<-|]; [discriminate Hc | reflexivity]).
    rewrite index_of_cons, (prefix_marker_digit c r Hc) in Hd.
    change ("files_" ++ String c r)
      with (String "f" (String "i" (String "l" (String "e" (String "s"
              (String "_" (String c r))))))).
    unfold default_marker in *.
    rewrite !index_of_cons, !prefixb_cons, Hu, Hf.
    cbn -[Py.index_of Py.prefixb].
    destruct (Py.index_of _ r); [discriminate Hd | reflexivity]. }
  now rewrite Hi.
Qed.

Lemma slice_from_files (d : string) : Py.slice_from ("files_" ++ d) 6 = d.
Proof.
  unfold Py.slice_from. rewrite clamp_nonneg by lia. unfold Py.len.
  rewrite length_app. simpl String.length.
  replace (Z.to_nat (Z.min 6 (Z.of_nat (6 + String.length d)))) with 6%nat by lia.
  reflexivity.
Qed.

#[local] Arguments Py.prefixb : simpl never.
#[local] Arguments Py.startswith : simpl never.
#[local] Arguments Py.index_of : simpl never.
#[local] Arguments Py.contains : simpl never.
#[local] Arguments Py.split_go : simpl never.
#[local] Arguments Py.isdigit : simpl never.
#[local] Arguments Py.strip : simpl never.
#[local] Arguments Py.slice_from : simpl never.
#[local] Arguments default_pattern_id : simpl never.
#[local] Arguments nextcloud_link : simpl never.

Lemma prefixb_app (p s : string) :
  Py.prefixb p s = true -> s = p ++ Py.drop (String.length p) s.
Proof.
  revert s; induction p as [|a p IH]; intros s H; [reflexivity|].
  destruct s as [|b r]; [discriminate H|].
  rewrite prefixb_cons in H. apply andb_true_iff in H as [Hab Hp].
  apply Ascii.eqb_eq in Hab as ->. simpl. now rewrite <- (IH r Hp).
Qed.

Lemma startswith_files (f : string) :
  Py.startswith f "files_" = true -> f = "files_" ++ Py.slice_from f 6.
Proof.
  intros H. pose proof (prefixb_app _ _ H) as E.
  assert (Hl : (6 <= String.length f)%nat)
    by (rewrite E, length_app; simpl; lia).
  unfold Py.slice_from. rewrite clamp_nonneg by lia. unfold Py.len.
  replace (Z.to_nat (Z.min 6 (Z.of_nat (String.length f)))) with 6%nat by lia.
  exact E.
Qed.

Lemma startswith_files_digit (c : ascii) (r : string) :
  Py.isdigit_char c = true -> Py.startswith (String c r) "files_" = false.
Proof.
  intros H. unfold Py.startswith. rewrite prefixb_cons.
  destruct (Ascii.eqb_spec "f" c) as [<-|]; [discriminate H | reflexivity].
Qed.

(** What [_extract_nextcloud_file_id] returns on a dict whose filename
    is a string. *)
Lemma extract_file_id_str (dct : list (string * pyval)) (f : string) :
  get_filename dct = PStr f ->
  _extract_nextcloud_file_id (PDict dct) =
  Ret (if negb (Py.truthy_str f) then None
       else match default_pattern_id f with
            | Some file_id => Some file_id
            | None =>
                if Py.startswith f "files_" && Py.isdigit (Py.slice_from f 6)
                then Some (Py.slice_from f 6)
                else if Py.isdigit f then Some f else None
            end).
Proof.
  intros Hf. unfold _extract_nextcloud_file_id. rewrite Hf. simpl.
  destruct (Py.truthy_str f); simpl; [|reflexivity].
  destruct (default_pattern_id f); [reflexivity|].
  destruct (Py.startswith f "files_" && Py.isdigit (Py.slice_from f 6));
    [reflexivity|].
  destruct (Py.isdigit f); reflexivity.
Qed.

Lemma extract_file_id_result (metadata : pyval) :
  match _extract_nextcloud_file_id metadata with
  | Ret None => True
  | Ret (Some file_id) => digits file_id
  | Raise _ =>
      exists dct x, metadata = PDict dct /\ Val.assoc "filename" dct = Some x /\
                    Val.truthy x = true /\ forall s, x <> PStr s
  end.
Proof.
  destruct metadata as [| | | | | |dct]; simpl; auto.
  unfold get_filename.
  destruct (Val.assoc "filename" dct) as [x|] eqn:Hx; simpl; auto.
  destruct (Val.truthy x) eqn:Ht; simpl; auto.
  destruct x as [|b|z|q|f|l|d']; simpl;
    try (exists dct; eexists; repeat split; [exact Hx | exact Ht | discriminate]).
  destruct (default_pattern_id f) as [file_id|] eqn:Hd.
  - now apply default_pattern_digits with f.
  - destruct (Py.startswith f "files_" && Py.isdigit (Py.slice_from f 6)) eqn:Hs.
    + apply andb_true_iff in Hs as [_ Hs]. now apply isdigit_digits.
    + destruct (Py.isdigit f) eqn:Hi; auto. now apply isdigit_digits.
Qed.

Lemma extract_file_id_forms (d : string) (rest : list (string * pyval)) :
  digits d ->
  _extract_nextcloud_file_id
    (PDict (("filename", PStr ("files__default:" ++ d)) :: rest)) = Ret (Some d) /\
  _extract_nextcloud_file_id
    (PDict (("filename", PStr ("files_" ++ d)) :: rest)) = Ret (Some d) /\
  _extract_nextcloud_file_id
    (PDict (("filename", PStr d) :: rest)) = Ret (Some d).
Proof.
  intros Hd. pose proof (digits_isdigit d Hd) as Hi.
  pose proof Hd as [Hne Hall]. repeat split.
  - rewrite (extract_file_id_str _ ("files__default:" ++ d)) by reflexivity.
    change ("files__default:" ++ d) with (default_marker ++ d).
    now rewrite (default_pattern_exact d Hd).
  - rewrite (extract_file_id_str _ ("files_" ++ d)) by reflexivity.
    rewrite (default_pattern_none_files d Hall), slice_from_files, Hi.
    reflexivity.
  - rewrite (extract_file_id_str _ d) by reflexivity.
    rewrite (default_pattern_none_digits d Hall), Hi.
    destruct d as [|c r]; [now elim Hne|].
    assert (Hc : Py.isdigit_char c = true)
      by (simpl in Hall; now apply andb_true_iff in Hall as [Hc _]).
    rewrite (startswith_files_digit c r Hc). reflexivity.
Qed.

Lemma digits_truthy (d : string) : digits d -> Py.truthy_str d = true.
Proof. intros [Hne _]. destruct d; [now elim Hne | reflexivity]. Qed.

Lemma pipe_link_digits (v : Valves) (metadata : pyval)
  (file_id link : option string) :
  R2RPipe.link_of_metadata v metadata = Ret (file_id, link) ->
  match link with
  | Some l => exists d, digits d /\ file_id = Some d /\
                        l = nextcloud_link (nextcloud_base_url v) d
  | None => file_id = None
  end.
Proof.
  unfold R2RPipe.link_of_metadata.
  pose proof (extract_file_id_result metadata) as H.
  destruct (_extract_nextcloud_file_id metadata) as [[d|]|e]; try discriminate.
  - rewrite (digits_truthy d H). intros [= <- <-]. now exists d.
  - now intros [= <- <-].
Qed.

(** C10, the defect.  The function is to return [None] or a string of
    digits on every metadata value, and guards the split of the
    filename with a [try]; the membership test before the [try] is not
    guarded, so on a filename that is a number, which a JSON metadata
    mapping can hold, it raises [TypeError] instead of returning. *)
Lemma extract_file_id_raises_on_number :
  _extract_nextcloud_file_id (PDict [("filename", PInt 8060008)]) = Raise TypeError /\
  ~ (exists r, _extract_nextcloud_file_id (PDict [("filename", PInt 8060008)]) = Ret r).
Proof.
  split; [reflexivity|]. intros [r H]. discriminate H.
Qed.

(** ** Occurrences of a substring *)

Lemma length_drop (n : nat) (s : string) :
  String.length (Py.drop n s) = (String.length s - n)%nat.
Proof.
  revert s; induction n as [|n IH]; intros [|c r]; simpl; auto.
Qed.

Lemma take_drop (n : nat) (s : string) : Py.take n s ++ Py.drop n s = s.
Proof.
  revert s; induction n as [|n IH]; intros [|c r]; simpl; auto.
  now rewrite IH.
Qed.

Lemma index_of_bound (sub s : string) (i : nat) :
  Py.index_of sub s = Some i -> (i + String.length sub <= String.length s)%nat.
Proof.
  revert i; induction s as [|a r IH]; intros i.
  - unfold Py.index_of. destruct (Py.prefixb sub "") eqn:H; [|discriminate].
    intros [= <-]. destruct sub; [simpl; lia | discriminate H].
  - rewrite index_of_cons. destruct (Py.prefixb sub (String a r)) eqn:H.
    + intros [= <-]. rewrite (prefixb_app _ _ H) at 1. rewrite length_app. lia.
    + destruct (Py.index_of sub r) as [j|]; [|discriminate].
      intros [= <-]. specialize (IH j eq_refl). simpl. lia.
Qed.

Lemma index_of_split (sub s : string) (i : nat) :
  Py.index_of sub s = Some i ->
  s = Py.take i s ++ sub ++ Py.drop (i + String.length sub) s.
Proof.
  revert i; induction s as [|a r IH]; intros i.
  - unfold Py.index_of. destruct (Py.prefixb sub "") eqn:H; [|discriminate].
    intros [= <-]. destruct sub; [reflexivity | discriminate H].
  - rewrite index_of_cons. destruct (Py.prefixb sub (String a r)) eqn:H.
    + intros [= <-]. exact (prefixb_app _ _ H).
    + destruct (Py.index_of sub r) as [j|]; [|discriminate].
      intros [= <-]. simpl. f_equal. now apply IH.
Qed.

Lemma prefixb_take (sub s : string) (n : nat) :
  Py.prefixb sub (Py.take n s) = true -> Py.prefixb sub s = true.
Proof.
  revert s n; induction sub as [|a p IH]; intros s n H; [reflexivity|].
  destruct n as [|n], s as [|b r]; try discriminate H.
  simpl Py.take in H. rewrite prefixb_cons in *.
  apply andb_true_iff in H as [H1 H2]. rewrite H1. simpl. now apply IH with n.
Qed.

(** No occurrence of a non-empty [sub] lies before the first one. *)
Lemma index_of_first (sub s : string) (i : nat) :
  sub <> "" -> Py.index_of sub s = Some i -> Py.index_of sub (Py.take i s) = None.
Proof.
  intros Hne. revert i; induction s as [|a r IH]; intros i.
  - unfold Py.index_of. destruct (Py.prefixb sub "") eqn:H; [|discriminate].
    destruct sub; [now elim Hne | discriminate H].
  - rewrite index_of_cons. destruct (Py.prefixb sub (String a r)) eqn:H.
    + intros [= <-]. simpl. unfold Py.index_of.
      destruct sub; [now elim Hne | reflexivity].
    + destruct (Py.index_of sub r) as [j|] eqn:Hj; [|discriminate].
      intros [= <-]. simpl Py.take. rewrite index_of_cons.
      destruct (Py.prefixb sub (String a (Py.take j r))) eqn:H'.
      * apply (prefixb_take sub (String a r) (S j)) in H'. congruence.
      * now rewrite (IH j eq_refl).
Qed.

Lemma append_assoc (a b c : string) : (a ++ b) ++ c = a ++ b ++ c.
Proof. induction a as [|x a IH]; [reflexivity | cbn [append]; now rewrite IH]. Qed.

Lemma prefixb_append (p s : string) : Py.prefixb p (p ++ s) = true.
Proof.
  induction p as [|a p IH]; [reflexivity|].
  cbn [append]. rewrite prefixb_cons, Ascii.eqb_refl. exact IH.
Qed.

Lemma index_of_append (sep pre rest : string) :
  Py.index_of sep (pre ++ sep ++ rest) <> None.
Proof.
  induction pre as [|c p IH].
  - cbn [append]. rewrite (index_of_prefix _ _ (prefixb_append sep rest)).
    discriminate.
  - cbn [append]. rewrite index_of_cons.
    destruct (Py.prefixb sep _); [discriminate|].
    destruct (Py.index_of sep (p ++ sep ++ rest)); [discriminate | contradiction].
Qed.

Lemma split_go_absent (sep s : string) :
  Py.index_of sep s = None -> Py.split_go sep 0 s = [s].
Proof.
  induction s as [|c r IH]; [reflexivity|].
  rewrite index_of_cons, split_go_cons0.
  destruct (Py.prefixb sep (String c r)); [discriminate|].
  destruct (Py.index_of sep r); [discriminate|].
  intros _. now rewrite IH.
Qed.

(** A string that holds a non-empty [sep] ends, after some occurrence
    of it, with a part that holds none. *)
Lemma last_occurrence (sep : string) :
  sep <> "" ->
  forall (n : nat) (s : string),
    (String.length s <= n)%nat -> Py.index_of sep s <> None ->
    exists pre rest, s = pre ++ sep ++ rest /\ Py.index_of sep rest = None.
Proof.
  intros Hne. induction n as [|n IH]; intros s Hlen Hs.
  - destruct s; [|cbn in Hlen; lia]. exfalso. apply Hs.
    unfold Py.index_of. destruct sep; [now elim Hne | reflexivity].
  - destruct (Py.index_of sep s) as [i|] eqn:Hi; [|now elim Hs].
    pose proof (index_of_split sep s i Hi) as Hsplit.
    pose proof (index_of_bound sep s i Hi) as Hb.
    set (r := Py.drop (i + String.length sep) s) in *.
    assert (Hr : (String.length r <= n)%nat).
    { unfold r. rewrite length_drop.
      destruct sep; [now elim Hne | cbn [String.length] in *; lia]. }
    destruct (Py.index_of sep r) as [j|] eqn:Hj.
    + destruct (IH r Hr) as (pre & rest & Hpr & Hnone);
        [rewrite Hj; discriminate|].
      exists (Py.take i s ++ sep ++ pre), rest. split; [|exact Hnone].
      rewrite Hsplit at 1. rewrite Hpr. now rewrite !append_assoc.
    + now exists (Py.take i s), r.
Qed.

(** The marker does not overlap itself: an occurrence that starts before
    another one ends before that one starts. *)
Lemma marker_no_overlap (c : ascii) (p rest : string) :
  Py.prefixb default_marker (String c p ++ default_marker ++ rest) = true ->
  (14 <= String.length p)%nat.
Proof.
  unfold default_marker. intros H.
  do 14 (destruct p as [|? p];
         [exfalso; cbn [append] in H; rewrite !prefixb_cons in H;
          repeat (apply andb_prop in H; destruct H as [? H]);
          match goal with
          | H' : Ascii.eqb ?a ?b = true |- _ =>
              now (vm_compute in H'; discriminate H')
          end|]).
  cbn [String.length]. lia.
Qed.

(** Splitting at the marker ends with what follows its last occurrence. *)
Lemma split_last_marker (rest : string) :
  Py.index_of default_marker rest = None ->
  forall (pre : string) (skip : nat),
    (skip <= String.length pre)%nat ->
    exists init,
      init <> [] /\
      Py.split_go default_marker skip (pre ++ default_marker ++ rest)
      = (init ++ [rest])%list.
Proof.
  intros Hnone. induction pre as [|c p IH]; intros skip Hskip.
  - destruct skip; [|cbn in Hskip; lia]. exists [EmptyString].
    split; [discriminate|].
    change ("" ++ default_marker ++ rest)
      with (String "f" ("iles__default:" ++ rest)).
    rewrite split_go_cons0.
    change (String "f" ("iles__default:" ++ rest)) with (default_marker ++ rest).
    rewrite (prefixb_append default_marker rest).
    change (String.length default_marker - 1)%nat
      with (String.length "iles__default:").
    now rewrite split_go_skip, (split_go_absent _ _ Hnone).
  - destruct skip as [|k].
    + cbn [append]. rewrite split_go_cons0.
      destruct (Py.prefixb default_marker (String c (p ++ default_marker ++ rest)))
        eqn:Hp.
      * pose proof (marker_no_overlap c p rest Hp) as Hl.
        destruct (IH 14%nat Hl) as (init & Hi & Hs).
        exists (EmptyString :: init). split; [discriminate|].
        change (String.length default_marker - 1)%nat with 14%nat.
        now rewrite Hs.
      * destruct (IH 0%nat (Nat.le_0_l _)) as (init & Hi & Hs).
        rewrite Hs. destruct init as [|h t]; [now elim Hi|].
        exists (String c h :: t). split; [discriminate | reflexivity].
    + cbn [String.length] in Hskip.
      destruct (IH k) as (init & Hi & Hs); [lia|].
      exists init. split; [exact Hi|]. exact Hs.
Qed.

Lemma contains_none (sub s : string) :
  Py.contains sub s = false <-> Py.index_of sub s = None.
Proof.
  unfold Py.contains. destruct (Py.index_of sub s); split; congruence.
Qed.

(** The identifier of the marker pattern: what follows the last marker,
    trimmed, when that is a string of digits. *)
Lemma default_pattern_spec (f : string) :
  match default_pattern_id f with
  | Some d =>
      digits d /\
      exists pre rest,
        f = pre ++ "files__default:" ++ rest /\
        Py.contains "files__default:" rest = false /\ d = Py.strip rest
  | None =>
      forall pre rest,
        f = pre ++ "files__default:" ++ rest ->
        Py.contains "files__default:" rest = false ->
        ~ digits (Py.strip rest)
  end.
Proof.
  change "files__default:" with default_marker.
  assert (Hlast : forall pre rest,
             Py.index_of default_marker rest = None ->
             List.last (Py.split (pre ++ default_marker ++ rest) default_marker) ""
             = rest).
  { intros pre rest Hnone. unfold Py.split.
    destruct (split_last_marker rest Hnone pre 0%nat (Nat.le_0_l _))
      as (init & _ & ->).
    apply last_last. }
  unfold default_pattern_id. change "files__default:" with default_marker.
  destruct (Py.contains default_marker f) eqn:Hc.
  - destruct (last_occurrence default_marker ltac:(discriminate)
                (String.length f) f (Nat.le_refl _)) as (pre & rest & -> & Hnone).
    { unfold Py.contains in Hc.
      destruct (Py.index_of default_marker f); [discriminate | discriminate Hc]. }
    rewrite (Hlast pre rest Hnone).
    destruct (Py.isdigit (Py.strip rest)) eqn:Hd.
    + split; [now apply isdigit_digits|].
      exists pre, rest. split; [reflexivity|]. split; [|reflexivity].
      now apply contains_none.
    + intros pre' rest' Heq Hnone' Hdig. apply contains_none in Hnone'.
      pose proof (Hlast pre' rest' Hnone') as H'. rewrite <- Heq in H'.
      rewrite (Hlast pre rest Hnone) in H'. subst rest'.
      apply digits_isdigit in Hdig. congruence.
  - intros pre rest -> _ _. unfold Py.contains in Hc.
    pose proof (index_of_append default_marker pre rest) as Hn.
    destruct (Py.index_of default_marker (pre ++ default_marker ++ rest));
      [discriminate Hc | now elim Hn].
Qed.

Lemma tool_link_str (v : Valves) (dct : list (string * pyval)) (f cid : string) :
  get_filename dct = PStr f ->
  R2RTool.link_of_metadata v (PDict dct) cid =
  Ret (match default_pattern_id f with
       | Some d => (Some d, Some (nextcloud_link (nextcloud_base_url v) d))
       | None => (None, R2RTool.fallback_link v cid)
       end).
Proof.
  intros Hf. unfold R2RTool.link_of_metadata, R2RTool.file_id_of_filename.
  rewrite Hf. simpl.
  destruct (Py.truthy_str f) eqn:Ht; simpl.
  - destruct (default_pattern_id f); reflexivity.
  - destruct f; [reflexivity | discriminate Ht].
Qed.

Lemma pipe_link_str (v : Valves) (dct : list (string * pyval)) (f : string)
  (file_id link : option string) :
  get_filename dct = PStr f ->
  R2RPipe.link_of_metadata v (PDict dct) = Ret (file_id, link) ->
  match link with
  | Some l =>
      exists d, digits d /\ file_id = Some d /\
                l = nextcloud_link (nextcloud_base_url v) d /\
                (default_pattern_id f = Some d \/ f = "files_" ++ d \/ f = d)
  | None =>
      file_id = None /\ default_pattern_id f = None /\ ~ digits f /\
      forall d, digits d -> f <> "files_" ++ d
  end.
Proof.
  intros Hf H. pose proof (pipe_link_digits v _ _ _ H) as Hl.
  unfold R2RPipe.link_of_metadata in H.
  rewrite (extract_file_id_str dct f Hf) in H.
  set (found := if negb (Py.truthy_str f) then None
       else match default_pattern_id f with
            | Some file_id => Some file_id
            | None =>
                if Py.startswith f "files_" && Py.isdigit (Py.slice_from f 6)
                then Some (Py.slice_from f 6)
                else if Py.isdigit f then Some f else None
            end) in *.
  assert (Hfound : found = file_id).
  { destruct found as [d'|]; [destruct (Py.truthy_str d')|]; now inversion H. }
  clear H. subst found.
  destruct link as [l|].
  - destruct Hl as (d & Hd & -> & ->). exists d.
    split; [exact Hd|]. split; [reflexivity|]. split; [reflexivity|].
    destruct (negb (Py.truthy_str f)); [discriminate Hfound|].
    destruct (default_pattern_id f) as [d'|]; [now left|]. right.
    destruct (Py.startswith f "files_") eqn:Hs; cbn [andb] in Hfound.
    + destruct (Py.isdigit (Py.slice_from f 6)).
      * left. injection Hfound as <-. now apply startswith_files.
      * right. destruct (Py.isdigit f); now inversion Hfound.
    + right. destruct (Py.isdigit f); now inversion Hfound.
  - subst file_id. split; [reflexivity|].
    destruct (Py.truthy_str f) eqn:Ht; cbn [negb] in Hfound.
    + destruct (default_pattern_id f) as [d'|]; [discriminate Hfound|].
      split; [reflexivity|].
      destruct (Py.startswith f "files_" && Py.isdigit (Py.slice_from f 6)) eqn:Hs;
        [discriminate Hfound|].
      destruct (Py.isdigit f) eqn:Hi; [discriminate Hfound|].
      split.
      * intros Hd'. apply digits_isdigit in Hd'. congruence.
      * intros d Hd' ->. rewrite slice_from_files in Hs.
        rewrite (digits_isdigit d Hd') in Hs.
        assert (Hp : Py.startswith ("files_" ++ d) "files_" = true) by reflexivity.
        rewrite Hp in Hs. discriminate Hs.
    + destruct f; [|discriminate Ht]. split; [reflexivity|]. split.
      * intros [Hne _]. now elim Hne.
      * intros d _ E. discriminate E.
Qed.

(** C3, as the code has it.  A string of digits is a non-empty string
    of characters that [str.isdigit] accepts.  A filename
    [files__default:<digits>] gives both entry points the link
    [<base>/f/<digits>].  On a filename that is a string, the pipe
    derives a link exactly from the digits that, up to surrounding
    white space, follow the last [files__default:], from
    [files_<digits>] and from an all-digit filename, and the link is
    [<base>/f/] and those digits.  The tool takes the file identifier
    from the [files__default:] pattern only; without it the link is
    [<base>/f/] and the citation identifier without leading slashes
    when that identifier is not empty, contains [/] or [.] and does not
    start with [http], and there is no link otherwise.  For
    [files__default:8060008] the link is [<base>/f/8060008]; for
    [report.pdf] the pipe derives no link. *)
Theorem link_derivation :
  (forall v d rest cid,
      digits d ->
      let metadata := PDict (("filename", PStr (default_marker ++ d)) :: rest) in
      let link := Py.rstrip_chars "/" (nextcloud_base_url v) ++ "/f/" ++ d in
      R2RPipe.link_of_metadata v metadata = Ret (Some d, Some link) /\
      R2RTool.link_of_metadata v metadata cid = Ret (Some d, Some link)) /\
  (forall v dct f,
      get_filename dct = PStr f ->
      exists file_id link,
        R2RPipe.link_of_metadata v (PDict dct) = Ret (file_id, link) /\
        match link with
        | Some l =>
            exists d,
              digits d /\ file_id = Some d /\
              l = Py.rstrip_chars "/" (nextcloud_base_url v) ++ "/f/" ++ d /\
              ((exists pre rest,
                   f = pre ++ "files__default:" ++ rest /\
                   Py.contains "files__default:" rest = false /\
                   d = Py.strip rest) \/
               f = "files_" ++ d \/ f = d)
        | None =>
            file_id = None /\ ~ digits f /\
            (forall d, digits d -> f <> "files_" ++ d) /\
            (forall pre rest,
                f = pre ++ "files__default:" ++ rest ->
                Py.contains "files__default:" rest = false ->
                ~ digits (Py.strip rest))
        end) /\
  (forall v dct f cid,
      get_filename dct = PStr f ->
      exists file_id link,
        R2RTool.link_of_metadata v (PDict dct) cid = Ret (file_id, link) /\
        match file_id with
        | Some d =>
            digits d /\
            link = Some (Py.rstrip_chars "/" (nextcloud_base_url v) ++ "/f/" ++ d) /\
            exists pre rest,
              f = pre ++ "files__default:" ++ rest /\
              Py.contains "files__default:" rest = false /\
              d = Py.strip rest
        | None =>
            (forall pre rest,
                f = pre ++ "files__default:" ++ rest ->
                Py.contains "files__default:" rest = false ->
                ~ digits (Py.strip rest)) /\
            link =
            (if Py.truthy_str cid
                && (Py.contains "/" cid || Py.contains "." cid)
                && negb (Py.startswith cid "http")
             then Some (Py.rstrip_chars "/" (nextcloud_base_url v) ++ "/f/"
                        ++ Py.lstrip_chars "/" cid)
             else None)
        end) /\
  R2RPipe.link_of_metadata default_valves
    (PDict [("filename", PStr "files__default:8060008")])
  = Ret (Some "8060008", Some "https://your-nextcloud.domain.com/f/8060008") /\
  R2RPipe.link_of_metadata default_valves (PDict [("filename", PStr "report.pdf")])
  = Ret (None, None).
Proof.
  split; [|split; [|split; [|split]]].
  - intros v d rest cid Hd metadata link. split.
    + unfold R2RPipe.link_of_metadata, metadata.
      rewrite (extract_file_id_str _ (default_marker ++ d)) by reflexivity.
      change (Py.truthy_str (default_marker ++ d)) with true. cbn [negb].
      now rewrite (default_pattern_exact d Hd), (digits_truthy d Hd).
    + unfold metadata.
      rewrite (tool_link_str v _ (default_marker ++ d)) by reflexivity.
      now rewrite (default_pattern_exact d Hd).
  - intros v dct f Hf.
    assert (Hret : exists file_id link,
               R2RPipe.link_of_metadata v (PDict dct) = Ret (file_id, link)).
    { unfold R2RPipe.link_of_metadata.
      rewrite (extract_file_id_str dct f Hf).
      destruct (if negb (Py.truthy_str f) then None else _) as [d|];
        [destruct (Py.truthy_str d)|]; eexists _, _; reflexivity. }
    destruct Hret as (file_id & link & H). exists file_id, link.
    split; [exact H|].
    pose proof (pipe_link_str v dct f file_id link Hf H) as Hl.
    pose proof (default_pattern_spec f) as Hspec.
    destruct link as [l|].
    + destruct Hl as (d & Hd & Hid & Hlink & Hform). exists d.
      split; [exact Hd|]. split; [exact Hid|]. split; [exact Hlink|].
      destruct Hform as [Hform|Hform]; [left | right; exact Hform].
      rewrite Hform in Hspec. exact (proj2 Hspec).
    + destruct Hl as (Hid & Hnone & Hnd & Hnf).
      rewrite Hnone in Hspec. auto.
  - intros v dct f cid Hf.
    rewrite (tool_link_str v dct f cid Hf).
    pose proof (default_pattern_spec f) as Hspec.
    destruct (default_pattern_id f) as [d|].
    + eexists _, _. split; [reflexivity|].
      destruct Hspec as [Hd Hform]. auto.
    + eexists _, _. split; [reflexivity|].
      split; [exact Hspec|]. unfold R2RTool.fallback_link.
      destruct (Py.truthy_str cid); [|reflexivity]. cbn [andb].
      destruct ((Py.contains "/" cid || Py.contains "." cid)
                && negb (Py.startswith cid "http")); reflexivity.
  - reflexivity.
  - reflexivity.
Qed.

(** Against C3 as worded: the tool gives [report.pdf] a link, and the
    pipe gives [files_123] one, though neither filename has the form
    [files__default:<digits>]. *)
Lemma link_without_default_pattern :
  (let chunk := PDict [("text", PStr "body");
                       ("metadata", PDict [("filename", PStr "report.pdf")])] in
   exists s en, R2RTool.context_entry default_valves 1 chunk = Ret (s, en) /\
                e_link en = Some "https://your-nextcloud.domain.com/f/report.pdf") /\
  ~ matches_default_pattern "report.pdf" /\
  (let chunk := PDict [("text", PStr "body");
                       ("metadata", PDict [("filename", PStr "files_123")])] in
   exists en, R2RPipe.context_entry default_valves 1 chunk = Ret en /\
              e_link en = Some "https://your-nextcloud.domain.com/f/123") /\
  ~ matches_default_pattern "files_123".
Proof.
  repeat split.
  - eexists; eexists; split; reflexivity.
  - intros (d & _ & E). discriminate E.
  - eexists; split; reflexivity.
  - intros (d & _ & E). discriminate E.
Qed.

(** A digit in the sense of [str.isdigit] need not be one of [0] to
    [9]: the superscript two is accepted as a file identifier. *)
Example superscript_two_is_a_digit :
  let two := String (ascii_of_nat 178) EmptyString in
  digits two /\
  R2RPipe.link_of_metadata default_valves
    (PDict [("filename", PStr ("files__default:" ++ two))])
  = Ret (Some two, Some ("https://your-nextcloud.domain.com/f/" ++ two)).
Proof. split; [split; [discriminate | reflexivity] | reflexivity]. Qed.

(** ** Relevance filtering *)

Lemma filter_by_score_total (floor : Q) (chunks : list pyval) :
  Forall scored chunks ->
  filter_by_score floor chunks = Ret (filter (meets_floor floor) chunks).
Proof.
  induction 1 as [|c r [q Hq] _ IH]; [reflexivity|].
  simpl. rewrite IH. unfold meets_floor. rewrite Hq.
  destruct c as [| | | | | |d]; try discriminate Hq.
  simpl in *. unfold score_ge.
  destruct (Val.assoc "score" d) as [s|].
  - rewrite Hq. reflexivity.
  - injection Hq as <-. reflexivity.
Qed.

Lemma meets_floor_not_below (floor : Q) (c : pyval) :
  scored c -> (meets_floor floor c = true <-> ~ below_floor floor c).
Proof.
  intros [q Hq]. unfold meets_floor, below_floor. rewrite Hq. split.
  - intros H (q' & [= <-] & Hlt). apply Qle_bool_iff in H.
    now apply (Qlt_not_le q floor).
  - intros H. apply Qle_bool_iff. apply Qnot_lt_le. intros Hlt.
    apply H. now exists q.
Qed.

Lemma pipe_entries_length (v : Valves) (l : list pyval) :
  forall idx blocks,
    R2RPipe.context_entries v idx l = Ret blocks -> List.length blocks = List.length l.
Proof.
  induction l as [|c r IH]; simpl; intros idx blocks H.
  - now injection H as <-.
  - destruct (R2RPipe.context_entry v idx c); [|discriminate H].
    destruct (R2RPipe.context_entries v (S idx) r) eqn:E; [|discriminate H].
    injection H as <-. simpl. f_equal. now apply IH with (S idx).
Qed.

Lemma tool_entries_length (v : Valves) (l : list pyval) :
  forall idx pairs,
    R2RTool.context_entries v idx l = Ret pairs -> List.length pairs = List.length l.
Proof.
  induction l as [|c r IH]; simpl; intros idx pairs H.
  - now injection H as <-.
  - destruct (R2RTool.context_entry v idx c); [|discriminate H].
    destruct (R2RTool.context_entries v (S idx) r) eqn:E; [|discriminate H].
    injection H as <-. simpl. f_equal. now apply IH with (S idx).
Qed.

Lemma list_slice_to_firstn {A} (l : list A) (k : Z) :
  0 <= k -> list_slice_to l k = firstn (Z.to_nat k) l.
Proof.
  intros H. unfold list_slice_to.
  replace (k <? 0) with false by (symmetry; apply Z.ltb_ge; lia). reflexivity.
Qed.

Lemma pipe_entries_nth (v : Valves) (l : list pyval) :
  forall idx blocks,
    R2RPipe.context_entries v idx l = Ret blocks ->
    forall i chunk,
      nth_error l i = Some chunk ->
      exists b, nth_error blocks i = Some b /\
                R2RPipe.context_entry v (idx + i) chunk = Ret b.
Proof.
  induction l as [|c r IH]; cbn [R2RPipe.context_entries]; intros idx blocks H i chunk Hi.
  - destruct i; discriminate Hi.
  - destruct (R2RPipe.context_entry v idx c) as [b|] eqn:Hb; [|discriminate H].
    destruct (R2RPipe.context_entries v (S idx) r) as [bs|] eqn:Hbs;
      [|discriminate H].
    injection H as <-. destruct i as [|i]; cbn [nth_error] in *.
    + injection Hi as <-. exists b. rewrite Nat.add_0_r. auto.
    + destruct (IH (S idx) bs Hbs i chunk Hi) as (b' & Hn & He).
      exists b'. split; [exact Hn|]. now rewrite <- Nat.add_succ_comm.
Qed.

Lemma tool_entries_nth (v : Valves) (l : list pyval) :
  forall idx pairs,
    R2RTool.context_entries v idx l = Ret pairs ->
    forall i chunk,
      nth_error l i = Some chunk ->
      exists p, nth_error pairs i = Some p /\
                R2RTool.context_entry v (idx + i) chunk = Ret p.
Proof.
  induction l as [|c r IH]; cbn [R2RTool.context_entries]; intros idx pairs H i chunk Hi.
  - destruct i; discriminate Hi.
  - destruct (R2RTool.context_entry v idx c) as [p|] eqn:Hp; [|discriminate H].
    destruct (R2RTool.context_entries v (S idx) r) as [ps|] eqn:Hps;
      [|discriminate H].
    injection H as <-. destruct i as [|i]; cbn [nth_error] in *.
    + injection Hi as <-. exists p. rewrite Nat.add_0_r. auto.
    + destruct (IH (S idx) ps Hps i chunk Hi) as (p' & Hn & He).
      exists p'. split; [exact Hn|]. now rewrite <- Nat.add_succ_comm.
Qed.

(** C6. On chunks whose scores are numbers or missing, the relevance
    filter keeps, in order, exactly the chunks whose score, [0.0] when
    missing, is not strictly below the floor.  Both entry points filter
    before they truncate: the heading counts the chunks that were kept,
    the blocks are those of the first [max_chunks_in_context] kept
    chunks, one block for each, in order and numbered from 1; when
    nothing is kept the pipe returns its one-line notice and the tool
    its message with the number of chunks found.  With floor 0.5 a
    chunk scored 0.4 is dropped and one scored 0.7 is kept. *)
Theorem relevance_filter_before_truncation (floor : Q) (chunks : list pyval)
  (Hscored : Forall scored chunks) :
  let kept := filter (meets_floor floor) chunks in
  filter_by_score floor chunks = Ret kept /\
  (forall c, In c chunks -> (In c kept <-> ~ below_floor floor c)) /\
  (forall v q ci,
      min_relevance_score v = floor ->
      0 <= max_chunks_in_context v ->
      let top := firstn (Z.to_nat (max_chunks_in_context v)) kept in
      R2RPipe._build_context_from_results v q (PList chunks) ci =
      match kept with
      | [] => Ret (NoRelevantDocuments q)
      | _ :: _ =>
          match R2RPipe.context_entries v 1 top with
          | Ret blocks => Ret (ContextBlocks q (List.length kept) blocks ci)
          | Raise e => Raise e
          end
      end /\
      forall blocks,
        R2RPipe.context_entries v 1 top = Ret blocks ->
        List.length blocks
        = Nat.min (Z.to_nat (max_chunks_in_context v)) (List.length kept) /\
        forall i chunk,
          nth_error top i = Some chunk ->
          exists b, nth_error blocks i = Some b /\
                    R2RPipe.context_entry v (S i) chunk = Ret b) /\
  (forall v E query q ci rd,
      min_relevance_score v = floor ->
      0 <= max_chunks_in_context v ->
      chunks_of_response rd = Ret (PList chunks) ->
      chunks <> [] ->
      let top := firstn (Z.to_nat (max_chunks_in_context v)) kept in
      R2RTool.context_from_response v E query q ci rd =
      match kept with
      | [] =>
          Ret (R2RTool.Message
                 (R2RTool.msg_none_relevant E v q (List.length chunks)))
      | _ :: _ =>
          match R2RTool.context_entries v 1 top with
          | Ret pairs =>
              Ret (R2RTool.FinalContext
                     (match pairs with
                      | [] => None
                      | _ :: _ =>
                          if enable_source_emission v
                          then Some (map fst pairs) else None
                      end)
                     query
                     (ContextBlocks q (List.length kept) (map snd pairs) ci))
          | Raise e => Raise e
          end
      end /\
      forall pairs,
        R2RTool.context_entries v 1 top = Ret pairs ->
        List.length pairs
        = Nat.min (Z.to_nat (max_chunks_in_context v)) (List.length kept) /\
        forall i chunk,
          nth_error top i = Some chunk ->
          exists p, nth_error pairs i = Some p /\
                    R2RTool.context_entry v (S i) chunk = Ret p) /\
  filter_by_score (5 # 10)
    [PDict [("text", PStr "low"); ("score", PFloat (4 # 10))];
     PDict [("text", PStr "high"); ("score", PFloat (7 # 10))]]
  = Ret [PDict [("text", PStr "high"); ("score", PFloat (7 # 10))]].
Proof.
  intros kept. unfold kept.
  split; [now apply filter_by_score_total|].
  split; [|split; [|split]].
  - intros c Hc. rewrite filter_In.
    assert (Hs : scored c) by (rewrite Forall_forall in Hscored; auto).
    pose proof (meets_floor_not_below floor c Hs). tauto.
  - intros v q ci Hf Hmax.
    set (top := firstn (Z.to_nat (max_chunks_in_context v))
                  (filter (meets_floor floor) chunks)).
    split.
    + unfold R2RPipe._build_context_from_results. cbn [iterate].
      rewrite Hf, (filter_by_score_total floor chunks Hscored).
      destruct (filter (meets_floor floor) chunks) as [|k ks] eqn:Ek;
        [reflexivity|].
      rewrite (list_slice_to_firstn _ _ Hmax). fold top.
      destruct (R2RPipe.context_entries v 1 top); reflexivity.
    + intros blocks Hb. split.
      * rewrite (pipe_entries_length v _ 1 blocks Hb). apply length_firstn.
      * intros i chunk Hi.
        exact (pipe_entries_nth v top 1 blocks Hb i chunk Hi).
  - intros v E query q ci rd Hf Hmax Hrd Hne.
    set (top := firstn (Z.to_nat (max_chunks_in_context v))
                  (filter (meets_floor floor) chunks)).
    split.
    + unfold R2RTool.context_from_response. rewrite Hrd.
      destruct chunks as [|c0 cs]; [contradiction|].
      cbn [Val.truthy negb iterate].
      rewrite Hf, (filter_by_score_total floor _ Hscored).
      destruct (filter (meets_floor floor) (c0 :: cs)) as [|k ks] eqn:Ek;
        [reflexivity|].
      rewrite (list_slice_to_firstn _ _ Hmax). fold top.
      destruct (R2RTool.context_entries v 1 top) as [[|p ps]|];
        try reflexivity.
      cbn [map]. destruct (enable_source_emission v); reflexivity.
    + intros pairs Hp. split.
      * rewrite (tool_entries_length v _ 1 pairs Hp). apply length_firstn.
      * intros i chunk Hi.
        exact (tool_entries_nth v top 1 pairs Hp i chunk Hi).
  - reflexivity.
Qed.

(** ** Input parsing *)

Lemma last_opt_snoc {A} (l : list A) (a : A) : last_opt (l ++ [a]) = Some a.
Proof. unfold last_opt. now rewrite rev_app_distr. Qed.

Lemma search_not_instructions (s : string) :
  Py.startswith s "search:" = true -> Py.startswith s "instructions:" = false.
Proof.
  unfold Py.startswith. destruct s as [|c r]; [discriminate|].
  rewrite !prefixb_cons. intros H. apply andb_true_iff in H as [H _].
  apply Ascii.eqb_eq in H as <-. reflexivity.
Qed.

Lemma yaml_line_cases (st : option string * option string) (l : string) :
  yaml_line st l =
  if is_search_line l then (Some (search_value l), snd st)
  else if is_instructions_line l
       then (fst st,
             Some (Py.strip_chars quote_chars
                     (Py.strip (Py.slice_from (Py.strip l) 12))))
       else st.
Proof. reflexivity. Qed.

(** The loop over the lines keeps, for each key, the value of the last
    line that carries it. *)
Lemma yaml_fold (lines : list string) :
  forall st,
    fst (fold_left yaml_line lines st) =
      match last_opt (filter is_search_line lines) with
      | Some line => Some (search_value line)
      | None => fst st
      end /\
    (snd (fold_left yaml_line lines st) = None <->
     snd st = None /\ filter is_instructions_line lines = []).
Proof.
  induction lines as [|l ls IH] using rev_ind; intros st.
  - simpl. split; [reflexivity | tauto].
  - rewrite fold_left_app, !filter_app. cbn [fold_left filter].
    destruct (IH st) as [IH1 IH2]. rewrite yaml_line_cases.
    destruct (is_search_line l) eqn:Hs.
    + assert (Hi : is_instructions_line l = false)
        by now apply search_not_instructions.
      rewrite Hi, last_opt_snoc, app_nil_r. cbn [fst snd].
      split; [reflexivity | exact IH2].
    + rewrite app_nil_r.
      destruct (is_instructions_line l) eqn:Hi; cbn [fst snd].
      * split; [exact IH1|]. split; [discriminate|].
        intros [_ H]. now apply app_eq_nil in H as [_ H].
      * rewrite app_nil_r. split; [exact IH1 | exact IH2].
Qed.

Lemma startswith_truthy (s pre : string) :
  Py.truthy_str pre = true -> Py.startswith s pre = true -> Py.truthy_str s = true.
Proof.
  destruct pre; [discriminate|]. destruct s; [discriminate | reflexivity].
Qed.

Lemma parse_structured_last (t line : string) :
  is_structured t = true ->
  last_opt (filter is_search_line (block_lines t)) = Some line ->
  search_value line <> "" ->
  exists instructions,
    parse_structured t = Some (search_value line, instructions) /\
    (instructions = None <-> filter is_instructions_line (block_lines t) = []).
Proof.
  intros Hst Hl Hne. unfold parse_structured.
  fold (is_structured t). rewrite Hst. fold (block_lines t).
  destruct (yaml_fold (block_lines t) (None, None)) as [H1 H2].
  rewrite Hl in H1. cbn [snd] in H2.
  destruct (fold_left yaml_line (block_lines t) (None, None)) as [sq li].
  cbn [fst snd] in *. subst sq.
  destruct (search_value line) eqn:E; [now elim Hne|].
  cbn [Py.truthy_str]. exists li. split; [reflexivity | tauto].
Qed.

(** C8, as the code has it.  On an input that, once trimmed, starts
    with the marker and has a further marker, and whose block has a
    [search:] line, both parsers return the value of the last
    [search:] line of the block, trimmed of whitespace and of quote
    characters at both ends, provided that value is not empty; the
    instructions they return are null exactly when the block has no
    [instructions:] line. *)
Theorem parse_structured_block (E : env) (raw line : string) :
  is_structured (Py.strip raw) = true ->
  last_opt (filter is_search_line (block_lines (Py.strip raw))) = Some line ->
  search_value line <> "" ->
  fst (R2RPipe._parse_user_input raw) = search_value line /\
  fst (R2RTool._parse_user_input E raw) = search_value line /\
  R2RTool._parse_user_input E raw = R2RPipe._parse_user_input raw /\
  (snd (R2RPipe._parse_user_input raw) = None <->
   filter is_instructions_line (block_lines (Py.strip raw)) = []).
Proof.
  intros Hst Hl Hne.
  destruct (parse_structured_last _ _ Hst Hl Hne) as (li & Hp & Hi).
  assert (Ht : Py.truthy_str (Py.strip raw) = true).
  { unfold is_structured in Hst. apply andb_true_iff in Hst as [Hst _].
    now apply (startswith_truthy _ "---"). }
  unfold R2RPipe._parse_user_input, R2RTool._parse_user_input.
  rewrite Ht, Hp. cbn [negb fst snd]. repeat split; tauto.
Qed.

(** ** Runs and their traces *)

Lemma regular_ret {A} (a : A) : regular (ret a).
Proof. intros t. unfold ret. simpl. now rewrite app_nil_r. Qed.

Lemma regular_raise {A} (e : exn) : regular (@raise A e).
Proof. intros t. unfold raise. simpl. now rewrite app_nil_r. Qed.

Lemma regular_lift {A} (r : res A) : regular (lift r).
Proof. intros t. unfold lift. simpl. now rewrite app_nil_r. Qed.

Lemma regular_emit (ev : event) : regular (emit ev).
Proof. intros t. reflexivity. Qed.

Lemma regular_bind {A B} (m : M A) (f : A -> M B) :
  regular m -> (forall a, regular (f a)) -> regular (bind m f).
Proof.
  intros Hm Hf t. unfold bind. rewrite (Hm t).
  destruct (m []) as [[a|e] t1]; simpl.
  - rewrite (Hf a (t ++ t1)%list), (Hf a t1). simpl. now rewrite app_assoc.
  - reflexivity.
Qed.

Lemma regular_catch {A} (m : M A) (h : exn -> M A) :
  regular m -> (forall e, regular (h e)) -> regular (catch m h).
Proof.
  intros Hm Hh t. unfold catch. rewrite (Hm t).
  destruct (m []) as [[a|e] t1]; simpl.
  - reflexivity.
  - rewrite (Hh e (t ++ t1)%list), (Hh e t1). simpl. now rewrite app_assoc.
Qed.

Create HintDb regular.
#[local] Hint Resolve regular_ret regular_raise regular_lift regular_emit : regular.

(** Regularity follows the shape of the code. *)
Ltac regular_step :=
  match goal with
  | |- regular (bind _ _) => apply regular_bind; [|intros ?]
  | |- regular (catch _ _) => apply regular_catch; [|intros ?]
  | |- regular (ret _) => apply regular_ret
  | |- regular (raise _) => apply regular_raise
  | |- regular (lift _) => apply regular_lift
  | |- regular (emit _) => apply regular_emit
  | |- regular (if ?b then _ else _) => destruct b
  | |- regular (match ?x with _ => _ end) => destruct x
  | |- regular (let '(_, _) := ?x in _) => destruct x
  end.

Ltac regular_tac := cbv beta; repeat regular_step; auto with regular.

Lemma result_bind {A B} (m : M A) (f : A -> M B) :
  (forall a, regular (f a)) ->
  result (bind m f) =
  match result m with Ret a => result (f a) | Raise e => Raise e end.
Proof.
  intros Hf. unfold result, bind.
  destruct (m []) as [[a|e] t1]; simpl; [|reflexivity].
  now rewrite (Hf a t1).
Qed.

Lemma events_bind {A B} (m : M A) (f : A -> M B) :
  (forall a, regular (f a)) ->
  events (bind m f) =
  (events m ++ match result m with Ret a => events (f a) | Raise _ => [] end)%list.
Proof.
  intros Hf. unfold events, result, bind.
  destruct (m []) as [[a|e] t1]; simpl.
  - now rewrite (Hf a t1).
  - now rewrite app_nil_r.
Qed.

Lemma result_catch {A} (m : M A) (h : exn -> M A) :
  (forall e, regular (h e)) ->
  result (catch m h) =
  match result m with Ret a => Ret a | Raise e => result (h e) end.
Proof.
  intros Hh. unfold result, catch.
  destruct (m []) as [[a|e] t1]; simpl; [reflexivity|].
  now rewrite (Hh e t1).
Qed.

Lemma events_catch {A} (m : M A) (h : exn -> M A) :
  (forall e, regular (h e)) ->
  events (catch m h) =
  (events m ++ match result m with Ret _ => [] | Raise e => events (h e) end)%list.
Proof.
  intros Hh. unfold events, result, catch.
  destruct (m []) as [[a|e] t1]; simpl.
  - now rewrite app_nil_r.
  - now rewrite (Hh e t1).
Qed.

Lemma regular_ldap_pipe (E : env) (email : string) (cfg : ldap_config) :
  regular (R2RPipe._ldap_lookup_user_guid E email cfg).
Proof. unfold R2RPipe._ldap_lookup_user_guid. regular_tac. Qed.

Lemma regular_ldap_tool (E : env) (email : pyval) (cfg : ldap_config) :
  regular (R2RTool._ldap_lookup_user_guid E email cfg).
Proof. unfold R2RTool._ldap_lookup_user_guid. regular_tac. Qed.

Lemma regular_collection (E : env) (g : string) (cfg : r2r_config) :
  regular (_get_collection_id_from_guid E g cfg).
Proof. unfold _get_collection_id_from_guid. regular_tac. Qed.

#[local] Hint Resolve regular_ldap_pipe regular_ldap_tool regular_collection : regular.

Lemma regular_user_collection (v : Valves) (E : env) (email : string) :
  regular (R2RPipe._get_user_collection_id v E email).
Proof. unfold R2RPipe._get_user_collection_id. regular_tac. Qed.

#[local] Hint Resolve regular_user_collection : regular.

Lemma regular_resolve_pipe (v : Valves) (E : env) (u : option user) :
  regular (R2RPipe.resolve_permissions v E u).
Proof. unfold R2RPipe.resolve_permissions. regular_tac. Qed.

Lemma regular_do_ldap (v : Valves) (E : env) (email : pyval) :
  regular (R2RTool._do_ldap_lookup v E email).
Proof. unfold R2RTool._do_ldap_lookup. regular_tac. Qed.

Lemma regular_collection_tool (v : Valves) (E : env) (g : string) :
  regular (R2RTool._get_collection_from_guid v E g).
Proof. unfold R2RTool._get_collection_from_guid. regular_tac. Qed.

#[local] Hint Resolve regular_do_ldap regular_collection_tool : regular.

Lemma regular_resolve_tool (v : Valves) (E : env) (u : R2RTool.user_arg) :
  regular (R2RTool.resolve_permissions v E u).
Proof.
  unfold R2RTool.resolve_permissions, R2RTool._do_ldap_lookup,
    R2RTool._get_collection_from_guid.
  regular_tac.
Qed.

Lemma regular_search_pipe (v : Valves) (E : env) (q : string) (c : pyval) :
  regular (R2RPipe._perform_r2r_search v E q c).
Proof. unfold R2RPipe._perform_r2r_search. regular_tac. Qed.

Lemma regular_answer (v : Valves) (E : env) (ms : list message)
  (u : option user) (q : string) (ci : option string) (rd : pyval) :
  regular (R2RPipe.answer_from_results v E ms u q ci rd).
Proof. unfold R2RPipe.answer_from_results. regular_tac. Qed.

#[local] Hint Resolve regular_resolve_pipe regular_resolve_tool
  regular_search_pipe regular_answer : regular.

Lemma regular_search_and_answer (v : Valves) (E : env) (ms : list message)
  (u : option user) (q : string) (ci : option string) (c : pyval) :
  regular (R2RPipe.search_and_answer v E ms u q ci c).
Proof. unfold R2RPipe.search_and_answer. regular_tac. Qed.

Lemma regular_search_and_build (v : Valves) (E : env) (query q : string)
  (ci : option string) (c : pyval) :
  regular (R2RTool.search_and_build v E query q ci c).
Proof. unfold R2RTool.search_and_build. regular_tac. Qed.

#[local] Hint Resolve regular_search_and_answer regular_search_and_build : regular.

(** ** Short queries *)

(** The pipe up to the length check, on a request whose last message is
    the user's. *)
Lemma pipe_short_query (v : Valves) (E : env) (history : list message)
  (m : message) (u : option user) :
  role m = Some "user" ->
  Py.len (Py.strip (fst (R2RPipe._parse_user_input (user_query_of m)))) < 3 ->
  R2RPipe.pipe v E (history ++ [m]) u [] =
  (Ret (if Py.truthy_str (user_query_of m)
        then R2RPipe.msg_query_too_short
               (fst (R2RPipe._parse_user_input (user_query_of m)))
        else R2RPipe.msg_empty_query), []).
Proof.
  intros Hrole Hlen. unfold R2RPipe.pipe, catch.
  rewrite rev_app_distr. cbn [rev app]. rewrite Hrole.
  change (String.eqb "user" "user") with true. cbn [negb].
  fold (user_query_of m).
  destruct (Py.truthy_str (user_query_of m)); cbn [negb]; [|reflexivity].
  destruct (R2RPipe._parse_user_input (user_query_of m)) as [sq ci].
  cbn [fst] in *.
  replace (Py.len (Py.strip sq) <? 3) with true
    by (symmetry; now apply Z.ltb_lt).
  now rewrite orb_true_r.
Qed.

Lemma tool_short_query (v : Valves) (E : env) (query : string)
  (u : R2RTool.user_arg) :
  Py.len (Py.strip (fst (R2RTool._parse_user_input E query))) < 3 ->
  R2RTool.r2r_search_context v E query u [] =
  (Ret (R2RTool.Message
          (if Py.truthy_str query
           then R2RTool.msg_query_too_short
                  (fst (R2RTool._parse_user_input E query))
           else R2RTool.msg_invalid_query)), []).
Proof.
  intros Hlen. unfold R2RTool.r2r_search_context, catch.
  destruct (Py.truthy_str query); cbn [negb]; [|reflexivity].
  destruct (R2RTool._parse_user_input E query) as [sq ci].
  cbn [fst] in *.
  replace (Py.len (Py.strip sq) <? 3) with true
    by (symmetry; now apply Z.ltb_lt).
  now rewrite orb_true_r.
Qed.

(** C5, as the code has it.  When the parsed search text, trimmed, has
    fewer than three characters (whitespace inside it counts), both
    entry points return an input error, the too-short message or, on an
    empty input, the empty-query message, and make no call to the
    directory, the collection lookup or the search endpoint. *)
Theorem short_query_no_network (v : Valves) (E : env) :
  (forall history m u,
      role m = Some "user" ->
      Py.len (Py.strip (fst (R2RPipe._parse_user_input (user_query_of m)))) < 3 ->
      events (R2RPipe.pipe v E (history ++ [m]) u) = [] /\
      (result (R2RPipe.pipe v E (history ++ [m]) u)
       = Ret (R2RPipe.msg_query_too_short
                (fst (R2RPipe._parse_user_input (user_query_of m)))) \/
       result (R2RPipe.pipe v E (history ++ [m]) u)
       = Ret R2RPipe.msg_empty_query)) /\
  (forall query u,
      Py.len (Py.strip (fst (R2RTool._parse_user_input E query))) < 3 ->
      events (R2RTool.r2r_search_context v E query u) = [] /\
      (result (R2RTool.r2r_search_context v E query u)
       = Ret (R2RTool.Message
                (R2RTool.msg_query_too_short
                   (fst (R2RTool._parse_user_input E query)))) \/
       result (R2RTool.r2r_search_context v E query u)
       = Ret (R2RTool.Message R2RTool.msg_invalid_query))).
Proof.
  split.
  - intros history m u Hrole Hlen. unfold events, result.
    rewrite (pipe_short_query v E history m u Hrole Hlen). cbn [fst snd].
    split; [reflexivity|].
    destruct (Py.truthy_str (user_query_of m)); [now left | now right].
  - intros query u Hlen. unfold events, result.
    rewrite (tool_short_query v E query u Hlen). cbn [fst snd].
    split; [reflexivity|].
    destruct (Py.truthy_str query); [now left | now right].
Qed.

(** ** Permission stage and search requests *)

Lemma quiet_ret {A} (a : A) : quiet (ret a).
Proof. constructor. Qed.

Lemma quiet_raise {A} (e : exn) : quiet (@raise A e).
Proof. constructor. Qed.

Lemma quiet_lift {A} (r : res A) : quiet (lift r).
Proof. constructor. Qed.

Lemma quiet_emit (ev : event) : is_search ev = false -> quiet (emit ev).
Proof. intros H. repeat constructor. exact H. Qed.

Lemma quiet_bind {A B} (m : M A) (f : A -> M B) :
  (forall a, regular (f a)) -> quiet m -> (forall a, quiet (f a)) ->
  quiet (bind m f).
Proof.
  intros Hr Hm Hf. unfold quiet. rewrite (events_bind m f Hr).
  apply Forall_app. split; [exact Hm|].
  destruct (result m); [apply Hf | constructor].
Qed.

Lemma quiet_catch {A} (m : M A) (h : exn -> M A) :
  (forall e, regular (h e)) -> quiet m -> (forall e, quiet (h e)) ->
  quiet (catch m h).
Proof.
  intros Hr Hm Hh. unfold quiet. rewrite (events_catch m h Hr).
  apply Forall_app. split; [exact Hm|].
  destruct (result m); [constructor | apply Hh].
Qed.

Ltac quiet_step :=
  match goal with
  | |- quiet (bind _ _) => apply quiet_bind; [intros ?; regular_tac | | intros ?]
  | |- quiet (catch _ _) => apply quiet_catch; [intros ?; regular_tac | | intros ?]
  | |- quiet (ret _) => apply quiet_ret
  | |- quiet (raise _) => apply quiet_raise
  | |- quiet (lift _) => apply quiet_lift
  | |- quiet (emit _) => apply quiet_emit; reflexivity
  | |- quiet (if ?b then _ else _) => destruct b
  | |- quiet (match ?x with _ => _ end) => destruct x
  end.

Ltac quiet_tac := repeat quiet_step.

Lemma quiet_ldap_pipe (E : env) (email : string) (cfg : ldap_config) :
  quiet (R2RPipe._ldap_lookup_user_guid E email cfg).
Proof. unfold R2RPipe._ldap_lookup_user_guid. quiet_tac. Qed.

Lemma quiet_ldap_tool (E : env) (email : pyval) (cfg : ldap_config) :
  quiet (R2RTool._ldap_lookup_user_guid E email cfg).
Proof. unfold R2RTool._ldap_lookup_user_guid. quiet_tac. Qed.

Lemma quiet_collection (E : env) (g : string) (cfg : r2r_config) :
  quiet (_get_collection_id_from_guid E g cfg).
Proof. unfold _get_collection_id_from_guid. quiet_tac. Qed.

Lemma quiet_resolve_pipe (v : Valves) (E : env) (u : option user) :
  quiet (R2RPipe.resolve_permissions v E u).
Proof.
  unfold R2RPipe.resolve_permissions, R2RPipe._get_user_collection_id.
  quiet_tac; auto using quiet_ldap_pipe, quiet_collection.
Qed.

Lemma quiet_resolve_tool (v : Valves) (E : env) (u : R2RTool.user_arg) :
  quiet (R2RTool.resolve_permissions v E u).
Proof.
  unfold R2RTool.resolve_permissions, R2RTool._do_ldap_lookup,
    R2RTool._get_collection_from_guid.
  quiet_tac; auto using quiet_ldap_tool, quiet_collection.
Qed.

(** The search of the pipe sends exactly one request, whose body is
    [search_payload]; what follows sends none. *)
Lemma events_search_and_answer (v : Valves) (E : env) (ms : list message)
  (u : option user) (q : string) (ci : option string) (c : pyval) :
  exists tail,
    events (R2RPipe.search_and_answer v E ms u q ci c) =
    SearchPost (Py.rstrip_chars "/" (api_url v)) (Py.strip (bearer_token v))
      (search_payload v q c) (Z.min (request_timeout v) 300) :: tail /\
    Forall (fun ev => is_search ev = false) tail.
Proof.
  unfold R2RPipe.search_and_answer.
  rewrite events_bind by (intros ?; regular_tac).
  rewrite events_catch by (intros ?; regular_tac).
  rewrite result_catch by (intros ?; regular_tac).
  rewrite events_bind, result_bind by (intros ?; regular_tac).
  unfold R2RPipe._perform_r2r_search.
  rewrite events_bind, result_bind by (intros ?; regular_tac).
  change (events (emit ?ev)) with [ev].
  change (result (emit ?ev)) with (@Ret unit tt).
  eexists. split; [cbn [app]; reflexivity|].
  assert (Hq : forall rd, quiet (R2RPipe.answer_from_results v E ms u q ci rd)).
  { intros rd. unfold R2RPipe.answer_from_results. quiet_tac. }
  destruct (search_post E _ _ _ _) as [msg|msg|msg|r]; try (repeat constructor).
  destruct ((400 <=? status_code r) && (status_code r <? 600));
    [repeat constructor|].
  destruct (json r) as [data|]; [|repeat constructor].
  cbn. apply Hq.
Qed.

Lemma events_search_and_build (v : Valves) (E : env) (query q : string)
  (ci : option string) (c : pyval) :
  events (R2RTool.search_and_build v E query q ci c) =
  [SearchPost (Py.rstrip_chars "/" (api_url v)) (Py.strip (bearer_token v))
     (search_payload v q c) (Z.min (request_timeout v) 25)].
Proof.
  unfold R2RTool.search_and_build.
  rewrite events_bind by (intros ?; regular_tac).
  change (events (emit ?ev)) with [ev].
  change (result (emit ?ev)) with (@Ret unit tt). cbn [app]. f_equal.
  destruct (search_post E _ _ _ _) as [msg|msg|msg|r]; try reflexivity.
  destruct (R2RTool.check_response E r); reflexivity.
Qed.

Lemma payload_filters_scoped (v : Valves) (q : string) (c : pyval) :
  Val.truthy c = true ->
  payload_filters (search_payload v q c) = Some (collection_filter c).
Proof. intros H. unfold search_payload. rewrite H. reflexivity. Qed.

Lemma payload_filters_unscoped (v : Valves) (q : string) (c : pyval) :
  Val.truthy c = false -> payload_filters (search_payload v q c) = None.
Proof. intros H. unfold search_payload. rewrite H. reflexivity. Qed.

(** The pipe either returns at once, without any call, or reaches the
    permission stage with a query of at least three characters and a
    token. *)
Lemma pipe_cases (v : Valves) (E : env) (ms : list message) (u : option user) :
  (exists msg, R2RPipe.pipe v E ms u [] = (Ret msg, [])) \/
  (exists history m ci,
      ms = (history ++ [m])%list /\ role m = Some "user" /\
      let sq := fst (R2RPipe._parse_user_input (user_query_of m)) in
      3 <= Py.len (Py.strip sq) /\
      Py.truthy_str (Py.strip (bearer_token v)) = true /\
      R2RPipe.pipe v E ms u [] =
      catch
        (perm <- R2RPipe.resolve_permissions v E u ;;
         match perm with
         | inl denial => ret denial
         | inr c => R2RPipe.search_and_answer v E ms u sq ci c
         end)
        (fun e => ret (R2RPipe.msg_system_error E e)) []).
Proof.
  destruct ms as [|m0 ms0] using rev_ind.
  - left. eexists. reflexivity.
  - clear IHms0. unfold R2RPipe.pipe.
    rewrite rev_app_distr. cbn [rev app]. fold (user_query_of m0).
    destruct (role m0) as [r|] eqn:Hrole; [|left; eexists; reflexivity].
    destruct (String.eqb_spec r "user") as [->|]; [|left; eexists; reflexivity].
    cbn [negb].
    destruct (Py.truthy_str (user_query_of m0)); [|left; eexists; reflexivity].
    cbn [negb].
    destruct (R2RPipe._parse_user_input (user_query_of m0)) as [sq ci] eqn:Hp.
    destruct (Py.truthy_str sq); [|left; eexists; reflexivity]. cbn [negb orb].
    destruct (Z.ltb_spec (Py.len (Py.strip sq)) 3); [left; eexists; reflexivity|].
    destruct (Py.truthy_str (Py.strip (bearer_token v))) eqn:Htok;
      [|left; eexists; reflexivity].
    cbn [negb]. right. exists ms0, m0, ci. rewrite Hp. cbn [fst].
    repeat split; auto.
Qed.

Lemma tool_cases (v : Valves) (E : env) (query : string) (u : R2RTool.user_arg) :
  (exists msg, R2RTool.r2r_search_context v E query u [] = (Ret msg, [])) \/
  (exists ci,
      let sq := fst (R2RTool._parse_user_input E query) in
      3 <= Py.len (Py.strip sq) /\
      Py.truthy_str (Py.strip (bearer_token v)) = true /\
      R2RTool.r2r_search_context v E query u [] =
      catch
        (c <- R2RTool.resolve_permissions v E u ;;
         R2RTool.search_and_build v E query sq ci c)
        (fun e => ret (R2RTool.Message (R2RTool.msg_tool_failed E e))) []).
Proof.
  unfold R2RTool.r2r_search_context.
  destruct (Py.truthy_str query); [|left; eexists; reflexivity]. cbn [negb].
  destruct (R2RTool._parse_user_input E query) as [sq ci] eqn:Hp.
  destruct (Py.truthy_str sq); [|left; eexists; reflexivity]. cbn [negb orb].
  destruct (Z.ltb_spec (Py.len (Py.strip sq)) 3); [left; eexists; reflexivity|].
  destruct (Py.truthy_str (Py.strip (bearer_token v))) eqn:Htok;
    [|left; eexists; reflexivity].
  cbn [negb]. right. exists ci. cbn [fst]. repeat split; auto.
Qed.

Lemma contains_truthy (sub s : string) :
  Py.truthy_str sub = true -> Py.contains sub s = true -> Py.truthy_str s = true.
Proof.
  destruct sub; [discriminate|]. destruct s; [discriminate | reflexivity].
Qed.

Lemma strip_empty : Py.strip "" = "".
Proof. reflexivity. Qed.

Lemma len_strip_truthy (s : string) :
  3 <= Py.len (Py.strip s) -> Py.truthy_str s = true.
Proof.
  destruct s; [rewrite strip_empty; unfold Py.len; simpl; lia | reflexivity].
Qed.

Lemma pipe_scope_resolved (v : Valves) (E : env) (u : option user) (c : pyval) :
  pipe_scope v E u c ->
  result (R2RPipe.resolve_permissions v E u) = Ret (inr c).
Proof.
  intros (Hen & usr & e & -> & He & Hat & Hres & Hc).
  unfold R2RPipe.resolve_permissions. rewrite Hen, He.
  rewrite (contains_truthy "@" e eq_refl Hat), Hat. cbn [negb orb].
  rewrite result_catch, result_bind by (intros ?; regular_tac).
  rewrite Hres, Hc. reflexivity.
Qed.

Lemma tool_scope_resolved (v : Valves) (E : env) (u : R2RTool.user_arg)
  (c : pyval) :
  tool_scope v E u c ->
  result (R2RTool.resolve_permissions v E u) = Ret c.
Proof.
  intros (Hen & g & Hg & Hres & Hc).
  unfold R2RTool.resolve_permissions. rewrite Hen.
  rewrite result_catch by (intros ?; regular_tac).
  destruct (Val.truthy (R2RTool.find_user_email E u)) eqn:Hem; cbn [negb].
  - rewrite result_bind by (intros ?; regular_tac). rewrite Hg.
    destruct (Py.truthy_str g) eqn:Htg.
    + now rewrite Hres.
    + exfalso. revert Hres Hc.
      unfold R2RTool._get_collection_from_guid, _get_collection_id_from_guid.
      rewrite Htg. cbn. intros [= <-]. discriminate.
  - exfalso. revert Hg.
    unfold R2RTool._do_ldap_lookup, R2RTool._ldap_lookup_user_guid.
    rewrite Hem. destruct (LDAP_AVAILABLE E); cbn; discriminate.
Qed.

(** C2. In a request for which a collection scope is resolved, every
    search request that either entry point sends carries, under
    [search_settings.filters], the inclusion filter
    [{"collection_ids": {"$in": [scope]}}] on exactly that scope. *)
Theorem search_requests_carry_scope (v : Valves) (E : env) :
  (forall ms u c url tok p timeout,
      pipe_scope v E u c ->
      In (SearchPost url tok p timeout) (events (R2RPipe.pipe v E ms u)) ->
      payload_filters p
      = Some (PDict [("collection_ids", PDict [("$in", PList [c])])])) /\
  (forall query u c url tok p timeout,
      tool_scope v E u c ->
      In (SearchPost url tok p timeout)
        (events (R2RTool.r2r_search_context v E query u)) ->
      payload_filters p
      = Some (PDict [("collection_ids", PDict [("$in", PList [c])])])).
Proof.
  split.
  - intros ms u c url tok p timeout Hscope Hin.
    pose proof (pipe_scope_resolved v E u c Hscope) as Hr.
    assert (Hc : Val.truthy c = true)
      by (destruct Hscope as (_ & ? & ? & _ & _ & _ & _ & Hc); exact Hc).
    unfold events in Hin.
    destruct (pipe_cases v E ms u) as [[msg Hm]|(history & m & ci & _ & _ & _ & _ & Hm)];
      rewrite Hm in Hin; [destruct Hin|].
    fold (events (catch
            (perm <- R2RPipe.resolve_permissions v E u ;;
             match perm with
             | inl denial => ret denial
             | inr c0 =>
                 R2RPipe.search_and_answer v E ms u
                   (fst (R2RPipe._parse_user_input (user_query_of m))) ci c0
             end)
            (fun e => ret (R2RPipe.msg_system_error E e)))) in Hin.
    rewrite events_catch, events_bind, result_bind in Hin
      by (intros ?; regular_tac).
    rewrite Hr in Hin.
    destruct (events_search_and_answer v E ms u
                (fst (R2RPipe._parse_user_input (user_query_of m))) ci c)
      as (tail & Hev & Htail).
    rewrite Hev in Hin.
    pose proof (quiet_resolve_pipe v E u) as Hq. unfold quiet in Hq.
    rewrite Forall_forall in Hq, Htail.
    apply in_app_or in Hin as [Hin|Hin].
    + apply in_app_or in Hin as [Hin|Hin].
      * apply Hq in Hin. discriminate Hin.
      * destruct Hin as [Hin|Hin].
        -- injection Hin as _ _ <- _. now apply payload_filters_scoped.
        -- apply Htail in Hin. discriminate Hin.
    + destruct (result (R2RPipe.search_and_answer v E ms u _ ci c));
        destruct Hin.
  - intros query u c url tok p timeout Hscope Hin.
    pose proof (tool_scope_resolved v E u c Hscope) as Hr.
    assert (Hc : Val.truthy c = true)
      by (destruct Hscope as (_ & ? & _ & _ & Hc); exact Hc).
    unfold events in Hin.
    destruct (tool_cases v E query u) as [[msg Hm]|(ci & _ & _ & Hm)];
      rewrite Hm in Hin; [destruct Hin|].
    fold (events (catch
            (c0 <- R2RTool.resolve_permissions v E u ;;
             R2RTool.search_and_build v E query
               (fst (R2RTool._parse_user_input E query)) ci c0)
            (fun e => ret (R2RTool.Message (R2RTool.msg_tool_failed E e)))))
      in Hin.
    rewrite events_catch, events_bind, result_bind in Hin
      by (intros ?; regular_tac).
    rewrite Hr, events_search_and_build in Hin.
    pose proof (quiet_resolve_tool v E u) as Hq. unfold quiet in Hq.
    rewrite Forall_forall in Hq.
    apply in_app_or in Hin as [Hin|Hin].
    + apply in_app_or in Hin as [Hin|Hin].
      * apply Hq in Hin. discriminate Hin.
      * destruct Hin as [Hin|[]].
        injection Hin as _ _ <- _. now apply payload_filters_scoped.
    + destruct (result (R2RTool.search_and_build v E query _ ci c));
        destruct Hin.
Qed.

(** A request reaches the permission stage of the pipe when its last
    message is the user's, the parsed query has three characters or
    more, and a token is configured. *)
Lemma pipe_reaches (v : Valves) (E : env) (history : list message) (m : message)
  (u : option user) :
  role m = Some "user" ->
  3 <= Py.len (Py.strip (fst (R2RPipe._parse_user_input (user_query_of m)))) ->
  Py.truthy_str (Py.strip (bearer_token v)) = true ->
  R2RPipe.pipe v E (history ++ [m]) u [] =
  catch
    (perm <- R2RPipe.resolve_permissions v E u ;;
     match perm with
     | inl denial => ret denial
     | inr c =>
         R2RPipe.search_and_answer v E (history ++ [m]) u
           (fst (R2RPipe._parse_user_input (user_query_of m)))
           (snd (R2RPipe._parse_user_input (user_query_of m))) c
     end)
    (fun e => ret (R2RPipe.msg_system_error E e)) [].
Proof.
  intros Hrole Hlen Htok. unfold R2RPipe.pipe.
  rewrite rev_app_distr. cbn [rev app]. fold (user_query_of m).
  rewrite Hrole. change (String.eqb "user" "user") with true. cbn [negb].
  assert (Hq : Py.truthy_str (user_query_of m) = true).
  { destruct (user_query_of m); [|reflexivity].
    exfalso. change (3 <= 0) in Hlen. lia. }
  rewrite Hq. cbn [negb].
  destruct (R2RPipe._parse_user_input (user_query_of m)) as [sq ci].
  cbn [fst snd] in *. rewrite (len_strip_truthy sq Hlen). cbn [negb orb].
  replace (Py.len (Py.strip sq) <? 3) with false
    by (symmetry; apply Z.ltb_ge; lia).
  rewrite Htok. reflexivity.
Qed.

Lemma tool_reaches (v : Valves) (E : env) (query : string) (u : R2RTool.user_arg) :
  3 <= Py.len (Py.strip (fst (R2RTool._parse_user_input E query))) ->
  Py.truthy_str (Py.strip (bearer_token v)) = true ->
  R2RTool.r2r_search_context v E query u [] =
  catch
    (c <- R2RTool.resolve_permissions v E u ;;
     R2RTool.search_and_build v E query
       (fst (R2RTool._parse_user_input E query))
       (snd (R2RTool._parse_user_input E query)) c)
    (fun e => ret (R2RTool.Message (R2RTool.msg_tool_failed E e))) [].
Proof.
  intros Hlen Htok. unfold R2RTool.r2r_search_context.
  assert (Hq : Py.truthy_str query = true).
  { destruct query; [|reflexivity].
    exfalso. change (3 <= 0) in Hlen. lia. }
  rewrite Hq. cbn [negb].
  destruct (R2RTool._parse_user_input E query) as [sq ci].
  cbn [fst snd] in *. rewrite (len_strip_truthy sq Hlen). cbn [negb orb].
  replace (Py.len (Py.strip sq) <? 3) with false
    by (symmetry; apply Z.ltb_ge; lia).
  rewrite Htok. reflexivity.
Qed.

Lemma pipe_unresolved_denied (v : Valves) (E : env) (usr : user) (e : string) :
  enforce_permissions v = true ->
  email usr = Some e -> Py.contains "@" e = true ->
  unresolved_pipe v E e ->
  result (R2RPipe.resolve_permissions v E (Some usr))
  = Ret (inl (R2RPipe.msg_denied_no_collection e)).
Proof.
  intros Hen He Hat Hun.
  unfold R2RPipe.resolve_permissions. rewrite Hen, He.
  rewrite (contains_truthy "@" e eq_refl Hat), Hat. cbn [negb orb].
  rewrite result_catch, result_bind by (intros ?; regular_tac).
  unfold R2RPipe._get_user_collection_id. rewrite Hen. cbn [negb].
  rewrite result_bind by (intros ?; regular_tac).
  destruct Hun as [Hn|(g & c & Hg & Hc & Hf)].
  - rewrite Hn. reflexivity.
  - rewrite Hg. destruct (Py.truthy_str g); cbn [negb].
    + rewrite Hc, Hf. reflexivity.
    + reflexivity.
Qed.

Lemma denied_is_not_a_search_error (E : env) (e : string) (x : exn) :
  R2RPipe.msg_denied_no_collection e <> R2RPipe.msg_search_error E x.
Proof. discriminate. Qed.

Lemma denied_is_not_empty_result (e q : string) :
  R2RPipe.msg_denied_no_collection e <> R2RPipe.msg_no_documents q.
Proof. discriminate. Qed.

(** X29. With permission enforcement on and a token configured, a
    request to the pipe that reaches the permission stage with an
    address containing [@], for which the directory yields no GUID or
    the GUID yields no collection, is answered with the access-denied
    message, which differs from every search-error and every
    empty-result message, and no search request is sent. *)
Theorem pipe_denies_without_scope (v : Valves) (E : env)
  (Henforce : enforce_permissions v = true)
  (Htoken : Py.truthy_str (Py.strip (bearer_token v)) = true)
  (history : list message) (m : message) (usr : user) (e : string)
  (Hrole : role m = Some "user")
  (Hlen : 3 <= Py.len (Py.strip (fst (R2RPipe._parse_user_input (user_query_of m)))))
  (Hemail : email usr = Some e) (Hat : Py.contains "@" e = true)
  (Hunresolved : unresolved_pipe v E e) :
  result (R2RPipe.pipe v E (history ++ [m]) (Some usr))
  = Ret (R2RPipe.msg_denied_no_collection e) /\
  Forall (fun ev => is_search ev = false)
    (events (R2RPipe.pipe v E (history ++ [m]) (Some usr))) /\
  (forall x, R2RPipe.msg_denied_no_collection e <> R2RPipe.msg_search_error E x) /\
  (forall q, R2RPipe.msg_denied_no_collection e <> R2RPipe.msg_no_documents q).
Proof.
  pose proof (pipe_unresolved_denied v E usr e Henforce Hemail Hat Hunresolved)
    as Hr.
  unfold result, events.
  rewrite (pipe_reaches v E history m (Some usr) Hrole Hlen Htoken).
  match goal with
  | |- fst (?m []) = _ /\ Forall _ (snd (?m [])) /\ _ =>
      change (result m = Ret (R2RPipe.msg_denied_no_collection e) /\
              Forall (fun ev => is_search ev = false) (events m) /\
              (forall x, R2RPipe.msg_denied_no_collection e
                         <> R2RPipe.msg_search_error E x) /\
              (forall q, R2RPipe.msg_denied_no_collection e
                         <> R2RPipe.msg_no_documents q))
  end.
  rewrite result_catch, events_catch by (intros ?; regular_tac).
  rewrite result_bind, events_bind by (intros ?; regular_tac).
  rewrite Hr. cbn [result events ret fst snd]. rewrite !app_nil_r.
  split; [reflexivity|]. split; [apply quiet_resolve_pipe|].
  split; [apply denied_is_not_a_search_error | apply denied_is_not_empty_result].
Qed.

(** ** Identity resolution *)

Lemma strip_truthy (s : string) :
  Py.truthy_str (Py.strip s) = true -> Py.truthy_str s = true.
Proof. destruct s; [rewrite strip_empty; discriminate | reflexivity]. Qed.

(** With an answering directory the lookup returns what the value of the
    first entry converts to, [None] when the conversion fails. *)
Lemma pipe_lookup_answers (E : env) (cfg : ldap_config) (email : string)
  (val : ldapval) :
  directory_answers E cfg email val ->
  result (R2RPipe._ldap_lookup_user_guid E email cfg) =
  Ret (match R2RPipe.guid_of_entry E (Some val) with
       | Ret r => r
       | Raise _ => None
       end).
Proof.
  intros (Hav & Hem & Hb & search_filter & rest & Hfmt & Hent).
  unfold R2RPipe._ldap_lookup_user_guid.
  rewrite Hav, (strip_truthy email Hem), Hem. cbn [negb orb].
  unfold result. cbv [bind catch emit lift ret]. cbn [app].
  rewrite Hb, Hfmt, Hent.
  destruct (R2RPipe.guid_of_entry E (Some val)) as [r|e];
    destruct (ldap_bound_after E cfg search_filter); reflexivity.
Qed.

Lemma tool_lookup_answers (E : env) (cfg : ldap_config) (email : string)
  (val : ldapval) :
  directory_answers E cfg email val ->
  result (R2RTool._ldap_lookup_user_guid E (PStr email) cfg) =
  Ret (match R2RTool.guid_of_entry E (Some val) with
       | Ret r => r
       | Raise _ => None
       end).
Proof.
  intros (Hav & Hem & Hb & search_filter & rest & Hfmt & Hent).
  unfold R2RTool._ldap_lookup_user_guid.
  change (Val.truthy (PStr email)) with (Py.truthy_str email).
  rewrite Hav, (strip_truthy email Hem), Hem. cbn [negb orb].
  unfold result. cbv [bind catch emit lift ret]. cbn [app].
  rewrite Hb, Hfmt, Hent.
  destruct (R2RTool.guid_of_entry E (Some val)) as [r|e]; reflexivity.
Qed.

(** X30. With an answering directory, the pipe's lookup normalises
    sixteen raw bytes, UUID text that may be brace-wrapped, and a
    non-empty list that starts with either, all to the upper-case
    canonical text of the UUID, and returns null for every other value;
    the tool's lookup normalises raw bytes to the same text. *)
Theorem pipe_normalises_guid_forms (E : env) (cfg : ldap_config) (email : string)
  (val : ldapval) (Hdir : directory_answers E cfg email val) :
  (forall c, denotes E val c ->
             result (R2RPipe._ldap_lookup_user_guid E email cfg)
             = Ret (Some (Py.upper c))) /\
  ((forall c, ~ denotes E val c) ->
   result (R2RPipe._ldap_lookup_user_guid E email cfg) = Ret None) /\
  (forall b c, val = LOne (ABytes b) -> uuid_bytes_str E b = Some c ->
               result (R2RTool._ldap_lookup_user_guid E (PStr email) cfg)
               = Ret (Some (Py.upper c))).
Proof.
  rewrite (pipe_lookup_answers E cfg email val Hdir),
    (tool_lookup_answers E cfg email val Hdir).
  split; [|split].
  - intros c Hc. destruct Hc as [b c H|s c H|b c rest H|s c rest H]; cbn;
      unfold guid_from_bytes, guid_from_str; now rewrite H.
  - intros Hn. destruct val as [[b|s|]|[|[b|s|] rest]]; cbn; try reflexivity;
      unfold guid_from_bytes, guid_from_str.
    + destruct (uuid_bytes_str E b) as [c|] eqn:H; [|reflexivity].
      elim (Hn c). now constructor.
    + destruct (uuid_text_str E _) as [c|] eqn:H; [|reflexivity].
      elim (Hn c). now constructor.
    + destruct (uuid_bytes_str E b) as [c|] eqn:H; [|reflexivity].
      elim (Hn c). now constructor.
    + destruct (uuid_text_str E _) as [c|] eqn:H; [|reflexivity].
      elim (Hn c). now constructor.
  - intros b c -> H. cbn. unfold guid_from_bytes. now rewrite H.
Qed.

(** ** Instances *)

Lemma citation_identifier_first_label_witness :
  label_at (PDict [("title", PStr "  "); ("source", PStr " Handbook ")]) "title" = None /\
  label_at (PDict [("title", PStr "  "); ("source", PStr " Handbook ")]) "source"
  = Some "Handbook" /\
  _get_citation_identifier (PDict [("title", PStr "  "); ("source", PStr " Handbook ")])
  = "Handbook".
Proof.
  split; [reflexivity|]. split; [reflexivity|].
  apply (proj1 (proj2 (citation_identifier_first_label
                         (PDict [("title", PStr "  "); ("source", PStr " Handbook ")])))
           ["title"] "source" ["filename"; "file_name"; "name"; "document_id"]).
  - reflexivity.
  - intros k [<-|[]]. reflexivity.
  - reflexivity.
Defined.

Lemma digits_8060008 : digits "8060008".
Proof. split; [discriminate | reflexivity]. Qed.


Lemma link_derivation_witness :
  digits "8060008" /\
  R2RTool.link_of_metadata default_valves
    (PDict [("filename", PStr "files__default:8060008")]) "Policy Doc"
  = Ret (Some "8060008", Some "https://your-nextcloud.domain.com/f/8060008").
Proof.
  split; [exact digits_8060008|].
  apply (proj1 link_derivation default_valves "8060008" [] "Policy Doc"
           digits_8060008).
Defined.

Lemma relevance_filter_before_truncation_witness :
  Forall scored ranked_chunks /\
  filter_by_score (5 # 10) ranked_chunks
  = Ret [scored_chunk "high" (7 # 10); scored_chunk "higher" (9 # 10)] /\
  R2RPipe._build_context_from_results (with_curation (5 # 10) 1 default_valves)
    "cats" (PList ranked_chunks) None
  = Ret (ContextBlocks "cats" 2
           [{| e_idx := 1; e_citation_id := "Unknown"; e_file_id := None;
               e_link := None; e_text := "high";
               e_score := Some (PFloat (7 # 10)) |}] None) /\
  R2RTool.context_from_response (with_curation (5 # 10) 1 default_valves)
    account_env "cats, briefly" "cats" None
    (PDict [("results", PDict [("chunk_search_results", PList ranked_chunks)])])
  = Ret (R2RTool.FinalContext
           (Some [{| R2RTool.s_name := "Unknown"; R2RTool.s_url := EmptyString;
                     R2RTool.s_content := "high" |}])
           "cats, briefly"
           (ContextBlocks "cats" 2
              [{| e_idx := 1; e_citation_id := "Unknown"; e_file_id := None;
                  e_link := None; e_text := "high";
                  e_score := Some (PFloat (7 # 10)) |}] None)).
Proof.
  assert (H : Forall scored ranked_chunks)
    by (repeat constructor; eexists; reflexivity).
  assert (Hm : 0 <= max_chunks_in_context (with_curation (5 # 10) 1 default_valves))
    by (cbn; lia).
  assert (Hne : ranked_chunks <> []) by discriminate.
  destruct (relevance_filter_before_truncation (5 # 10) ranked_chunks H)
    as (Hf & _ & Hp & Ht & _).
  split; [exact H|]. split; [rewrite Hf; reflexivity|]. split.
  - destruct (Hp (with_curation (5 # 10) 1 default_valves) "cats" None
                eq_refl Hm) as [Heq _].
    rewrite Heq. reflexivity.
  - destruct (Ht (with_curation (5 # 10) 1 default_valves) account_env
                "cats, briefly" "cats" None
                (PDict [("results",
                         PDict [("chunk_search_results", PList ranked_chunks)])])
                eq_refl Hm eq_refl Hne) as [Heq _].
    rewrite Heq. reflexivity.
Defined.

Lemma parse_structured_block_witness :
  is_structured (Py.strip quoted_block) = true /\
  last_opt (filter is_search_line (block_lines (Py.strip quoted_block)))
  = Some ("search: " ++ dquote ++ "cats" ++ dquote) /\
  fst (R2RPipe._parse_user_input quoted_block) = "cats".
Proof.
  split; [reflexivity|]. split; [reflexivity|].
  apply (parse_structured_block no_account_env quoted_block
           ("search: " ++ dquote ++ "cats" ++ dquote)).
  - reflexivity.
  - reflexivity.
  - discriminate.
Defined.

(** Against C8 as worded: on a block with two [search:] lines the
    first value that is not empty is [cats], and both parsers return
    [dogs]. *)
Lemma last_search_line_wins :
  is_structured (Py.strip two_search_lines) = true /\
  first_nonempty_search_value (block_lines (Py.strip two_search_lines))
  = Some "cats" /\
  R2RPipe._parse_user_input two_search_lines = ("dogs", None) /\
  R2RTool._parse_user_input no_account_env two_search_lines = ("dogs", None).
Proof. repeat split. Qed.

(** The value of an [instructions:] line is cut one character early,
    so that it keeps the colon and cannot lose its opening quote. *)
Example instructions_value_keeps_colon :
  R2RPipe._parse_user_input quoted_block
  = ("cats", Some (": " ++ dquote ++ "be brief")).
Proof. reflexivity. Qed.

Lemma short_query_no_network_witness :
  Py.len (Py.strip (fst (R2RPipe._parse_user_input (user_query_of (user_message "ab"))))) < 3 /\
  events (R2RPipe.pipe default_valves account_env [user_message "ab"] (Some ann)) = [] /\
  Py.len (Py.strip (fst (R2RTool._parse_user_input account_env " a "))) < 3 /\
  events (R2RTool.r2r_search_context default_valves account_env " a " ann_json) = [].
Proof.
  assert (H1 : Py.len (Py.strip (fst (R2RPipe._parse_user_input
                                        (user_query_of (user_message "ab"))))) < 3)
    by reflexivity.
  assert (H2 : Py.len (Py.strip (fst (R2RTool._parse_user_input account_env " a "))) < 3)
    by reflexivity.
  split; [exact H1|]. split.
  - apply (proj1 (short_query_no_network default_valves account_env)
             [] (user_message "ab") (Some ann) eq_refl H1).
  - split; [exact H2|].
    apply (proj2 (short_query_no_network default_valves account_env)
             " a " ann_json H2).
Defined.

(** Against C5 as worded: the parsed text of ["a b"] has two
    characters that are not whitespace, and both entry points go on to
    the network, up to the search request. *)
Lemma three_characters_with_a_space_search :
  nonspace_count (fst (R2RPipe._parse_user_input (user_query_of (user_message "a b"))))
  = 2%nat /\
  nonspace_count (fst (R2RTool._parse_user_input account_env "a b")) = 2%nat /\
  existsb is_search
    (events (R2RPipe.pipe default_valves account_env [user_message "a b"] (Some ann)))
  = true /\
  result (R2RPipe.pipe default_valves account_env [user_message "a b"] (Some ann))
  = Ret "answer" /\
  existsb is_search
    (events (R2RTool.r2r_search_context default_valves account_env "a b" ann_json))
  = true.
Proof. repeat split. Qed.

Lemma pipe_denies_without_scope_witness :
  enforce_permissions default_valves = true /\
  Py.truthy_str (Py.strip (bearer_token default_valves)) = true /\
  unresolved_pipe default_valves no_account_env "ann@example.com" /\
  result (R2RPipe.pipe default_valves no_account_env [user_message "cats"] (Some ann))
  = Ret (R2RPipe.msg_denied_no_collection "ann@example.com") /\
  Forall (fun ev => is_search ev = false)
    (events (R2RPipe.pipe default_valves no_account_env [user_message "cats"]
               (Some ann))).
Proof.
  assert (Hp : unresolved_pipe default_valves no_account_env "ann@example.com")
    by (left; reflexivity).
  split; [reflexivity|]. split; [reflexivity|]. split; [exact Hp|].
  destruct (pipe_denies_without_scope default_valves no_account_env
              eq_refl eq_refl [] (user_message "cats") ann "ann@example.com"
              eq_refl) as (Hr & Hq & _);
    [apply Z.leb_le; reflexivity | reflexivity | reflexivity | exact Hp |].
  split; [exact Hr | exact Hq].
Defined.

(** C1, the defect.  With enforcement on, an address in the user
    object and a directory that knows nobody, the tool finds no GUID,
    sends its search request all the same, without a collection filter,
    and returns the context built from the chunks; on the same request
    the pipe returns its access-denied message and sends no search. *)
Lemma tool_searches_without_scope :
  enforce_permissions default_valves = true /\
  result (R2RTool._do_ldap_lookup default_valves no_account_env
            (R2RTool.find_user_email no_account_env ann_json)) = Ret None /\
  existsb is_search
    (events (R2RTool.r2r_search_context default_valves no_account_env "cats"
               ann_json)) = true /\
  (exists sources ctx,
      result (R2RTool.r2r_search_context default_valves no_account_env "cats"
                ann_json)
      = Ret (R2RTool.FinalContext sources "cats" ctx)) /\
  (exists url tok p timeout,
      In (SearchPost url tok p timeout)
        (events (R2RTool.r2r_search_context default_valves no_account_env "cats"
                   ann_json)) /\
      payload_filters p = None) /\
  result (R2RPipe.pipe default_valves no_account_env [user_message "cats"] (Some ann))
  = Ret (R2RPipe.msg_denied_no_collection "ann@example.com") /\
  existsb is_search
    (events (R2RPipe.pipe default_valves no_account_env [user_message "cats"]
               (Some ann))) = false.
Proof.
  split; [reflexivity|]. split; [reflexivity|]. split; [reflexivity|].
  split; [eexists; eexists; reflexivity|].
  split; [|split; reflexivity].
  eexists _, _, _, _.
  split; [do 3 right; left; reflexivity | reflexivity].
Qed.

Lemma search_requests_carry_scope_witness :
  pipe_scope default_valves account_env (Some ann) (PStr "c-1") /\
  tool_scope default_valves account_env ann_json (PStr "c-1") /\
  (forall url tok p timeout,
      In (SearchPost url tok p timeout)
        (events (R2RPipe.pipe default_valves account_env [user_message "cats"]
                   (Some ann))) ->
      payload_filters p
      = Some (PDict [("collection_ids", PDict [("$in", PList [PStr "c-1"])])])) /\
  existsb is_search
    (events (R2RPipe.pipe default_valves account_env [user_message "cats"]
               (Some ann))) = true /\
  (forall url tok p timeout,
      In (SearchPost url tok p timeout)
        (events (R2RTool.r2r_search_context default_valves account_env "cats"
                   ann_json)) ->
      payload_filters p
      = Some (PDict [("collection_ids", PDict [("$in", PList [PStr "c-1"])])])) /\
  existsb is_search
    (events (R2RTool.r2r_search_context default_valves account_env "cats"
               ann_json)) = true.
Proof.
  assert (Hp : pipe_scope default_valves account_env (Some ann) (PStr "c-1")).
  { split; [reflexivity|]. exists ann, "ann@example.com". repeat split. }
  assert (Ht : tool_scope default_valves account_env ann_json (PStr "c-1")).
  { split; [reflexivity|]. exists "ABCDEF01-2345-6789-ABCD-EF0123456789".
    repeat split. }
  split; [exact Hp|]. split; [exact Ht|].
  destruct (search_requests_carry_scope default_valves account_env)
    as [Hpipe Htool].
  split; [|split; [reflexivity|split; [|reflexivity]]].
  - intros url tok p timeout Hin.
    apply (Hpipe [user_message "cats"] (Some ann) (PStr "c-1") url tok p timeout
             Hp Hin).
  - intros url tok p timeout Hin.
    apply (Htool "cats" ann_json (PStr "c-1") url tok p timeout Ht Hin).
Defined.

Lemma directory_answers_text :
  directory_answers text_account_env (ldap_config_of default_valves)
    "ann@example.com" (LOne (AStr guid_text_example)).
Proof.
  split; [reflexivity|]. split; [reflexivity|]. split; [reflexivity|].
  exists "(mail=ann@example.com)", []. split; reflexivity.
Qed.

Lemma pipe_normalises_guid_forms_witness :
  directory_answers text_account_env (ldap_config_of default_valves)
    "ann@example.com" (LOne (AStr guid_text_example)) /\
  denotes text_account_env (LOne (AStr guid_text_example))
    "abcdef01-2345-6789-abcd-ef0123456789" /\
  denotes text_account_env (LOne (ABytes guid_bytes_example))
    "abcdef01-2345-6789-abcd-ef0123456789" /\
  result (R2RPipe._ldap_lookup_user_guid text_account_env "ann@example.com"
            (ldap_config_of default_valves))
  = Ret (Some "ABCDEF01-2345-6789-ABCD-EF0123456789").
Proof.
  assert (Hd : denotes text_account_env (LOne (AStr guid_text_example))
                 "abcdef01-2345-6789-abcd-ef0123456789")
    by (constructor; reflexivity).
  split; [exact directory_answers_text|]. split; [exact Hd|].
  split; [constructor; reflexivity|].
  apply (proj1 (pipe_normalises_guid_forms text_account_env
                  (ldap_config_of default_valves)
                  "ann@example.com" (LOne (AStr guid_text_example))
                  directory_answers_text)
           "abcdef01-2345-6789-abcd-ef0123456789" Hd).
Defined.

(** C4, the defect.  A directory entry whose GUID attribute is a
    brace-wrapped UUID string: the pipe's [_ldap_lookup_user_guid]
    normalises it to the upper-case canonical text, the tool's function
    of the same name, which converts [bytes] values only, returns
    null. *)
Lemma tool_ignores_uuid_text :
  denotes text_account_env (LOne (AStr guid_text_example))
    "abcdef01-2345-6789-abcd-ef0123456789" /\
  result (R2RTool._ldap_lookup_user_guid text_account_env (PStr "ann@example.com")
            (ldap_config_of default_valves)) = Ret None /\
  result (R2RPipe._ldap_lookup_user_guid text_account_env "ann@example.com"
            (ldap_config_of default_valves))
  = Ret (Some "ABCDEF01-2345-6789-ABCD-EF0123456789").
Proof.
  split; [constructor; reflexivity|]. split; reflexivity.
Qed.

(** * Further properties *)

(** ** Trimming *)

Lemma lstrip_fixed (p : ascii -> bool) (s : string) :
  match s with EmptyString => True | String c _ => p c = false end ->
  Py.lstrip_by p s = s.
Proof. destruct s as [|c r]; simpl; [reflexivity | now intros ->]. Qed.

Lemma lstrip_head (p : ascii -> bool) (s : string) :
  match Py.lstrip_by p s with EmptyString => True | String c _ => p c = false end.
Proof.
  induction s as [|c r IH]; simpl; [exact I|].
  destruct (p c) eqn:H; [exact IH | exact H].
Qed.

Lemma rstrip_cons_keep (p : ascii -> bool) (c : ascii) (r : string) :
  p c = false -> exists r', Py.rstrip_by p (String c r) = String c r'.
Proof.
  intros H. simpl. destruct (Py.rstrip_by p r).
  - rewrite H. now exists "".
  - now eexists.
Qed.

Lemma rstrip_head (p : ascii -> bool) (s : string) :
  match s with EmptyString => True | String c _ => p c = false end ->
  match Py.rstrip_by p s with EmptyString => True | String c _ => p c = false end.
Proof.
  destruct s as [|c r]; [intros _; exact I|]. intros H.
  destruct (rstrip_cons_keep p c r H) as [r' ->]. exact H.
Qed.

Lemma rstrip_cons_nonempty (p : ascii -> bool) (c a : ascii) (r b : string) :
  Py.rstrip_by p r = String a b ->
  Py.rstrip_by p (String c r) = String c (String a b).
Proof. simpl. now intros ->. Qed.

Lemma rstrip_idempotent (p : ascii -> bool) (s : string) :
  Py.rstrip_by p (Py.rstrip_by p s) = Py.rstrip_by p s.
Proof.
  induction s as [|c r IH]; [reflexivity|].
  destruct (Py.rstrip_by p r) as [|c' r'] eqn:E.
  - simpl. rewrite E. destruct (p c) eqn:H; [reflexivity|]. simpl. now rewrite H.
  - rewrite (rstrip_cons_nonempty p c c' r r' E).
    now apply rstrip_cons_nonempty.
Qed.

Lemma strip_by_idempotent (p : ascii -> bool) (s : string) :
  Py.strip_by p (Py.strip_by p s) = Py.strip_by p s.
Proof.
  unfold Py.strip_by.
  rewrite (lstrip_fixed p (Py.rstrip_by p (Py.lstrip_by p s))).
  - apply rstrip_idempotent.
  - apply rstrip_head, lstrip_head.
Qed.

Lemma strip_idempotent (s : string) : Py.strip (Py.strip s) = Py.strip s.
Proof. apply strip_by_idempotent. Qed.

(** ** Citation identifiers, continued *)

Lemma first_label_clean (d : list (string * pyval)) (keys : list string) (s : string) :
  first_label d keys = Some s -> s <> "" /\ trimmed s.
Proof.
  induction keys as [|k r IH]; simpl; [discriminate|].
  destruct (Val.assoc k d) as [[| | | |x| |]|]; auto.
  destruct (Py.truthy_str (Py.strip x)) eqn:H; auto.
  intros [= <-]. split.
  - intros E. rewrite E in H. discriminate H.
  - apply strip_idempotent.
Qed.

(** X1. The citation identifier of any metadata value is never empty
    and has no whitespace at either end. *)
Theorem citation_identifier_clean (meta : pyval) :
  _get_citation_identifier meta <> "" /\ trimmed (_get_citation_identifier meta).
Proof.
  assert (Hu : "Unknown" <> "" /\ trimmed "Unknown")
    by (split; [discriminate | reflexivity]).
  destruct meta as [| | | | | |d]; try exact Hu.
  unfold _get_citation_identifier.
  destruct (first_label d ["title"; "source"; "filename"]) as [s|] eqn:E1.
  - exact (first_label_clean _ _ _ E1).
  - destruct (first_label d ["file_name"; "name"; "document_id"]) as [s|] eqn:E2.
    + exact (first_label_clean _ _ _ E2).
    + exact Hu.
Qed.

(** ** Input parsing, continued *)

Lemma parse_delimited_split (t : string) :
  Py.contains " | " t = true ->
  exists p0 p1,
    t = p0 ++ " | " ++ p1 /\ Py.contains " | " p0 = false /\
    parse_delimited t = Some (Py.strip p0, Some (Py.strip p1)).
Proof.
  intros H. unfold parse_delimited. rewrite H. unfold Py.split1.
  unfold Py.contains in H.
  destruct (Py.index_of " | " t) as [i|] eqn:Hi; [|discriminate H].
  exists (Py.take i t), (Py.drop (i + String.length " | ") t).
  split; [now apply index_of_split|]. split; [|reflexivity].
  unfold Py.contains. rewrite (index_of_first " | " t i); [reflexivity | discriminate | exact Hi].
Qed.

Lemma parse_structured_needs_marker (t : string) :
  Py.startswith t "---" = false -> parse_structured t = None.
Proof. intros H. unfold parse_structured. now rewrite H. Qed.

(** X2. On an input that, once trimmed, does not start with the marker
    and contains the delimiter [" | "], both parsers cut at the first
    delimiter: the input is [p0 ++ " | " ++ p1] with no delimiter in
    [p0], the search text is [p0] trimmed and the instructions are [p1]
    trimmed. *)
Theorem parse_at_first_delimiter (E : env) (raw : string) :
  Py.startswith (Py.strip raw) "---" = false ->
  Py.contains " | " (Py.strip raw) = true ->
  exists p0 p1,
    Py.strip raw = p0 ++ " | " ++ p1 /\ Py.contains " | " p0 = false /\
    R2RPipe._parse_user_input raw = (Py.strip p0, Some (Py.strip p1)) /\
    R2RTool._parse_user_input E raw = (Py.strip p0, Some (Py.strip p1)).
Proof.
  intros Hm Hd.
  destruct (parse_delimited_split _ Hd) as (p0 & p1 & Ht & Hp0 & Hp).
  exists p0, p1. split; [exact Ht|]. split; [exact Hp0|].
  assert (Htr : Py.truthy_str (Py.strip raw) = true)
    by (apply (contains_truthy " | "); [reflexivity | exact Hd]).
  unfold R2RPipe._parse_user_input, R2RTool._parse_user_input.
  rewrite Htr, (parse_structured_needs_marker _ Hm), Hp. now split.
Qed.

Lemma parse_at_first_delimiter_witness :
  Py.startswith (Py.strip " cats | be concise | now ") "---" = false /\
  Py.contains " | " (Py.strip " cats | be concise | now ") = true /\
  exists p0 p1,
    Py.strip " cats | be concise | now " = p0 ++ " | " ++ p1 /\
    Py.contains " | " p0 = false /\
    ("cats", Some "be concise | now") = (Py.strip p0, Some (Py.strip p1)).
Proof.
  split; [reflexivity|]. split; [reflexivity|].
  destruct (parse_at_first_delimiter no_account_env " cats | be concise | now "
              eq_refl eq_refl) as (p0 & p1 & H0 & H1 & H & _).
  exists p0, p1. split; [exact H0|]. split; [exact H1|].
  rewrite <- H. reflexivity.
Defined.

Lemma parse_delimited_none (t : string) :
  Py.contains " | " t = false -> parse_delimited t = None.
Proof. intros H. unfold parse_delimited. now rewrite H. Qed.

(** X3. On an input that, once trimmed, does not start with the marker,
    the pipe's parser returns a search text and instructions that have
    no whitespace at either end; without a delimiter it returns the
    trimmed input itself and no instructions, which on a blank input is
    the empty text. *)
Theorem pipe_parse_trimmed (raw : string) :
  Py.startswith (Py.strip raw) "---" = false ->
  trimmed (fst (R2RPipe._parse_user_input raw)) /\
  (forall i, snd (R2RPipe._parse_user_input raw) = Some i -> trimmed i) /\
  (Py.contains " | " (Py.strip raw) = false ->
   R2RPipe._parse_user_input raw = (Py.strip raw, None)).
Proof.
  intros Hm. unfold R2RPipe._parse_user_input.
  rewrite (parse_structured_needs_marker _ Hm).
  destruct (Py.truthy_str (Py.strip raw)) eqn:Ht; cbn [negb].
  - destruct (Py.contains " | " (Py.strip raw)) eqn:Hd.
    + destruct (parse_delimited_split _ Hd) as (p0 & p1 & _ & _ & ->).
      cbn [fst snd]. split; [apply strip_idempotent|]. split; [|discriminate].
      intros i [= <-]. apply strip_idempotent.
    + rewrite (parse_delimited_none _ Hd). cbn [fst snd].
      split; [apply strip_idempotent|]. split; [discriminate | reflexivity].
  - cbn [fst snd]. split; [reflexivity|]. split; [discriminate|].
    intros _. destruct (Py.strip raw); [reflexivity | discriminate Ht].
Qed.

Lemma pipe_parse_trimmed_witness :
  Py.startswith (Py.strip "  annual leave policy  ") "---" = false /\
  Py.contains " | " (Py.strip "  annual leave policy  ") = false /\
  R2RPipe._parse_user_input "  annual leave policy  "
  = (Py.strip "  annual leave policy  ", None).
Proof.
  split; [reflexivity|]. split; [reflexivity|].
  apply (proj2 (proj2 (pipe_parse_trimmed "  annual leave policy  " eq_refl))).
  reflexivity.
Defined.

Lemma drop_app_length (a b : string) (n : nat) :
  Py.drop (String.length a + n) (a ++ b) = Py.drop n b.
Proof. induction a as [|c a IH]; [reflexivity | exact IH]. Qed.

Lemma find_from_start (t sub : string) (i : nat) :
  Py.index_of sub t = Some i -> Py.find t sub 0 = Z.of_nat i.
Proof.
  intros H. unfold Py.find, Py.len.
  destruct (Z.ltb_spec (Z.of_nat (String.length t)) 0); [lia|].
  change (Py.drop (Z.to_nat 0) t) with (Py.drop 0 t).
  replace (Py.drop 0 t) with t by (destruct t; reflexivity).
  now rewrite H.
Qed.

Lemma strip_keeps_head (c : ascii) (r : string) :
  Py.isspace_char c = false -> exists r', Py.strip (String c r) = String c r'.
Proof.
  intros H. unfold Py.strip, Py.strip_by. simpl Py.lstrip_by. rewrite H.
  now apply rstrip_cons_keep.
Qed.

(** X4. In the tool, on an input that is neither structured nor
    delimited and holds both [Query:] and [Instructions:], the
    instructions returned start with a colon: the text is cut twelve
    characters after the start of [Instructions:], which has
    thirteen. *)
Theorem natural_instructions_keep_colon (E : env) (raw : string) :
  Py.startswith (Py.strip raw) "---" = false ->
  Py.contains " | " (Py.strip raw) = false ->
  Py.contains "Query:" (Py.strip raw) = true ->
  Py.contains "Instructions:" (Py.strip raw) = true ->
  exists rest,
    snd (R2RTool._parse_user_input E raw) = Some (String ":" rest).
Proof.
  intros Hm Hd Hq Hi.
  assert (Htr : Py.truthy_str (Py.strip raw) = true)
    by (apply (contains_truthy "Query:"); [reflexivity | exact Hq]).
  unfold R2RTool._parse_user_input, R2RTool._parse_user_input_natural.
  rewrite Htr, (parse_structured_needs_marker _ Hm), (parse_delimited_none _ Hd).
  cbn [negb]. rewrite strip_idempotent, Htr, Hq, Hi. cbn [negb andb snd].
  set (t := Py.strip raw) in *.
  unfold Py.contains in Hi.
  destruct (Py.index_of "Instructions:" t) as [i|] eqn:Hidx; [|discriminate Hi].
  rewrite (find_from_start _ _ _ Hidx).
  pose proof (index_of_bound _ _ _ Hidx) as Hb. simpl String.length in Hb.
  pose proof (index_of_split _ _ _ Hidx) as Hs. simpl String.length in Hs.
  unfold Py.slice_from. rewrite clamp_nonneg by lia. unfold Py.len.
  replace (Z.to_nat (Z.min (Z.of_nat i + 12) (Z.of_nat (String.length t))))
    with (String.length (Py.take i t) + 12)%nat
    by (rewrite length_take; lia).
  assert (Hdrop : Py.drop (String.length (Py.take i t) + 12) t
                  = String ":" (Py.drop (i + 13) t)).
  { transitivity (Py.drop (String.length (Py.take i t) + 12)
                    (Py.take i t ++ "Instructions:" ++ Py.drop (i + 13) t)).
    - now rewrite <- Hs.
    - rewrite drop_app_length. reflexivity. }
  rewrite Hdrop.
  destruct (strip_keeps_head ":" (Py.drop (i + 13) t) eq_refl) as [r' ->].
  now exists r'.
Qed.

Lemma natural_instructions_keep_colon_witness :
  Py.startswith (Py.strip "Query: leave policy Instructions: be brief") "---" = false /\
  Py.contains " | " (Py.strip "Query: leave policy Instructions: be brief") = false /\
  exists rest,
    snd (R2RTool._parse_user_input no_account_env
           "Query: leave policy Instructions: be brief")
    = Some (String ":" rest).
Proof.
  split; [reflexivity|]. split; [reflexivity|].
  apply (natural_instructions_keep_colon no_account_env
           "Query: leave policy Instructions: be brief"); reflexivity.
Defined.

(** ** Identity resolution, continued *)

Lemma nat_ascii_small (n : nat) :
  (n < 256)%nat -> nat_of_ascii (ascii_of_nat n) = n.
Proof. apply nat_ascii_embedding. Qed.

Lemma upper_char_not_lower (c : ascii) :
  negb ((97 <=? nat_of_ascii (Py.upper_char c))
        && (nat_of_ascii (Py.upper_char c) <=? 122))%nat = true.
Proof.
  unfold Py.upper_char.
  destruct ((97 <=? nat_of_ascii c) && (nat_of_ascii c <=? 122))%nat eqn:H.
  - apply andb_true_iff in H as [H1 H2].
    apply Nat.leb_le in H1. apply Nat.leb_le in H2.
    rewrite nat_ascii_small by lia.
    apply negb_true_iff, andb_false_iff. left. apply Nat.leb_gt. lia.
  - now rewrite H.
Qed.

Lemma upper_no_lowercase (s : string) : no_lowercase (Py.upper s).
Proof.
  unfold no_lowercase. induction s as [|c r IH]; [reflexivity|].
  cbn [Py.upper Py.all_chars]. now rewrite upper_char_not_lower, IH.
Qed.

Lemma guid_from_bytes_upper (E : env) (b : list ascii) (g : string) :
  guid_from_bytes E b = Ret (Some g) -> no_lowercase g.
Proof.
  unfold guid_from_bytes. destruct (uuid_bytes_str E b); [|discriminate].
  intros [= <-]. apply upper_no_lowercase.
Qed.

Lemma guid_from_str_upper (E : env) (s g : string) :
  guid_from_str E s = Some g -> no_lowercase g.
Proof.
  unfold guid_from_str. destruct (uuid_text_str E _); [|discriminate].
  intros [= <-]. apply upper_no_lowercase.
Qed.

Lemma pipe_entry_upper (E : env) (entry : option ldapval) (g : string) :
  R2RPipe.guid_of_entry E entry = Ret (Some g) -> no_lowercase g.
Proof.
  destruct entry as [[[b|s|]|[|[b|s|] rest]]|]; cbn; try discriminate;
    try (apply guid_from_bytes_upper);
    intros [= H]; now apply guid_from_str_upper in H.
Qed.

Lemma tool_entry_upper (E : env) (entry : option ldapval) (g : string) :
  R2RTool.guid_of_entry E entry = Ret (Some g) -> no_lowercase g.
Proof.
  destruct entry as [[[b|s|]|l]|]; cbn; try discriminate.
  apply guid_from_bytes_upper.
Qed.

(** X5. Every GUID that either [_ldap_lookup_user_guid] returns is in
    upper case: it holds no lower-case letter, whatever the directory
    and the [uuid] module answer. *)
Theorem lookup_guid_is_upper_case (E : env) (cfg : ldap_config) :
  (forall email g,
      result (R2RPipe._ldap_lookup_user_guid E email cfg) = Ret (Some g) ->
      no_lowercase g) /\
  (forall email g,
      result (R2RTool._ldap_lookup_user_guid E email cfg) = Ret (Some g) ->
      no_lowercase g).
Proof.
  split.
  - intros email g. unfold R2RPipe._ldap_lookup_user_guid, result.
    destruct (LDAP_AVAILABLE E); [|discriminate]. cbn [negb].
    destruct (negb (Py.truthy_str email) || negb (Py.truthy_str (Py.strip email)));
      [discriminate|].
    cbv [bind catch emit lift ret]. cbn [app].
    destruct (ldap_connect E cfg) as [[|]|]; try discriminate.
    destruct (filter_format E cfg email) as [search_filter|]; try discriminate.
    destruct (ldap_entries E cfg search_filter) as [[|entry rest]|];
      try (destruct (ldap_bound_after E cfg search_filter); discriminate).
    destruct (R2RPipe.guid_of_entry E entry) as [[g'|]|] eqn:Hg;
      try (destruct (ldap_bound_after E cfg search_filter); discriminate).
    destruct (ldap_bound_after E cfg search_filter); cbn; intros [= <-];
      exact (pipe_entry_upper E entry g' Hg).
  - intros email g. unfold R2RTool._ldap_lookup_user_guid, result.
    destruct (LDAP_AVAILABLE E); [|discriminate]. cbn [negb].
    destruct (negb (Val.truthy email)); [discriminate|].
    destruct email as [| | | |e| |]; try discriminate.
    destruct (negb (Py.truthy_str (Py.strip e))); [discriminate|].
    cbv [bind catch emit lift ret]. cbn [app].
    destruct (ldap_connect E cfg) as [bound|]; try discriminate.
    destruct (filter_format E cfg e) as [search_filter|]; try discriminate.
    destruct (ldap_entries E cfg search_filter) as [[|entry rest]|];
      try discriminate.
    destruct (R2RTool.guid_of_entry E entry) as [[g'|]|] eqn:Hg; try discriminate.
    cbn. intros [= <-]. exact (tool_entry_upper E entry g' Hg).
Qed.

Lemma lookup_guid_is_upper_case_witness :
  result (R2RPipe._ldap_lookup_user_guid text_account_env "ann@example.com"
            (ldap_config_of default_valves))
  = Ret (Some "ABCDEF01-2345-6789-ABCD-EF0123456789") /\
  no_lowercase "ABCDEF01-2345-6789-ABCD-EF0123456789".
Proof.
  split; [reflexivity|].
  apply (proj1 (lookup_guid_is_upper_case text_account_env
                  (ldap_config_of default_valves)) "ann@example.com").
  reflexivity.
Defined.

(** X6. The pipe's lookup raises only when [ldap3] is missing and calls
    the directory only for an address that is not blank.  After the
    bind, the search is called only on a bound connection whose filter
    formats, and the unbind exactly when the connection is bound as the
    [finally] block reads it: after a filter that does not format, and
    after a search that left the connection bound, whatever the search
    found or raised.  A connection that failed or is not bound is
    followed by no further call. *)
Theorem pipe_lookup_releases_connection (E : env) (email : string)
  (cfg : ldap_config) :
  (forall e, result (R2RPipe._ldap_lookup_user_guid E email cfg) = Raise e ->
             LDAP_AVAILABLE E = false) /\
  events (R2RPipe._ldap_lookup_user_guid E email cfg) =
  (if LDAP_AVAILABLE E && Py.truthy_str (Py.strip email)
   then match ldap_connect E cfg with
        | Ret true =>
            match filter_format E cfg email with
            | Ret search_filter =>
                if ldap_bound_after E cfg search_filter
                then [LdapBind cfg; LdapSearch cfg search_filter; LdapUnbind]
                else [LdapBind cfg; LdapSearch cfg search_filter]
            | Raise _ => [LdapBind cfg; LdapUnbind]
            end
        | _ => [LdapBind cfg]
        end
   else []).
Proof.
  unfold R2RPipe._ldap_lookup_user_guid, result, events.
  destruct (LDAP_AVAILABLE E); cbn [negb andb]; [|split; [reflexivity | reflexivity]].
  destruct (Py.truthy_str (Py.strip email)) eqn:Hs.
  - rewrite (strip_truthy email Hs). cbn [negb orb].
    cbv [bind catch emit lift ret]. cbn [app].
    destruct (ldap_connect E cfg) as [[|]|]; cbn;
      try (split; [discriminate | reflexivity]).
    destruct (filter_format E cfg email) as [search_filter|]; cbn;
      try (split; [discriminate | reflexivity]).
    destruct (ldap_entries E cfg search_filter) as [[|entry rest]|]; cbn;
      try (destruct (ldap_bound_after E cfg search_filter);
           (split; [discriminate | reflexivity])).
    destruct (R2RPipe.guid_of_entry E entry); cbn;
      destruct (ldap_bound_after E cfg search_filter);
      (split; [discriminate | reflexivity]).
  - rewrite orb_true_r. split; [discriminate | reflexivity].
Qed.

Lemma pipe_lookup_releases_connection_witness :
  (exists e,
      result (R2RPipe._ldap_lookup_user_guid (without_ldap account_env)
                "ann@example.com" (ldap_config_of default_valves)) = Raise e) /\
  LDAP_AVAILABLE (without_ldap account_env) = false /\
  events (R2RPipe._ldap_lookup_user_guid account_env "ann@example.com"
            (ldap_config_of default_valves))
  = [LdapBind (ldap_config_of default_valves);
     LdapSearch (ldap_config_of default_valves) "(mail=ann@example.com)";
     LdapUnbind].
Proof.
  split; [eexists; reflexivity|]. split.
  - destruct (pipe_lookup_releases_connection (without_ldap account_env)
                "ann@example.com" (ldap_config_of default_valves)) as [H _].
    eapply H. reflexivity.
  - destruct (pipe_lookup_releases_connection account_env
                "ann@example.com" (ldap_config_of default_valves)) as [_ H].
    exact H.
Defined.

(** X7. Wrapped in [_do_ldap_lookup] the tool's lookup never raises,
    also when [ldap3] is missing or the address is not a string, in
    which cases it makes no call.  Once the connection object exists it
    is unbound on every path, bound or not: after a filter that does
    not format, without a search, and after the search, whatever it
    found or raised.  A connection that failed is followed by no
    further call. *)
Theorem tool_lookup_releases_connection (v : Valves) (E : env) (email : pyval) :
  (exists r, result (R2RTool._do_ldap_lookup v E email) = Ret r) /\
  events (R2RTool._do_ldap_lookup v E email) =
  match email with
  | PStr e =>
      if LDAP_AVAILABLE E && Py.truthy_str (Py.strip e)
      then match ldap_connect E (ldap_config_of v) with
           | Ret _ =>
               match filter_format E (ldap_config_of v) e with
               | Ret search_filter =>
                   [LdapBind (ldap_config_of v);
                    LdapSearch (ldap_config_of v) search_filter; LdapUnbind]
               | Raise _ => [LdapBind (ldap_config_of v); LdapUnbind]
               end
           | Raise _ => [LdapBind (ldap_config_of v)]
           end
      else []
  | _ => []
  end.
Proof.
  unfold R2RTool._do_ldap_lookup, R2RTool._ldap_lookup_user_guid, result, events.
  destruct (LDAP_AVAILABLE E); cbn [negb andb].
  - destruct email as [|b|z|q|e|l|d];
      try (solve [split; [eexists|]; reflexivity
                 | destruct (Val.truthy _); (split; [eexists|]; reflexivity)]).
    change (Val.truthy (PStr e)) with (Py.truthy_str e).
    destruct (Py.truthy_str (Py.strip e)) eqn:Hs.
    + rewrite (strip_truthy e Hs). cbn [negb].
      cbv [bind catch emit lift ret]. cbn [app].
      destruct (ldap_connect E (ldap_config_of v)) as [bound|];
        [|split; [eexists|]; reflexivity].
      destruct (filter_format E (ldap_config_of v) e) as [search_filter|];
        [|split; [eexists|]; reflexivity].
      destruct (ldap_entries E (ldap_config_of v) search_filter)
        as [[|entry rest]|];
        try (split; [eexists|]; reflexivity).
      destruct (R2RTool.guid_of_entry E entry); (split; [eexists|]; reflexivity).
    + destruct (Py.truthy_str e); (split; [eexists|]; reflexivity).
  - destruct email; (split; [eexists|]; reflexivity).
Qed.

(** X8. The collection lookup never raises, sends at most one request,
    to [<collections_api_url>/<guid>] with the owner id, and none for an
    empty GUID; it returns something other than [None] only from a 200
    response whose body is a dict holding a dict under [results], and
    then it is the value under [results.id]. *)
Theorem collection_lookup_contract (E : env) (g : string) (cfg : r2r_config) :
  let url := rc_collections_api_url cfg ++ "/" ++ g in
  let call := CollectionsGet url (rc_default_owner_id cfg) (rc_bearer_token cfg) in
  (exists c, result (_get_collection_id_from_guid E g cfg) = Ret c) /\
  events (_get_collection_id_from_guid E g cfg)
  = (if Py.truthy_str g then [call] else []) /\
  (forall c,
      result (_get_collection_id_from_guid E g cfg) = Ret c -> c <> PNone ->
      exists r data results,
        collections_get E url (rc_default_owner_id cfg) (rc_bearer_token cfg) = Ret r /\
        status_code r = 200 /\ json r = Some (PDict data) /\
        Val.assoc "results" data = Some (PDict results) /\
        Val.assoc "id" results = Some c).
Proof.
  intros url call. unfold _get_collection_id_from_guid, result, events.
  fold url. destruct (Py.truthy_str g); cbn [negb].
  2:{ split; [now eexists|]. split; [reflexivity|]. intros c [= <-] H. now elim H. }
  cbv [bind catch emit lift ret raise]. cbn [app].
  destruct (collections_get E url _ _) as [r|e] eqn:Hget.
  2:{ split; [now eexists|]. split; [reflexivity|]. intros c [= <-] H. now elim H. }
  destruct (Z.eqb_spec (status_code r) 200) as [Hst|Hst].
  2:{ split; [now eexists|]. split; [reflexivity|]. intros c [= <-] H. now elim H. }
  destruct (json r) as [[| | | | | |data]|] eqn:Hj;
    try (split; [now eexists|]; split; [reflexivity|];
         intros c [= <-] H; now elim H).
  destruct (Val.assoc "results" data) as [[| | | | | |results]|] eqn:Hr;
    try (split; [now eexists|]; split; [reflexivity|];
         intros c [= <-] H; now elim H).
  destruct (Val.assoc "id" results) as [x|] eqn:Hid.
  - split; [now eexists|]. split; [reflexivity|].
    intros c [= <-] _. exists r, data, results. repeat split; assumption.
  - split; [now eexists|]. split; [reflexivity|]. intros c [= <-] H. now elim H.
Qed.

Lemma collection_lookup_contract_witness :
  result (_get_collection_id_from_guid account_env
            "ABCDEF01-2345-6789-ABCD-EF0123456789" (r2r_config_of default_valves))
  = Ret (PStr "c-1") /\
  exists r data results,
    collections_get account_env
      (rc_collections_api_url (r2r_config_of default_valves) ++ "/"
       ++ "ABCDEF01-2345-6789-ABCD-EF0123456789")
      (rc_default_owner_id (r2r_config_of default_valves))
      (rc_bearer_token (r2r_config_of default_valves)) = Ret r /\
    status_code r = 200 /\ json r = Some (PDict data) /\
    Val.assoc "results" data = Some (PDict results) /\
    Val.assoc "id" results = Some (PStr "c-1").
Proof.
  split; [reflexivity|].
  apply (proj2 (proj2 (collection_lookup_contract account_env
                         "ABCDEF01-2345-6789-ABCD-EF0123456789"
                         (r2r_config_of default_valves))));
    [reflexivity | discriminate].
Defined.

(** ** Runs of the two entry points *)

Lemma only_ret (P : event -> bool) {A} (a : A) : only P (ret a).
Proof. constructor. Qed.

Lemma only_raise (P : event -> bool) {A} (e : exn) : only P (@raise A e).
Proof. constructor. Qed.

Lemma only_lift (P : event -> bool) {A} (r : res A) : only P (lift r).
Proof. constructor. Qed.

Lemma only_emit (P : event -> bool) (ev : event) : P ev = true -> only P (emit ev).
Proof. intros H. repeat constructor. exact H. Qed.

Lemma only_bind (P : event -> bool) {A B} (m : M A) (f : A -> M B) :
  (forall a, regular (f a)) -> only P m -> (forall a, only P (f a)) ->
  only P (bind m f).
Proof.
  intros Hr Hm Hf. unfold only. rewrite (events_bind m f Hr).
  apply Forall_app. split; [exact Hm|].
  destruct (result m); [apply Hf | constructor].
Qed.

Lemma only_catch (P : event -> bool) {A} (m : M A) (h : exn -> M A) :
  (forall e, regular (h e)) -> only P m -> (forall e, only P (h e)) ->
  only P (catch m h).
Proof.
  intros Hr Hm Hh. unfold only. rewrite (events_catch m h Hr).
  apply Forall_app. split; [exact Hm|].
  destruct (result m); [constructor | apply Hh].
Qed.

Ltac only_step :=
  match goal with
  | |- only _ (bind _ _) => apply only_bind; [intros ?; regular_tac | | intros ?]
  | |- only _ (catch _ _) => apply only_catch; [intros ?; regular_tac | | intros ?]
  | |- only _ (ret _) => apply only_ret
  | |- only _ (raise _) => apply only_raise
  | |- only _ (lift _) => apply only_lift
  | |- only _ (emit _) => apply only_emit; reflexivity
  | |- only _ (if ?b then _ else _) => destruct b
  | |- only _ (match ?x with _ => _ end) => destruct x
  end.

Ltac only_tac := repeat only_step.

Lemma lookups_ldap_pipe (E : env) (email : string) (cfg : ldap_config) :
  only is_lookup (R2RPipe._ldap_lookup_user_guid E email cfg).
Proof. unfold R2RPipe._ldap_lookup_user_guid. only_tac. Qed.

Lemma lookups_ldap_tool (E : env) (email : pyval) (cfg : ldap_config) :
  only is_lookup (R2RTool._ldap_lookup_user_guid E email cfg).
Proof. unfold R2RTool._ldap_lookup_user_guid. only_tac. Qed.

Lemma lookups_collection (E : env) (g : string) (cfg : r2r_config) :
  only is_lookup (_get_collection_id_from_guid E g cfg).
Proof. unfold _get_collection_id_from_guid. only_tac. Qed.

Lemma lookups_resolve_pipe (v : Valves) (E : env) (u : option user) :
  only is_lookup (R2RPipe.resolve_permissions v E u).
Proof.
  unfold R2RPipe.resolve_permissions, R2RPipe._get_user_collection_id.
  only_tac; auto using lookups_ldap_pipe, lookups_collection.
Qed.

Lemma lookups_resolve_tool (v : Valves) (E : env) (u : R2RTool.user_arg) :
  only is_lookup (R2RTool.resolve_permissions v E u).
Proof.
  unfold R2RTool.resolve_permissions, R2RTool._do_ldap_lookup,
    R2RTool._get_collection_from_guid.
  only_tac; auto using lookups_ldap_tool, lookups_collection.
Qed.

(** What follows a successful search in the pipe: its result and its
    one possible call. *)
Lemma answer_run (v : Valves) (E : env) (ms : list message) (u : option user)
  (q : string) (ci : option string) (rd : pyval) :
  R2RPipe.answer_from_results v E ms u q ci rd [] =
  match chunks_of_response rd with
  | Raise e => (Raise e, [])
  | Ret chunks =>
      if negb (Val.truthy chunks) then (Ret (R2RPipe.msg_no_documents q), [])
      else
        match R2RPipe._build_context_from_results v q chunks ci with
        | Raise e => (Raise e, [])
        | Ret ctx =>
            match u with
            | None => (Raise TypeError, [])
            | Some usr =>
                match id usr with
                | None => (Raise KeyError, [])
                | Some _ =>
                    (generate_chat_completion E (LOCAL_MODEL v)
                       (R2RPipe.but_last ms) ctx,
                     [ChatCompletion (LOCAL_MODEL v) (R2RPipe.but_last ms) ctx])
                end
            end
        end
  end.
Proof.
  unfold R2RPipe.answer_from_results. cbv [bind lift ret raise emit].
  destruct (chunks_of_response rd) as [chunks|]; [|reflexivity].
  destruct (negb (Val.truthy chunks)); [reflexivity|].
  destruct (R2RPipe._build_context_from_results v q chunks ci); [|reflexivity].
  destruct u as [usr|]; [|reflexivity].
  destruct (id usr); reflexivity.
Qed.

(** The search stage of the pipe by the outcome of the request. *)
Lemma search_run (v : Valves) (E : env) (ms : list message) (u : option user)
  (q : string) (ci : option string) (c : pyval) :
  let url := Py.rstrip_chars "/" (api_url v) in
  let tok := Py.strip (bearer_token v) in
  let p := search_payload v q c in
  let to := Z.min (request_timeout v) 300 in
  let failed msg :=
    (Ret ("Error: R2R search failed: " ++ msg), [SearchPost url tok p to]) in
  R2RPipe.search_and_answer v E ms u q ci c [] =
  match search_post E url tok p to with
  | PostTimeout msg | PostConnectionError msg | PostRequestException msg =>
      failed msg
  | PostResponse r =>
      if (400 <=? status_code r) && (status_code r <? 600)
      then failed (http_error r)
      else
        match json r with
        | None => failed (json_error r)
        | Some rd =>
            (fst (R2RPipe.answer_from_results v E ms u q ci rd []),
             SearchPost url tok p to
             :: snd (R2RPipe.answer_from_results v E ms u q ci rd []))
        end
  end.
Proof.
  intros url tok p to failed.
  unfold R2RPipe.search_and_answer, R2RPipe._perform_r2r_search.
  fold url tok p to. cbv [bind catch lift ret raise emit]. cbn [app].
  destruct (search_post E url tok p to) as [msg|msg|msg|r]; try reflexivity.
  destruct ((400 <=? status_code r) && (status_code r <? 600)); [reflexivity|].
  destruct (json r) as [rd|]; [|reflexivity].
  rewrite (regular_answer v E ms u q ci rd [SearchPost url tok p to]).
  reflexivity.
Qed.

(** A request that passes the input checks of the pipe runs the
    permission stage and then, unless it is denied, the search stage; no
    exception leaves the pipe. *)
Lemma pipe_run (v : Valves) (E : env) (history : list message) (m : message)
  (u : option user) :
  role m = Some "user" ->
  3 <= Py.len (Py.strip (fst (R2RPipe._parse_user_input (user_query_of m)))) ->
  Py.truthy_str (Py.strip (bearer_token v)) = true ->
  let ms := (history ++ [m])%list in
  let q := fst (R2RPipe._parse_user_input (user_query_of m)) in
  let ci := snd (R2RPipe._parse_user_input (user_query_of m)) in
  let perm := R2RPipe.resolve_permissions v E u in
  R2RPipe.pipe v E ms u [] =
  match result perm with
  | Raise e => (Ret (R2RPipe.msg_system_error E e), events perm)
  | Ret (inl denial) => (Ret denial, events perm)
  | Ret (inr c) =>
      (match result (R2RPipe.search_and_answer v E ms u q ci c) with
       | Ret answer => Ret answer
       | Raise e => Ret (R2RPipe.msg_system_error E e)
       end,
       (events perm ++ events (R2RPipe.search_and_answer v E ms u q ci c))%list)
  end.
Proof.
  intros Hrole Hlen Htok ms q ci perm.
  unfold ms. rewrite (pipe_reaches v E history m u Hrole Hlen Htok).
  fold ms q ci perm. unfold result, events. cbv [catch bind ret].
  destruct (perm []) as [[[denial|c]|e] t]; cbn [fst snd]; try reflexivity.
  rewrite (regular_search_and_answer v E ms u q ci c t).
  destruct (fst (R2RPipe.search_and_answer v E ms u q ci c [])); reflexivity.
Qed.

Lemma tool_run (v : Valves) (E : env) (query : string) (u : R2RTool.user_arg) :
  3 <= Py.len (Py.strip (fst (R2RTool._parse_user_input E query))) ->
  Py.truthy_str (Py.strip (bearer_token v)) = true ->
  let q := fst (R2RTool._parse_user_input E query) in
  let ci := snd (R2RTool._parse_user_input E query) in
  let perm := R2RTool.resolve_permissions v E u in
  R2RTool.r2r_search_context v E query u [] =
  match result perm with
  | Raise e => (Ret (R2RTool.Message (R2RTool.msg_tool_failed E e)), events perm)
  | Ret c =>
      (match result (R2RTool.search_and_build v E query q ci c) with
       | Ret answer => Ret answer
       | Raise e => Ret (R2RTool.Message (R2RTool.msg_tool_failed E e))
       end,
       (events perm ++ events (R2RTool.search_and_build v E query q ci c))%list)
  end.
Proof.
  intros Hlen Htok q ci perm.
  rewrite (tool_reaches v E query u Hlen Htok).
  fold q ci perm. unfold result, events. cbv [catch bind ret].
  destruct (perm []) as [[c|e] t]; cbn [fst snd]; try reflexivity.
  rewrite (regular_search_and_build v E query q ci c t).
  destruct (fst (R2RTool.search_and_build v E query q ci c [])); reflexivity.
Qed.

(** The search stage of the pipe sends its request and then at most the
    one call of the model. *)
Lemma search_and_answer_shape (v : Valves) (E : env) (ms : list message)
  (u : option user) (q : string) (ci : option string) (c : pyval) :
  let post := SearchPost (Py.rstrip_chars "/" (api_url v))
                (Py.strip (bearer_token v)) (search_payload v q c)
                (Z.min (request_timeout v) 300) in
  events (R2RPipe.search_and_answer v E ms u q ci c) = [post] \/
  exists ctx,
    events (R2RPipe.search_and_answer v E ms u q ci c) =
    [post; ChatCompletion (LOCAL_MODEL v) (R2RPipe.but_last ms) ctx].
Proof.
  intros post. unfold events. rewrite search_run. fold post.
  destruct (search_post E _ _ _ _) as [msg|msg|msg|r]; try (left; reflexivity).
  destruct ((400 <=? status_code r) && (status_code r <? 600));
    [left; reflexivity|].
  destruct (json r) as [rd|]; [|left; reflexivity].
  rewrite answer_run. cbn [snd].
  destruct (chunks_of_response rd) as [chunks|]; [|left; reflexivity].
  destruct (negb (Val.truthy chunks)); [left; reflexivity|].
  destruct (R2RPipe._build_context_from_results v q chunks ci) as [ctx|];
    [|left; reflexivity].
  destruct u as [usr|]; [|left; reflexivity].
  destruct (id usr); [|left; reflexivity].
  right. exists ctx. reflexivity.
Qed.

(** X9. [Pipe.pipe] always returns a message, whatever its collaborators
    do: no exception leaves it.  Its calls are, in this order, lookups
    (directory and collection requests), then at most one search request,
    then at most one call of the model, which is made only after a search
    request. *)
Theorem pipe_returns_and_orders_calls (v : Valves) (E : env)
  (ms : list message) (u : option user) :
  (exists answer, result (R2RPipe.pipe v E ms u) = Ret answer) /\
  exists lookups rest,
    events (R2RPipe.pipe v E ms u) = (lookups ++ rest)%list /\
    Forall (fun ev => is_lookup ev = true) lookups /\
    (rest = [] \/
     (exists url tok p timeout, rest = [SearchPost url tok p timeout]) \/
     (exists url tok p timeout model history ctx,
         rest = [SearchPost url tok p timeout;
                 ChatCompletion model history ctx])).
Proof.
  unfold result, events.
  destruct (pipe_cases v E ms u)
    as [[msg Hm]|(history & m & ci & -> & Hrole & Hlen & Htok & _)].
  - rewrite Hm. split; [now exists msg|].
    exists [], []. repeat split; auto.
  - rewrite (pipe_run v E history m u Hrole Hlen Htok).
    pose proof (lookups_resolve_pipe v E u) as Hl. unfold only in Hl.
    destruct (result (R2RPipe.resolve_permissions v E u)) as [[denial|c]|e].
    + split; [now eexists|]. eexists _, []. rewrite app_nil_r. auto.
    + split; [destruct (result _); now eexists|].
      eexists _, _. split; [reflexivity|]. split; [exact Hl|]. right.
      destruct (search_and_answer_shape v E (history ++ [m]) u
                  (fst (R2RPipe._parse_user_input (user_query_of m)))
                  (snd (R2RPipe._parse_user_input (user_query_of m))) c)
        as [H|[ctx H]]; cbv zeta in H; rewrite H.
      * left. now eexists _, _, _, _.
      * right. now eexists _, _, _, _, _, _, _.
    + split; [now eexists|]. eexists _, []. rewrite app_nil_r. auto.
Qed.

(** X10. [Tools.r2r_search_context] always returns a reply, whatever its
    collaborators do.  Its calls are lookups followed by at most one
    search request; it never calls a model. *)
Theorem tool_returns_and_orders_calls (v : Valves) (E : env)
  (query : string) (u : R2RTool.user_arg) :
  (exists answer, result (R2RTool.r2r_search_context v E query u) = Ret answer) /\
  exists lookups rest,
    events (R2RTool.r2r_search_context v E query u) = (lookups ++ rest)%list /\
    Forall (fun ev => is_lookup ev = true) lookups /\
    (rest = [] \/ exists url tok p timeout, rest = [SearchPost url tok p timeout]).
Proof.
  unfold result, events.
  destruct (tool_cases v E query u) as [[msg Hm]|(ci & Hlen & Htok & _)].
  - rewrite Hm. split; [now exists msg|].
    exists [], []. repeat split; auto.
  - rewrite (tool_run v E query u Hlen Htok).
    pose proof (lookups_resolve_tool v E u) as Hl. unfold only in Hl.
    destruct (result (R2RTool.resolve_permissions v E u)) as [c|e].
    + split; [destruct (result _); now eexists|].
      eexists _, _. split; [reflexivity|]. split; [exact Hl|]. right.
      rewrite events_search_and_build. now eexists _, _, _, _.
    + split; [now eexists|]. eexists _, []. rewrite app_nil_r. auto.
Qed.

Lemma blank_not_truthy (s : string) : s = "" -> Py.truthy_str s = false.
Proof. now intros ->. Qed.

(** X11. Without a bearer token (empty or blank) neither entry point
    makes any call, and a request that passes the input checks is
    answered with the missing-token message. *)
Theorem missing_token_stops_request (v : Valves) (E : env)
  (Htoken : Py.strip (bearer_token v) = "") :
  (forall ms u, events (R2RPipe.pipe v E ms u) = []) /\
  (forall query u, events (R2RTool.r2r_search_context v E query u) = []) /\
  (forall history m u,
      role m = Some "user" ->
      3 <= Py.len (Py.strip (fst (R2RPipe._parse_user_input (user_query_of m)))) ->
      result (R2RPipe.pipe v E (history ++ [m]) u) = Ret R2RPipe.msg_missing_token) /\
  (forall query u,
      3 <= Py.len (Py.strip (fst (R2RTool._parse_user_input E query))) ->
      result (R2RTool.r2r_search_context v E query u)
      = Ret (R2RTool.Message R2RTool.msg_missing_token)).
Proof.
  pose proof (blank_not_truthy _ Htoken) as Hf.
  split; [|split; [|split]].
  - intros ms u. unfold events.
    destruct (pipe_cases v E ms u) as [[msg Hm]|(? & ? & ? & _ & _ & _ & Ht & _)].
    + now rewrite Hm.
    + rewrite Hf in Ht. discriminate Ht.
  - intros query u. unfold events.
    destruct (tool_cases v E query u) as [[msg Hm]|(? & _ & Ht & _)].
    + now rewrite Hm.
    + rewrite Hf in Ht. discriminate Ht.
  - intros history m u Hrole Hlen. unfold result, R2RPipe.pipe.
    rewrite rev_app_distr. cbn [rev app]. fold (user_query_of m).
    rewrite Hrole. change (String.eqb "user" "user") with true. cbn [negb].
    assert (Hq : Py.truthy_str (user_query_of m) = true).
    { destruct (user_query_of m); [|reflexivity].
      exfalso. change (3 <= 0) in Hlen. lia. }
    rewrite Hq. cbn [negb].
    destruct (R2RPipe._parse_user_input (user_query_of m)) as [sq ci].
    cbn [fst snd] in *. rewrite (len_strip_truthy sq Hlen). cbn [negb orb].
    replace (Py.len (Py.strip sq) <? 3) with false
      by (symmetry; apply Z.ltb_ge; lia).
    rewrite Hf. reflexivity.
  - intros query u Hlen. unfold result, R2RTool.r2r_search_context.
    assert (Hq : Py.truthy_str query = true).
    { destruct query; [|reflexivity].
      exfalso. change (3 <= 0) in Hlen. lia. }
    rewrite Hq. cbn [negb].
    destruct (R2RTool._parse_user_input E query) as [sq ci].
    cbn [fst snd] in *. rewrite (len_strip_truthy sq Hlen). cbn [negb orb].
    replace (Py.len (Py.strip sq) <? 3) with false
      by (symmetry; apply Z.ltb_ge; lia).
    rewrite Hf. reflexivity.
Qed.

Lemma missing_token_stops_request_witness :
  Py.strip (bearer_token (with_token "   " default_valves)) = "" /\
  events (R2RPipe.pipe (with_token "   " default_valves) account_env
            [user_message "cats"] (Some ann)) = [] /\
  result (R2RPipe.pipe (with_token "   " default_valves) account_env
            [user_message "cats"] (Some ann)) = Ret R2RPipe.msg_missing_token /\
  result (R2RTool.r2r_search_context (with_token "   " default_valves)
            account_env "cats" ann_json)
  = Ret (R2RTool.Message R2RTool.msg_missing_token).
Proof.
  destruct (missing_token_stops_request (with_token "   " default_valves)
              account_env eq_refl) as (Hp & _ & Hr & Ht).
  split; [reflexivity|]. split; [apply Hp|]. split.
  - apply (Hr [] (user_message "cats") (Some ann));
      [reflexivity | apply Z.leb_le; reflexivity].
  - apply (Ht "cats" ann_json). apply Z.leb_le; reflexivity.
Defined.

Lemma unidentified_denied (v : Valves) (E : env) (u : option user) :
  enforce_permissions v = true -> identified u = false ->
  R2RPipe.resolve_permissions v E u [] = (Ret (inl R2RPipe.msg_denied_no_user), []).
Proof.
  intros Hen Hid. unfold R2RPipe.resolve_permissions. rewrite Hen.
  destruct u as [usr|]; [|reflexivity]. cbn in Hid.
  destruct (email usr) as [e|]; [|reflexivity].
  rewrite Hid. cbn [negb]. rewrite orb_true_r. reflexivity.
Qed.

(** X12. With permission enforcement on, a request to the pipe whose
    user cannot be identified (no user, no address, or an address
    without [@]) is denied with the unable-to-identify message before
    any call is made; that message is neither the no-collection denial
    nor the permission-check failure. *)
Theorem pipe_denies_unidentified_user (v : Valves) (E : env)
  (history : list message) (m : message) (u : option user)
  (Henforce : enforce_permissions v = true)
  (Hunknown : identified u = false)
  (Hrole : role m = Some "user")
  (Hlen : 3 <= Py.len (Py.strip (fst (R2RPipe._parse_user_input (user_query_of m)))))
  (Htoken : Py.truthy_str (Py.strip (bearer_token v)) = true) :
  result (R2RPipe.pipe v E (history ++ [m]) u) = Ret R2RPipe.msg_denied_no_user /\
  events (R2RPipe.pipe v E (history ++ [m]) u) = [] /\
  (forall e, R2RPipe.msg_denied_no_user <> R2RPipe.msg_denied_no_collection e) /\
  R2RPipe.msg_denied_no_user <> R2RPipe.msg_permission_check_failed.
Proof.
  unfold result, events.
  rewrite (pipe_run v E history m u Hrole Hlen Htoken). cbv zeta.
  unfold result, events. rewrite (unidentified_denied v E u Henforce Hunknown).
  cbn [fst snd]. repeat split; discriminate.
Qed.

Lemma pipe_denies_unidentified_user_witness :
  enforce_permissions default_valves = true /\
  identified (Some {| email := Some "ann"; id := Some "u1" |}) = false /\
  result (R2RPipe.pipe default_valves account_env [user_message "cats"]
            (Some {| email := Some "ann"; id := Some "u1" |}))
  = Ret R2RPipe.msg_denied_no_user /\
  events (R2RPipe.pipe default_valves account_env [user_message "cats"]
            (Some {| email := Some "ann"; id := Some "u1" |})) = [].
Proof.
  split; [reflexivity|]. split; [reflexivity|].
  destruct (pipe_denies_unidentified_user default_valves account_env []
              (user_message "cats") (Some {| email := Some "ann"; id := Some "u1" |})
              eq_refl eq_refl eq_refl) as (Hr & He & _);
    [apply Z.leb_le; reflexivity | reflexivity | ].
  split; [exact Hr | exact He].
Defined.

Lemma identified_email (u : option user) :
  identified u = true ->
  exists usr e, u = Some usr /\ email usr = Some e /\
                Py.contains "@" e = true /\ Py.truthy_str e = true.
Proof.
  destruct u as [usr|]; [|discriminate]. cbn.
  destruct (email usr) as [e|] eqn:He; [|discriminate].
  intros H. exists usr, e. repeat split; auto.
  exact (contains_truthy "@" e eq_refl H).
Qed.

(** X13. When the [ldap3] library is missing and enforcement is on, the
    pipe answers an identified user with the permission-check-failed
    message and makes no call at all: the [ImportError] of the lookup
    is turned into that message, not into a search without filter. *)
Theorem pipe_without_ldap_library (v : Valves) (E : env)
  (history : list message) (m : message) (u : option user)
  (Hmissing : LDAP_AVAILABLE E = false)
  (Henforce : enforce_permissions v = true)
  (Hknown : identified u = true)
  (Hrole : role m = Some "user")
  (Hlen : 3 <= Py.len (Py.strip (fst (R2RPipe._parse_user_input (user_query_of m)))))
  (Htoken : Py.truthy_str (Py.strip (bearer_token v)) = true) :
  result (R2RPipe.pipe v E (history ++ [m]) u)
  = Ret R2RPipe.msg_permission_check_failed /\
  events (R2RPipe.pipe v E (history ++ [m]) u) = [].
Proof.
  destruct (identified_email u Hknown) as (usr & e & -> & He & Hat & Htr).
  assert (Hperm : R2RPipe.resolve_permissions v E (Some usr) []
                  = (Ret (inl R2RPipe.msg_permission_check_failed), [])).
  { unfold R2RPipe.resolve_permissions. rewrite Henforce, He, Hat, Htr.
    cbn [negb orb]. unfold R2RPipe._get_user_collection_id.
    rewrite Henforce. cbn [negb].
    unfold R2RPipe._ldap_lookup_user_guid. rewrite Hmissing. reflexivity. }
  unfold result, events.
  rewrite (pipe_run v E history m (Some usr) Hrole Hlen Htoken). cbv zeta.
  unfold result, events. rewrite Hperm. split; reflexivity.
Qed.

Lemma pipe_without_ldap_library_witness :
  LDAP_AVAILABLE (without_ldap account_env) = false /\
  enforce_permissions default_valves = true /\
  identified (Some ann) = true /\
  result (R2RPipe.pipe default_valves (without_ldap account_env)
            [user_message "cats"] (Some ann))
  = Ret R2RPipe.msg_permission_check_failed /\
  events (R2RPipe.pipe default_valves (without_ldap account_env)
            [user_message "cats"] (Some ann)) = [].
Proof.
  split; [reflexivity|]. split; [reflexivity|]. split; [reflexivity|].
  apply (pipe_without_ldap_library default_valves (without_ldap account_env) []
           (user_message "cats") (Some ann));
    [reflexivity | reflexivity | reflexivity | reflexivity
    | apply Z.leb_le; reflexivity | reflexivity].
Defined.

(** ** The requests of a run *)

Lemma lookup_not_search (l : list event) (url tok : string) (p : pyval)
  (timeout : Z) :
  Forall (fun ev => is_lookup ev = true) l ->
  ~ In (SearchPost url tok p timeout) l.
Proof.
  intros Hl Hin. rewrite Forall_forall in Hl. apply Hl in Hin. discriminate Hin.
Qed.

Lemma lookup_not_chat (l : list event) (model : string)
  (history : list message) (ctx : context) :
  Forall (fun ev => is_lookup ev = true) l ->
  ~ In (ChatCompletion model history ctx) l.
Proof.
  intros Hl Hin. rewrite Forall_forall in Hl. apply Hl in Hin. discriminate Hin.
Qed.

(** A search request in a run of the pipe is the one of the search
    stage, entered with the collection of the permission stage. *)
Lemma pipe_search_events (v : Valves) (E : env) (ms : list message)
  (u : option user) (url tok : string) (p : pyval) (timeout : Z) :
  In (SearchPost url tok p timeout) (events (R2RPipe.pipe v E ms u)) ->
  exists history m c,
    ms = (history ++ [m])%list /\
    result (R2RPipe.resolve_permissions v E u) = Ret (inr c) /\
    url = Py.rstrip_chars "/" (api_url v) /\
    tok = Py.strip (bearer_token v) /\
    p = search_payload v (fst (R2RPipe._parse_user_input (user_query_of m))) c /\
    timeout = Z.min (request_timeout v) 300.
Proof.
  unfold events at 1.
  destruct (pipe_cases v E ms u)
    as [[msg Hm]|(history & m & ci & -> & Hrole & Hlen & Htok & _)].
  - rewrite Hm. intros [].
  - rewrite (pipe_run v E history m u Hrole Hlen Htok). cbv zeta.
    pose proof (lookups_resolve_pipe v E u) as Hl. unfold only in Hl.
    destruct (result (R2RPipe.resolve_permissions v E u)) as [[denial|c]|e];
      cbn [snd]; intros Hin;
      try (exfalso; exact (lookup_not_search _ _ _ _ _ Hl Hin)).
    apply in_app_or in Hin as [Hin|Hin];
      [exfalso; exact (lookup_not_search _ _ _ _ _ Hl Hin)|].
    exists history, m, c. split; [reflexivity|]. split; [reflexivity|].
    destruct (search_and_answer_shape v E (history ++ [m]) u
                (fst (R2RPipe._parse_user_input (user_query_of m)))
                (snd (R2RPipe._parse_user_input (user_query_of m))) c)
      as [H|[ctx H]]; cbv zeta in H; rewrite H in Hin.
    + destruct Hin as [Hin|[]]. injection Hin as <- <- <- <-. auto.
    + destruct Hin as [Hin|[Hin|[]]]; [|discriminate Hin].
      injection Hin as <- <- <- <-. auto.
Qed.

Lemma tool_search_events (v : Valves) (E : env) (query : string)
  (u : R2RTool.user_arg) (url tok : string) (p : pyval) (timeout : Z) :
  In (SearchPost url tok p timeout)
    (events (R2RTool.r2r_search_context v E query u)) ->
  exists c,
    result (R2RTool.resolve_permissions v E u) = Ret c /\
    url = Py.rstrip_chars "/" (api_url v) /\
    tok = Py.strip (bearer_token v) /\
    p = search_payload v (fst (R2RTool._parse_user_input E query)) c /\
    timeout = Z.min (request_timeout v) 25.
Proof.
  unfold events at 1.
  destruct (tool_cases v E query u) as [[msg Hm]|(ci & Hlen & Htok & _)].
  - rewrite Hm. intros [].
  - rewrite (tool_run v E query u Hlen Htok). cbv zeta.
    pose proof (lookups_resolve_tool v E u) as Hl. unfold only in Hl.
    destruct (result (R2RTool.resolve_permissions v E u)) as [c|e];
      cbn [snd]; intros Hin;
      try (exfalso; exact (lookup_not_search _ _ _ _ _ Hl Hin)).
    apply in_app_or in Hin as [Hin|Hin];
      [exfalso; exact (lookup_not_search _ _ _ _ _ Hl Hin)|].
    exists c. split; [reflexivity|].
    rewrite events_search_and_build in Hin.
    destruct Hin as [Hin|[]]. injection Hin as <- <- <- <-. auto.
Qed.

Lemma payload_limit_value (v : Valves) (q : string) (c : pyval) :
  payload_limit (search_payload v q c) = Some (PInt (Z.min (search_limit v) 100)).
Proof. unfold search_payload. destruct (Val.truthy c); reflexivity. Qed.

Lemma payload_query_value (v : Valves) (q : string) (c : pyval) :
  payload_query (search_payload v q c) = Some (PStr q).
Proof. reflexivity. Qed.

(** X14. Every search request of either entry point goes to the
    configured URL without trailing slashes, carries the trimmed token,
    asks for the parsed search text, for [min(search_limit, 100)]
    results, so never for more than 100, and waits at most
    [min(request_timeout, 300)] seconds in the pipe and
    [min(request_timeout, 25)] in the tool. *)
Theorem search_request_bounds (v : Valves) (E : env) :
  (forall ms u url tok p timeout,
      In (SearchPost url tok p timeout) (events (R2RPipe.pipe v E ms u)) ->
      url = Py.rstrip_chars "/" (api_url v) /\
      tok = Py.strip (bearer_token v) /\
      timeout = Z.min (request_timeout v) 300 /\ timeout <= 300 /\
      (exists n, payload_limit p = Some (PInt n) /\
                 n = Z.min (search_limit v) 100 /\ n <= 100) /\
      exists history m,
        ms = (history ++ [m])%list /\
        payload_query p
        = Some (PStr (fst (R2RPipe._parse_user_input (user_query_of m))))) /\
  (forall query u url tok p timeout,
      In (SearchPost url tok p timeout)
        (events (R2RTool.r2r_search_context v E query u)) ->
      url = Py.rstrip_chars "/" (api_url v) /\
      tok = Py.strip (bearer_token v) /\
      timeout = Z.min (request_timeout v) 25 /\ timeout <= 25 /\
      (exists n, payload_limit p = Some (PInt n) /\
                 n = Z.min (search_limit v) 100 /\ n <= 100) /\
      payload_query p = Some (PStr (fst (R2RTool._parse_user_input E query)))).
Proof.
  split.
  - intros ms u url tok p timeout Hin.
    destruct (pipe_search_events v E ms u url tok p timeout Hin)
      as (history & m & c & -> & _ & -> & -> & -> & ->).
    split; [reflexivity|]. split; [reflexivity|]. split; [reflexivity|].
    split; [lia|]. split.
    + eexists. split; [apply payload_limit_value|]. split; [reflexivity | lia].
    + exists history, m. split; reflexivity.
  - intros query u url tok p timeout Hin.
    destruct (tool_search_events v E query u url tok p timeout Hin)
      as (c & _ & -> & -> & -> & ->).
    split; [reflexivity|]. split; [reflexivity|]. split; [reflexivity|].
    split; [lia|]. split.
    + eexists. split; [apply payload_limit_value|]. split; [reflexivity | lia].
    + reflexivity.
Qed.

Lemma search_request_bounds_witness :
  In (SearchPost "http://your-r2r-server:7272/v3/retrieval/search" "token"
        (search_payload default_valves "cats" (PStr "c-1")) 30)
    (events (R2RPipe.pipe default_valves account_env [user_message "cats"]
               (Some ann))) /\
  In (SearchPost "http://your-r2r-server:7272/v3/retrieval/search" "token"
        (search_payload default_valves "cats" (PStr "c-1")) 25)
    (events (R2RTool.r2r_search_context default_valves account_env "cats"
               ann_json)) /\
  30 <= 300 /\ 25 <= 25 /\
  payload_limit (search_payload default_valves "cats" (PStr "c-1"))
  = Some (PInt 10).
Proof.
  assert (Hp : In (SearchPost "http://your-r2r-server:7272/v3/retrieval/search"
                     "token" (search_payload default_valves "cats" (PStr "c-1")) 30)
                 (events (R2RPipe.pipe default_valves account_env
                            [user_message "cats"] (Some ann))))
    by (do 4 right; left; reflexivity).
  assert (Ht : In (SearchPost "http://your-r2r-server:7272/v3/retrieval/search"
                     "token" (search_payload default_valves "cats" (PStr "c-1")) 25)
                 (events (R2RTool.r2r_search_context default_valves account_env
                            "cats" ann_json)))
    by (do 4 right; left; reflexivity).
  destruct (search_request_bounds default_valves account_env) as [Bp Bt].
  destruct (Bp _ _ _ _ _ _ Hp) as (_ & _ & _ & Hp300 & (n & Hn & -> & _) & _).
  destruct (Bt _ _ _ _ _ _ Ht) as (_ & _ & _ & Ht25 & _).
  split; [exact Hp|]. split; [exact Ht|]. split; [exact Hp300|].
  split; [exact Ht25|]. exact Hn.
Defined.

(** X15. With permission enforcement off, neither entry point contacts
    the directory or the collections service, and every search request
    it sends is without a collection filter. *)
Theorem no_enforcement_no_lookup (v : Valves) (E : env)
  (Hoff : enforce_permissions v = false) :
  (forall ms u ev,
      In ev (events (R2RPipe.pipe v E ms u)) ->
      is_lookup ev = false /\
      forall url tok p timeout,
        ev = SearchPost url tok p timeout -> payload_filters p = None) /\
  (forall query u ev,
      In ev (events (R2RTool.r2r_search_context v E query u)) ->
      is_lookup ev = false /\
      forall url tok p timeout,
        ev = SearchPost url tok p timeout -> payload_filters p = None).
Proof.
  assert (Hp : forall u, R2RPipe.resolve_permissions v E u []
                         = (Ret (inr PNone), []))
    by (intros u; unfold R2RPipe.resolve_permissions; now rewrite Hoff).
  assert (Ht : forall u, R2RTool.resolve_permissions v E u [] = (Ret PNone, []))
    by (intros u; unfold R2RTool.resolve_permissions; now rewrite Hoff).
  assert (Hpr : forall u, result (R2RPipe.resolve_permissions v E u)
                          = Ret (inr PNone))
    by (intros u; unfold result; now rewrite Hp).
  assert (Hpe : forall u, events (R2RPipe.resolve_permissions v E u) = [])
    by (intros u; unfold events; now rewrite Hp).
  assert (Htr : forall u, result (R2RTool.resolve_permissions v E u) = Ret PNone)
    by (intros u; unfold result; now rewrite Ht).
  assert (Hte : forall u, events (R2RTool.resolve_permissions v E u) = [])
    by (intros u; unfold events; now rewrite Ht).
  split.
  - intros ms u ev Hin. split.
    + revert Hin. unfold events.
      destruct (pipe_cases v E ms u)
        as [[msg Hm]|(history & m & ci & -> & Hrole & Hlen & Htok & _)].
      * rewrite Hm. intros [].
      * rewrite (pipe_run v E history m u Hrole Hlen Htok). cbv zeta.
        rewrite (Hpr u), (Hpe u). cbn [fst snd app].
        destruct (search_and_answer_shape v E (history ++ [m]) u
                    (fst (R2RPipe._parse_user_input (user_query_of m)))
                    (snd (R2RPipe._parse_user_input (user_query_of m))) PNone)
          as [H|[ctx H]]; cbv zeta in H; rewrite H.
        -- intros [<-|[]]. reflexivity.
        -- intros [<-|[<-|[]]]; reflexivity.
    + intros url tok p timeout ->.
      destruct (pipe_search_events v E ms u url tok p timeout Hin)
        as (history & m & c & _ & Hc & _ & _ & -> & _).
      rewrite (Hpr u) in Hc. injection Hc as <-.
      reflexivity.
  - intros query u ev Hin. split.
    + revert Hin. unfold events.
      destruct (tool_cases v E query u) as [[msg Hm]|(ci & Hlen & Htok & _)].
      * rewrite Hm. intros [].
      * rewrite (tool_run v E query u Hlen Htok). cbv zeta.
        rewrite (Htr u), (Hte u). cbn [fst snd app].
        rewrite events_search_and_build. intros [<-|[]]. reflexivity.
    + intros url tok p timeout ->.
      destruct (tool_search_events v E query u url tok p timeout Hin)
        as (c & Hc & _ & _ & -> & _).
      rewrite (Htr u) in Hc. injection Hc as <-.
      reflexivity.
Qed.

Lemma no_enforcement_no_lookup_witness :
  enforce_permissions (with_enforcement false default_valves) = false /\
  (forall ev,
      In ev (events (R2RPipe.pipe (with_enforcement false default_valves)
                       account_env [user_message "cats"] (Some ann))) ->
      is_lookup ev = false) /\
  existsb is_search
    (events (R2RPipe.pipe (with_enforcement false default_valves)
               account_env [user_message "cats"] (Some ann))) = true /\
  (forall ev,
      In ev (events (R2RTool.r2r_search_context
                       (with_enforcement false default_valves)
                       account_env "cats" ann_json)) ->
      is_lookup ev = false).
Proof.
  destruct (no_enforcement_no_lookup (with_enforcement false default_valves)
              account_env eq_refl) as [Hp Ht].
  split; [reflexivity|]. split; [|split; [reflexivity|]].
  - intros ev Hin. exact (proj1 (Hp _ _ ev Hin)).
  - intros ev Hin. exact (proj1 (Ht _ _ ev Hin)).
Defined.

(** ** Outcomes of the search stage *)

Lemma perform_events (v : Valves) (E : env) (q : string) (c : pyval) :
  events (R2RPipe._perform_r2r_search v E q c) =
  [SearchPost (Py.rstrip_chars "/" (api_url v)) (Py.strip (bearer_token v))
     (search_payload v q c) (Z.min (request_timeout v) 300)].
Proof.
  unfold events, R2RPipe._perform_r2r_search. cbv [bind emit raise ret].
  cbn [app].
  destruct (search_post E _ _ _ _) as [msg|msg|msg|r]; try reflexivity.
  destruct ((400 <=? status_code r) && (status_code r <? 600)); [reflexivity|].
  destruct (json r); reflexivity.
Qed.

Lemma perform_raises (v : Valves) (E : env) (q : string) (c : pyval) (e : exn) :
  result (R2RPipe._perform_r2r_search v E q c) = Raise e ->
  exists reason, e = Exception ("R2R search failed: " ++ reason).
Proof.
  unfold result, R2RPipe._perform_r2r_search. cbv [bind emit raise ret].
  destruct (search_post E _ _ _ _) as [msg|msg|msg|r]; cbn [fst];
    try (intros [= <-]; now eexists).
  destruct ((400 <=? status_code r) && (status_code r <? 600)); cbn [fst];
    [intros [= <-]; now eexists|].
  destruct (json r); cbn [fst]; [discriminate | intros [= <-]; now eexists].
Qed.

(** The search stage of the pipe by the result of [_perform_r2r_search]. *)
Lemma search_stage (v : Valves) (E : env) (ms : list message) (u : option user)
  (q : string) (ci : option string) (c : pyval) :
  R2RPipe.search_and_answer v E ms u q ci c [] =
  match result (R2RPipe._perform_r2r_search v E q c) with
  | Raise e =>
      (Ret (R2RPipe.msg_search_error E e),
       events (R2RPipe._perform_r2r_search v E q c))
  | Ret rd =>
      (fst (R2RPipe.answer_from_results v E ms u q ci rd []),
       (events (R2RPipe._perform_r2r_search v E q c)
        ++ snd (R2RPipe.answer_from_results v E ms u q ci rd []))%list)
  end.
Proof.
  unfold R2RPipe.search_and_answer, result, events. cbv [bind catch ret].
  destruct (R2RPipe._perform_r2r_search v E q c []) as [[rd|e] t];
    cbn [fst snd]; [|reflexivity].
  now rewrite (regular_answer v E ms u q ci rd t).
Qed.

(** X16. When the search request of the pipe fails (a timeout, a
    connection or request error, a 4xx or 5xx status, or a body that is
    not JSON), [_perform_r2r_search] raises an exception whose text
    starts with [R2R search failed: ], and the pipe returns that text
    after [Error: ]; it is not reported as a system error, and the model
    is not called. *)
Theorem pipe_reports_search_failure (v : Valves) (E : env)
  (history : list message) (m : message) (u : option user) (c : pyval) (e : exn)
  (Hrole : role m = Some "user")
  (Hlen : 3 <= Py.len (Py.strip (fst (R2RPipe._parse_user_input (user_query_of m)))))
  (Htoken : Py.truthy_str (Py.strip (bearer_token v)) = true)
  (Hperm : result (R2RPipe.resolve_permissions v E u) = Ret (inr c))
  (Hfail : result (R2RPipe._perform_r2r_search v E
                     (fst (R2RPipe._parse_user_input (user_query_of m))) c)
           = Raise e) :
  exists reason,
    e = Exception ("R2R search failed: " ++ reason) /\
    result (R2RPipe.pipe v E (history ++ [m]) u)
    = Ret ("Error: R2R search failed: " ++ reason) /\
    Forall (fun ev => is_chat ev = false)
      (events (R2RPipe.pipe v E (history ++ [m]) u)).
Proof.
  destruct (perform_raises v E _ c e Hfail) as [reason ->].
  exists reason. split; [reflexivity|].
  assert (Hstage : R2RPipe.search_and_answer v E (history ++ [m]) u
                     (fst (R2RPipe._parse_user_input (user_query_of m)))
                     (snd (R2RPipe._parse_user_input (user_query_of m))) c []
                   = (Ret ("Error: R2R search failed: " ++ reason),
                      [SearchPost (Py.rstrip_chars "/" (api_url v))
                         (Py.strip (bearer_token v))
                         (search_payload v
                            (fst (R2RPipe._parse_user_input (user_query_of m))) c)
                         (Z.min (request_timeout v) 300)]))
    by (rewrite search_stage, Hfail, perform_events; reflexivity).
  assert (Hrun : R2RPipe.pipe v E (history ++ [m]) u []
                 = (Ret ("Error: R2R search failed: " ++ reason),
                    (events (R2RPipe.resolve_permissions v E u)
                     ++ [SearchPost (Py.rstrip_chars "/" (api_url v))
                           (Py.strip (bearer_token v))
                           (search_payload v
                              (fst (R2RPipe._parse_user_input (user_query_of m))) c)
                           (Z.min (request_timeout v) 300)])%list)).
  { rewrite (pipe_run v E history m u Hrole Hlen Htoken). cbv zeta.
    rewrite Hperm. unfold result at 1. unfold events at 2.
    rewrite Hstage. reflexivity. }
  unfold result at 1, events at 1. rewrite Hrun. cbn [fst snd].
  split; [reflexivity|].
  apply Forall_app. split.
  - pose proof (lookups_resolve_pipe v E u) as Hl. unfold only in Hl.
    eapply Forall_impl; [|exact Hl].
    intros ev H. destruct ev; solve [reflexivity | discriminate H].
  - constructor; [reflexivity | constructor].
Qed.

Lemma pipe_reports_search_failure_witness :
  result (R2RPipe.resolve_permissions default_valves
            (with_search (PostTimeout "read timed out") account_env) (Some ann))
  = Ret (inr (PStr "c-1")) /\
  result (R2RPipe._perform_r2r_search default_valves
            (with_search (PostTimeout "read timed out") account_env)
            "cats" (PStr "c-1"))
  = Raise (Exception "R2R search failed: read timed out") /\
  exists reason,
    result (R2RPipe.pipe default_valves
              (with_search (PostTimeout "read timed out") account_env)
              [user_message "cats"] (Some ann))
    = Ret ("Error: R2R search failed: " ++ reason).
Proof.
  split; [reflexivity|]. split; [reflexivity|].
  destruct (pipe_reports_search_failure default_valves
              (with_search (PostTimeout "read timed out") account_env)
              [] (user_message "cats") (Some ann) (PStr "c-1")
              (Exception "R2R search failed: read timed out") eq_refl)
    as (reason & _ & Hr & _);
    [apply Z.leb_le; reflexivity | reflexivity | reflexivity | reflexivity |].
  exists reason. exact Hr.
Defined.

Lemma check_response_ok (E : env) (r : response) (rd : pyval) :
  R2RTool.check_response E r = inr rd ->
  status_code r < 400 /\ json r = Some rd.
Proof.
  unfold R2RTool.check_response.
  destruct (status_code r =? 401); [discriminate|].
  destruct (status_code r =? 403); [discriminate|].
  destruct (status_code r =? 404); [discriminate|].
  destruct (Z.leb_spec 400 (status_code r)); [discriminate|].
  destruct (json r); [|discriminate]. intros [= <-]. auto.
Qed.

(** The result of the search stage of the tool. *)
Lemma build_stage (v : Valves) (E : env) (query q : string)
  (ci : option string) (c : pyval) :
  result (R2RTool.search_and_build v E query q ci c) =
  match search_post E (Py.rstrip_chars "/" (api_url v))
          (Py.strip (bearer_token v)) (search_payload v q c)
          (Z.min (request_timeout v) 25) with
  | PostTimeout _ => Ret (R2RTool.Message R2RTool.msg_timeout)
  | PostConnectionError _ => Ret (R2RTool.Message (R2RTool.msg_connection v))
  | PostRequestException msg =>
      Ret (R2RTool.Message (R2RTool.msg_request_failed msg))
  | PostResponse r =>
      match R2RTool.check_response E r with
      | inl failure => Ret (R2RTool.Message failure)
      | inr rd => R2RTool.context_from_response v E query q ci rd
      end
  end.
Proof.
  unfold result, R2RTool.search_and_build. cbv [bind emit ret lift].
  destruct (search_post E _ _ _ _) as [msg|msg|msg|r]; try reflexivity.
  destruct (R2RTool.check_response E r); reflexivity.
Qed.

Lemma context_reply (v : Valves) (E : env) (query q : string)
  (ci : option string) (rd : pyval) (srcs : option (list R2RTool.source))
  (query' : string) (ctx : context) :
  R2RTool.context_from_response v E query q ci rd
  = Ret (R2RTool.FinalContext srcs query' ctx) ->
  query' = query /\
  exists n blocks, ctx = ContextBlocks q n blocks ci /\ (0 < n)%nat.
Proof.
  unfold R2RTool.context_from_response.
  destruct (chunks_of_response rd) as [chunks|]; [|discriminate].
  destruct (negb (Val.truthy chunks)); [discriminate|].
  destruct (iterate chunks) as [l|]; [|discriminate].
  destruct (filter_by_score (min_relevance_score v) l) as [[|k ks]|];
    try discriminate.
  destruct (R2RTool.context_entries v 1 _) as [pairs|]; [|discriminate].
  intros H.
  assert (H' : R2RTool.FinalContext srcs query' ctx
               = R2RTool.FinalContext srcs query
                   (ContextBlocks q (List.length (k :: ks)) (map snd pairs) ci)
               \/ R2RTool.FinalContext srcs query' ctx
               = R2RTool.FinalContext None query
                   (ContextBlocks q (List.length (k :: ks)) (map snd pairs) ci)).
  { destruct (map fst pairs); [|destruct (enable_source_emission v)];
      injection H as <- <- <-; auto. }
  destruct H' as [H'|H']; inversion H'; subst;
    (split; [reflexivity|]; eexists _, _; split; [reflexivity|];
     cbn [List.length]; lia).
Qed.

(** The tool either returns a message at once, or reaches the
    permission stage. *)
Lemma tool_early_message (v : Valves) (E : env) (query : string)
  (u : R2RTool.user_arg) :
  (exists msg,
      R2RTool.r2r_search_context v E query u [] = (Ret (R2RTool.Message msg), [])) \/
  (3 <= Py.len (Py.strip (fst (R2RTool._parse_user_input E query))) /\
   Py.truthy_str (Py.strip (bearer_token v)) = true).
Proof.
  unfold R2RTool.r2r_search_context.
  destruct (Py.truthy_str query); [|left; eexists; reflexivity]. cbn [negb].
  destruct (R2RTool._parse_user_input E query) as [sq ci] eqn:Hp.
  destruct (Py.truthy_str sq); [|left; eexists; reflexivity]. cbn [negb orb].
  destruct (Z.ltb_spec (Py.len (Py.strip sq)) 3); [left; eexists; reflexivity|].
  destruct (Py.truthy_str (Py.strip (bearer_token v))) eqn:Htok;
    [|left; eexists; reflexivity].
  right. cbn [fst]. auto.
Qed.

(** X17. The tool hands back a context only when the search request
    was answered with a status below 400 and a JSON body from which at
    least one chunk passed the relevance filter; the context then names
    the caller's original query and the parsed search text, and counts
    at least one result.  Every other outcome is a plain message. *)
Theorem tool_context_needs_results (v : Valves) (E : env) (query : string)
  (u : R2RTool.user_arg) (srcs : option (list R2RTool.source))
  (query' : string) (ctx : context)
  (Hreply : result (R2RTool.r2r_search_context v E query u)
            = Ret (R2RTool.FinalContext srcs query' ctx)) :
  query' = query /\
  (exists n blocks,
      ctx = ContextBlocks (fst (R2RTool._parse_user_input E query)) n blocks
              (snd (R2RTool._parse_user_input E query)) /\ (0 < n)%nat) /\
  exists c r rd,
    result (R2RTool.resolve_permissions v E u) = Ret c /\
    search_post E (Py.rstrip_chars "/" (api_url v)) (Py.strip (bearer_token v))
      (search_payload v (fst (R2RTool._parse_user_input E query)) c)
      (Z.min (request_timeout v) 25) = PostResponse r /\
    status_code r < 400 /\ json r = Some rd /\
    R2RTool.context_from_response v E query
      (fst (R2RTool._parse_user_input E query))
      (snd (R2RTool._parse_user_input E query)) rd
    = Ret (R2RTool.FinalContext srcs query ctx).
Proof.
  revert Hreply. unfold result at 1.
  destruct (tool_early_message v E query u) as [[msg Hm]|[Hlen Htok]].
  - rewrite Hm. discriminate.
  - rewrite (tool_run v E query u Hlen Htok). cbv zeta.
    destruct (result (R2RTool.resolve_permissions v E u)) as [c|e] eqn:Hc;
      cbn [fst]; [|discriminate].
    rewrite build_stage.
    destruct (search_post E _ _ _ _) as [msg|msg|msg|r] eqn:Hpost;
      try discriminate.
    destruct (R2RTool.check_response E r) as [failure|rd] eqn:Hcheck;
      [discriminate|].
    destruct (R2RTool.context_from_response v E query _ _ rd) as [rep|] eqn:Hctx;
      [|discriminate].
    intros [= ->].
    destruct (context_reply _ _ _ _ _ _ _ _ _ Hctx) as (-> & Hblocks).
    destruct (check_response_ok E r rd Hcheck) as [Hst Hjs].
    split; [reflexivity|]. split; [exact Hblocks|].
    exists c, r, rd. auto.
Qed.

Lemma tool_context_needs_results_witness :
  (exists srcs ctx,
      result (R2RTool.r2r_search_context default_valves account_env "cats" ann_json)
      = Ret (R2RTool.FinalContext srcs "cats" ctx)) /\
  exists c r,
    result (R2RTool.resolve_permissions default_valves account_env ann_json)
    = Ret c /\
    search_post account_env
      (Py.rstrip_chars "/" (api_url default_valves))
      (Py.strip (bearer_token default_valves))
      (search_payload default_valves
         (fst (R2RTool._parse_user_input account_env "cats")) c)
      (Z.min (request_timeout default_valves) 25) = PostResponse r /\
    status_code r < 400.
Proof.
  split; [eexists _, _; reflexivity|].
  destruct (tool_context_needs_results default_valves account_env "cats"
              ann_json _ _ _ eq_refl) as (_ & _ & c & r & rd & Hc & Hp & Hs & _).
  exists c, r. auto.
Defined.

(** X18. The pipe calls the model only after a search request that was
    answered with a non-empty chunk list, only for a user with an [id],
    and only once a context was built from those chunks; the call names
    the configured model and carries the conversation without its last
    message.  What the call returns is what the pipe returns, and a
    failure of the call becomes a system-error message. *)
Theorem pipe_model_call_needs_results (v : Valves) (E : env)
  (ms : list message) (u : option user) (model : string)
  (hist : list message) (ctx : context)
  (Hcall : In (ChatCompletion model hist ctx) (events (R2RPipe.pipe v E ms u))) :
  model = LOCAL_MODEL v /\ hist = R2RPipe.but_last ms /\
  (exists usr i, u = Some usr /\ id usr = Some i) /\
  exists history m c rd chunks,
    ms = (history ++ [m])%list /\
    let q := fst (R2RPipe._parse_user_input (user_query_of m)) in
    let ci := snd (R2RPipe._parse_user_input (user_query_of m)) in
    result (R2RPipe.resolve_permissions v E u) = Ret (inr c) /\
    result (R2RPipe._perform_r2r_search v E q c) = Ret rd /\
    chunks_of_response rd = Ret chunks /\ Val.truthy chunks = true /\
    R2RPipe._build_context_from_results v q chunks ci = Ret ctx /\
    result (R2RPipe.pipe v E ms u) =
    match generate_chat_completion E model hist ctx with
    | Ret answer => Ret answer
    | Raise e => Ret (R2RPipe.msg_system_error E e)
    end.
Proof.
  revert Hcall. unfold events at 1, result at 3.
  destruct (pipe_cases v E ms u)
    as [[msg Hm]|(history & m & ci0 & -> & Hrole & Hlen & Htok & _)].
  { rewrite Hm. intros []. }
  rewrite (pipe_run v E history m u Hrole Hlen Htok). cbv zeta.
  pose proof (lookups_resolve_pipe v E u) as Hl. unfold only in Hl.
  destruct (result (R2RPipe.resolve_permissions v E u)) as [[denial|c]|e] eqn:Hperm;
    cbn [fst snd]; intros Hin;
    try (exfalso; exact (lookup_not_chat _ _ _ _ Hl Hin)).
  apply in_app_or in Hin as [Hin|Hin];
    [exfalso; exact (lookup_not_chat _ _ _ _ Hl Hin)|].
  revert Hin. unfold events at 1, result at 2. rewrite search_stage.
  rewrite perform_events.
  destruct (result (R2RPipe._perform_r2r_search v E _ c)) as [rd|e] eqn:Hsearch;
    cbn [fst snd]; [|intros [Hin|[]]; discriminate Hin].
  rewrite answer_run.
  destruct (chunks_of_response rd) as [chunks|] eqn:Hchunks;
    [|intros [Hin|[]]; discriminate Hin].
  destruct (Val.truthy chunks) eqn:Htruthy; cbn [negb];
    [|intros [Hin|[]]; discriminate Hin].
  destruct (R2RPipe._build_context_from_results v _ chunks _) as [built|] eqn:Hctx;
    [|intros [Hin|[]]; discriminate Hin].
  destruct u as [usr|]; [|intros [Hin|[]]; discriminate Hin].
  destruct (id usr) as [i|] eqn:Hid; [|intros [Hin|[]]; discriminate Hin].
  cbn [fst snd app]. intros [Hin|[Hin|[]]]; [discriminate Hin|].
  injection Hin as <- <- <-.
  split; [reflexivity|]. split; [reflexivity|].
  split; [now exists usr, i|].
  exists history, m, c, rd, chunks. cbv zeta. repeat split; auto.
Qed.

Lemma pipe_model_call_needs_results_witness :
  In (ChatCompletion (LOCAL_MODEL default_valves) []
        (ContextBlocks "cats" 1
           [{| e_idx := 1; e_citation_id := "Policy Doc";
               e_file_id := Some "8060008";
               e_link := Some "https://your-nextcloud.domain.com/f/8060008";
               e_text := "Leave is granted on request.";
               e_score := Some (PFloat (7 # 10)) |}] None))
    (events (R2RPipe.pipe default_valves account_env [user_message "cats"]
               (Some ann))) /\
  result (R2RPipe.pipe default_valves account_env [user_message "cats"] (Some ann))
  = Ret "answer".
Proof.
  assert (Hin : In (ChatCompletion (LOCAL_MODEL default_valves) []
                      (ContextBlocks "cats" 1
                         [{| e_idx := 1; e_citation_id := "Policy Doc";
                             e_file_id := Some "8060008";
                             e_link := Some "https://your-nextcloud.domain.com/f/8060008";
                             e_text := "Leave is granted on request.";
                             e_score := Some (PFloat (7 # 10)) |}] None))
                  (events (R2RPipe.pipe default_valves account_env
                             [user_message "cats"] (Some ann))))
    by (do 5 right; left; reflexivity).
  split; [exact Hin|].
  destruct (pipe_model_call_needs_results default_valves account_env _ _ _ _ _ Hin)
    as (_ & _ & _ & history & m & c & rd & chunks & _ & _ & _ & _ & _ & _ & Hr).
  exact Hr.
Defined.

Lemma pipe_search_answered (v : Valves) (E : env) (history : list message)
  (m : message) (u : option user) (c rd : pyval) :
  role m = Some "user" ->
  3 <= Py.len (Py.strip (fst (R2RPipe._parse_user_input (user_query_of m)))) ->
  Py.truthy_str (Py.strip (bearer_token v)) = true ->
  let ms := (history ++ [m])%list in
  let q := fst (R2RPipe._parse_user_input (user_query_of m)) in
  let ci := snd (R2RPipe._parse_user_input (user_query_of m)) in
  result (R2RPipe.resolve_permissions v E u) = Ret (inr c) ->
  result (R2RPipe._perform_r2r_search v E q c) = Ret rd ->
  R2RPipe.pipe v E ms u [] =
  (match fst (R2RPipe.answer_from_results v E ms u q ci rd []) with
   | Ret answer => Ret answer
   | Raise e => Ret (R2RPipe.msg_system_error E e)
   end,
   (events (R2RPipe.resolve_permissions v E u)
    ++ SearchPost (Py.rstrip_chars "/" (api_url v)) (Py.strip (bearer_token v))
         (search_payload v q c) (Z.min (request_timeout v) 300)
       :: snd (R2RPipe.answer_from_results v E ms u q ci rd []))%list).
Proof.
  intros Hrole Hlen Htok ms q ci Hperm Hsearch. unfold ms.
  rewrite (pipe_run v E history m u Hrole Hlen Htok). cbv zeta.
  fold ms q ci. rewrite Hperm. unfold result at 1. unfold events at 2.
  rewrite search_stage, Hsearch, perform_events. reflexivity.
Qed.

Lemma tool_search_answered (v : Valves) (E : env) (query : string)
  (u : R2RTool.user_arg) (c : pyval) (r : response) (rd : pyval) :
  3 <= Py.len (Py.strip (fst (R2RTool._parse_user_input E query))) ->
  Py.truthy_str (Py.strip (bearer_token v)) = true ->
  let q := fst (R2RTool._parse_user_input E query) in
  let ci := snd (R2RTool._parse_user_input E query) in
  result (R2RTool.resolve_permissions v E u) = Ret c ->
  search_post E (Py.rstrip_chars "/" (api_url v)) (Py.strip (bearer_token v))
    (search_payload v q c) (Z.min (request_timeout v) 25) = PostResponse r ->
  R2RTool.check_response E r = inr rd ->
  result (R2RTool.r2r_search_context v E query u) =
  match R2RTool.context_from_response v E query q ci rd with
  | Ret answer => Ret answer
  | Raise e => Ret (R2RTool.Message (R2RTool.msg_tool_failed E e))
  end.
Proof.
  intros Hlen Htok q ci Hperm Hpost Hcheck. unfold result at 1.
  rewrite (tool_run v E query u Hlen Htok). cbv zeta. fold q ci.
  rewrite Hperm. cbn [fst]. rewrite build_stage. fold q.
  rewrite Hpost, Hcheck. reflexivity.
Qed.

(** X19. When the search is answered with no chunks (an empty list, or
    nothing under [chunk_search_results]), both entry points return
    their no-documents message, which quotes the search text; the pipe
    does not call the model. *)
Theorem empty_result_message (v : Valves) (E : env) (rd chunks : pyval)
  (Hchunks : chunks_of_response rd = Ret chunks)
  (Hempty : Val.truthy chunks = false) :
  (forall history m u c,
      role m = Some "user" ->
      3 <= Py.len (Py.strip (fst (R2RPipe._parse_user_input (user_query_of m)))) ->
      Py.truthy_str (Py.strip (bearer_token v)) = true ->
      result (R2RPipe.resolve_permissions v E u) = Ret (inr c) ->
      result (R2RPipe._perform_r2r_search v E
                (fst (R2RPipe._parse_user_input (user_query_of m))) c) = Ret rd ->
      result (R2RPipe.pipe v E (history ++ [m]) u)
      = Ret (R2RPipe.msg_no_documents
               (fst (R2RPipe._parse_user_input (user_query_of m)))) /\
      Forall (fun ev => is_chat ev = false)
        (events (R2RPipe.pipe v E (history ++ [m]) u))) /\
  (forall query u c r,
      3 <= Py.len (Py.strip (fst (R2RTool._parse_user_input E query))) ->
      Py.truthy_str (Py.strip (bearer_token v)) = true ->
      result (R2RTool.resolve_permissions v E u) = Ret c ->
      search_post E (Py.rstrip_chars "/" (api_url v)) (Py.strip (bearer_token v))
        (search_payload v (fst (R2RTool._parse_user_input E query)) c)
        (Z.min (request_timeout v) 25) = PostResponse r ->
      R2RTool.check_response E r = inr rd ->
      result (R2RTool.r2r_search_context v E query u)
      = Ret (R2RTool.Message
               (R2RTool.msg_no_documents (fst (R2RTool._parse_user_input E query))))).
Proof.
  split.
  - intros history m u c Hrole Hlen Htok Hperm Hsearch.
    unfold result at 1, events at 1.
    rewrite (pipe_search_answered v E history m u c rd Hrole Hlen Htok Hperm
               Hsearch).
    rewrite answer_run, Hchunks, Hempty. cbn [negb fst snd].
    split; [reflexivity|]. apply Forall_app. split.
    + pose proof (lookups_resolve_pipe v E u) as Hl. unfold only in Hl.
      eapply Forall_impl; [|exact Hl].
      intros ev H. destruct ev; solve [reflexivity | discriminate H].
    + constructor; [reflexivity | constructor].
  - intros query u c r Hlen Htok Hperm Hpost Hcheck.
    rewrite (tool_search_answered v E query u c r rd Hlen Htok Hperm Hpost Hcheck).
    unfold R2RTool.context_from_response. rewrite Hchunks, Hempty. reflexivity.
Qed.

Lemma empty_result_message_witness :
  chunks_of_response
    (PDict [("results", PDict [("chunk_search_results", PList [])])])
  = Ret (PList []) /\
  Val.truthy (PList []) = false /\
  result (R2RPipe.pipe default_valves
            (reference_env [Some (LOne (ABytes guid_bytes_example))] (PStr "c-1") [])
            [user_message "cats"] (Some ann))
  = Ret (R2RPipe.msg_no_documents "cats") /\
  result (R2RTool.r2r_search_context default_valves
            (reference_env [Some (LOne (ABytes guid_bytes_example))] (PStr "c-1") [])
            "cats" ann_json)
  = Ret (R2RTool.Message (R2RTool.msg_no_documents "cats")).
Proof.
  destruct (empty_result_message default_valves
              (reference_env [Some (LOne (ABytes guid_bytes_example))]
                 (PStr "c-1") [])
              (PDict [("results", PDict [("chunk_search_results", PList [])])])
              (PList []) eq_refl eq_refl) as [Hp Ht].
  split; [reflexivity|]. split; [reflexivity|]. split.
  - apply (Hp [] (user_message "cats") (Some ann) (PStr "c-1"));
      [reflexivity | apply Z.leb_le; reflexivity | reflexivity | reflexivity
      | reflexivity].
  - eapply (Ht "cats" ann_json (PStr "c-1"));
      [apply Z.leb_le; reflexivity | reflexivity | reflexivity | reflexivity
      | reflexivity].
Defined.

Lemma below_floor_dropped (floor : Q) (l : list pyval) :
  Forall (below_floor floor) l -> filter_by_score floor l = Ret [].
Proof.
  intros H.
  rewrite filter_by_score_total
    by (eapply Forall_impl; [|exact H]; intros c (q & Hq & _); now exists q).
  f_equal. induction H as [|c r (q & Hq & Hlt) _ IH]; [reflexivity|].
  cbn [filter]. unfold meets_floor at 1. rewrite Hq.
  destruct (Qle_bool floor q) eqn:Hle; [|exact IH].
  apply Qle_bool_iff in Hle. exfalso. exact (Qlt_not_le q floor Hlt Hle).
Qed.

(** X20. When the search returns chunks but every one of them scores
    strictly below the relevance floor, the two entry points part ways:
    the pipe still calls the model, with the one-line notice that no
    relevant documents were found as its context, while the tool
    returns a message that reports how many results were found and the
    floor they missed. *)
Theorem all_chunks_below_floor (v : Valves) (E : env) (rd : pyval)
  (l : list pyval)
  (Hchunks : chunks_of_response rd = Ret (PList l))
  (Hsome : l <> [])
  (Hbelow : Forall (below_floor (min_relevance_score v)) l) :
  (forall history m usr i c,
      role m = Some "user" ->
      3 <= Py.len (Py.strip (fst (R2RPipe._parse_user_input (user_query_of m)))) ->
      Py.truthy_str (Py.strip (bearer_token v)) = true ->
      id usr = Some i ->
      result (R2RPipe.resolve_permissions v E (Some usr)) = Ret (inr c) ->
      result (R2RPipe._perform_r2r_search v E
                (fst (R2RPipe._parse_user_input (user_query_of m))) c) = Ret rd ->
      In (ChatCompletion (LOCAL_MODEL v) history
            (NoRelevantDocuments
               (fst (R2RPipe._parse_user_input (user_query_of m)))))
        (events (R2RPipe.pipe v E (history ++ [m]) (Some usr)))) /\
  (forall query u c r,
      3 <= Py.len (Py.strip (fst (R2RTool._parse_user_input E query))) ->
      Py.truthy_str (Py.strip (bearer_token v)) = true ->
      result (R2RTool.resolve_permissions v E u) = Ret c ->
      search_post E (Py.rstrip_chars "/" (api_url v)) (Py.strip (bearer_token v))
        (search_payload v (fst (R2RTool._parse_user_input E query)) c)
        (Z.min (request_timeout v) 25) = PostResponse r ->
      R2RTool.check_response E r = inr rd ->
      result (R2RTool.r2r_search_context v E query u)
      = Ret (R2RTool.Message
               (R2RTool.msg_none_relevant E v
                  (fst (R2RTool._parse_user_input E query)) (List.length l))) /\
      events (R2RTool.r2r_search_context v E query u)
      = (events (R2RTool.resolve_permissions v E u)
         ++ [SearchPost (Py.rstrip_chars "/" (api_url v))
               (Py.strip (bearer_token v))
               (search_payload v (fst (R2RTool._parse_user_input E query)) c)
               (Z.min (request_timeout v) 25)])%list).
Proof.
  assert (Htruthy : Val.truthy (PList l) = true)
    by (destruct l; [contradiction | reflexivity]).
  split.
  - intros history m usr i c Hrole Hlen Htok Hid Hperm Hsearch.
    unfold events.
    rewrite (pipe_search_answered v E history m (Some usr) c rd Hrole Hlen Htok
               Hperm Hsearch).
    rewrite answer_run, Hchunks, Htruthy. cbn [negb].
    unfold R2RPipe._build_context_from_results. cbn [iterate].
    rewrite (below_floor_dropped _ l Hbelow), Hid. cbn [snd].
    apply in_or_app. right. right. left.
    unfold R2RPipe.but_last. now rewrite removelast_last.
  - intros query u c r Hlen Htok Hperm Hpost Hcheck. split.
    + rewrite (tool_search_answered v E query u c r rd Hlen Htok Hperm Hpost
                 Hcheck).
      unfold R2RTool.context_from_response. rewrite Hchunks, Htruthy.
      cbn [negb iterate]. now rewrite (below_floor_dropped _ l Hbelow).
    + unfold events at 1. rewrite (tool_run v E query u Hlen Htok). cbv zeta.
      rewrite Hperm. cbn [snd]. now rewrite events_search_and_build.
Qed.

Lemma all_chunks_below_floor_witness :
  chunks_of_response
    (PDict [("results", PDict [("chunk_search_results", PList [poor_chunk])])])
  = Ret (PList [poor_chunk]) /\
  [poor_chunk] <> [] /\
  Forall (below_floor (min_relevance_score default_valves)) [poor_chunk] /\
  In (ChatCompletion (LOCAL_MODEL default_valves) [] (NoRelevantDocuments "cats"))
    (events (R2RPipe.pipe default_valves poor_env [user_message "cats"]
               (Some ann))) /\
  result (R2RTool.r2r_search_context default_valves poor_env "cats" ann_json)
  = Ret (R2RTool.Message (R2RTool.msg_none_relevant poor_env default_valves "cats" 1)).
Proof.
  assert (Hb : Forall (below_floor (min_relevance_score default_valves))
                 [poor_chunk]).
  { constructor; [|constructor]. exists (-1 # 10)%Q. split; reflexivity. }
  assert (Hs : [poor_chunk] <> []) by discriminate.
  destruct (all_chunks_below_floor default_valves poor_env
              (PDict [("results",
                       PDict [("chunk_search_results", PList [poor_chunk])])])
              [poor_chunk] eq_refl Hs Hb) as [Hp Ht].
  split; [reflexivity|]. split; [exact Hs|]. split; [exact Hb|]. split.
  - apply (Hp [] (user_message "cats") ann "u1" (PStr "c-1"));
      [reflexivity | apply Z.leb_le; reflexivity | reflexivity | reflexivity
      | reflexivity | reflexivity].
  - eapply (Ht "cats" ann_json (PStr "c-1"));
      [apply Z.leb_le; reflexivity | reflexivity | reflexivity | reflexivity
      | reflexivity].
Defined.

(** ** Truncation and the blocks of a context *)

Lemma truncate_bound (s : option string) (n : Z) :
  3 <= n -> Py.len (_truncate s n) <= n.
Proof.
  intros Hn. unfold _truncate.
  destruct (Z.leb_spec (Py.len match s with Some s0 => s0 | None => "" end) n)
    as [H|H]; [exact H|].
  unfold Py.slice_to. rewrite clamp_nonneg by lia. unfold Py.len in *.
  rewrite length_app, length_take. cbn [String.length]. lia.
Qed.

(** X21. Truncating is idempotent for every budget of at least 3: the
    result fits the budget, so truncating it again changes nothing; a
    missing text is truncated to the empty string. *)
Theorem truncate_idempotent (s : option string) (n : Z) (Hn : 3 <= n) :
  Py.len (_truncate s n) <= n /\
  _truncate (Some (_truncate s n)) n = _truncate s n /\
  _truncate None n = "".
Proof.
  pose proof (truncate_bound s n Hn) as Hb.
  split; [exact Hb|]. split.
  - unfold _truncate at 1. apply Z.leb_le in Hb. now rewrite Hb.
  - unfold _truncate. replace (Py.len "" <=? n) with true; [reflexivity|].
    symmetry. apply Z.leb_le. unfold Py.len. cbn [String.length]. lia.
Qed.

Lemma truncate_idempotent_witness :
  3 <= 5 /\
  _truncate (Some (_truncate (Some "abcdefghij") 5)) 5
  = _truncate (Some "abcdefghij") 5.
Proof.
  split; [lia | apply (truncate_idempotent (Some "abcdefghij") 5); lia].
Defined.

(** X22. Below a budget of 3 the slice [s[:n - 3]] counts from the end
    of the text: a text longer than the budget loses its last [3 - n]
    characters and gains the ellipsis, so the result has [n] characters
    more than the text instead of fitting the budget. *)
Theorem truncate_small_budget (s : string) (n : Z)
  (Hn : 0 <= n < 3) (Hlong : 3 <= Py.len s) :
  _truncate (Some s) n = Py.take (Z.to_nat (Py.len s - (3 - n))) s ++ "..." /\
  Py.len (_truncate (Some s) n) = Py.len s + n.
Proof.
  assert (Ht : _truncate (Some s) n
               = Py.take (Z.to_nat (Py.len s - (3 - n))) s ++ "...").
  { unfold _truncate. destruct (Z.leb_spec (Py.len s) n) as [H|H]; [lia|].
    unfold Py.slice_to, Py.clamp.
    destruct (Z.ltb_spec (n - 3) 0) as [_|H0]; [|lia].
    do 2 f_equal. lia. }
  split; [exact Ht|]. rewrite Ht. unfold Py.len in *.
  rewrite length_app, length_take. cbn [String.length]. lia.
Qed.

Lemma truncate_small_budget_witness :
  0 <= 2 < 3 /\ 3 <= Py.len "abcdef" /\
  _truncate (Some "abcdef") 2 = "abcde...".
Proof.
  split; [lia|]. split; [apply Z.leb_le; reflexivity|].
  apply (truncate_small_budget "abcdef" 2); [lia | apply Z.leb_le; reflexivity].
Defined.

Lemma chunk_citation_clean (metadata : pyval) (c : string) :
  c = _get_citation_identifier metadata -> c <> "" /\ trimmed c.
Proof.
  intros ->. unfold _get_citation_identifier.
  destruct metadata as [| | | | | |d]; try (split; [discriminate | reflexivity]).
  destruct (first_label d ["title"; "source"; "filename"]) as [s|] eqn:H1;
    [exact (first_label_clean d _ s H1)|].
  destruct (first_label d ["file_name"; "name"; "document_id"]) as [s|] eqn:H2;
    [exact (first_label_clean d _ s H2)|].
  split; [discriminate | reflexivity].
Qed.

Lemma pipe_entry_ok (v : Valves) (idx : nat) (chunk : pyval) (b : entry) :
  R2RPipe.context_entry v idx chunk = Ret b -> e_idx b = idx /\ block_ok v b.
Proof.
  unfold R2RPipe.context_entry.
  destruct chunk as [| | | | | |d]; try discriminate.
  destruct (chunk_text d) as [text|]; [|discriminate].
  destruct (R2RPipe.link_of_metadata v (chunk_metadata d)) as [[fid link]|] eqn:Hl;
    [|discriminate].
  destruct (include_metadata v && negb (Val.is_dict (chunk_metadata d)));
    [discriminate|].
  intros [= <-]. cbn [e_idx]. split; [reflexivity|].
  destruct (chunk_citation_clean (chunk_metadata d) _ eq_refl) as [Hne Htr].
  unfold block_ok. cbn [e_citation_id e_text e_file_id e_link].
  split; [exact Hne|]. split; [exact Htr|]. split.
  - intros Hn. now apply truncate_bound.
  - intros d0 ->. apply pipe_link_digits in Hl.
    destruct link as [l|]; [|discriminate Hl].
    destruct Hl as (d1 & Hd & [= ->] & ->). auto.
Qed.

Lemma tool_entry_ok (v : Valves) (idx : nat) (chunk : pyval)
  (p : R2RTool.source * entry) :
  R2RTool.context_entry v idx chunk = Ret p ->
  e_idx (snd p) = idx /\ block_ok v (snd p) /\ source_ok p.
Proof.
  unfold R2RTool.context_entry.
  destruct chunk as [| | | | | |d]; try discriminate.
  destruct (chunk_text d) as [text|]; [|discriminate].
  destruct (R2RTool.link_of_metadata v (chunk_metadata d) _)
    as [[fid link]|] eqn:Hl; [|discriminate].
  intros [= <-]. cbn [fst snd e_idx]. split; [reflexivity|].
  destruct (chunk_citation_clean (chunk_metadata d) _ eq_refl) as [Hne Htr].
  split.
  - unfold block_ok. cbn [e_citation_id e_text e_file_id e_link].
    split; [exact Hne|]. split; [exact Htr|]. split.
    + intros Hn. now apply truncate_bound.
    + intros d0 ->. revert Hl. unfold R2RTool.link_of_metadata.
      destruct (chunk_metadata d) as [| | | | | |md]; try discriminate.
      unfold R2RTool.file_id_of_filename.
      destruct (negb (Val.truthy (get_filename md)));
        [intros [= ]|].
      destruct (get_filename md) as [| | | |f| |]; try discriminate.
      destruct (default_pattern_id f) as [d1|] eqn:Hd; [|discriminate].
      intros [= -> <-]. split; [|reflexivity].
      now apply default_pattern_digits with f.
  - unfold source_ok. cbn [fst snd R2RTool.s_name R2RTool.s_url
                             R2RTool.s_content e_citation_id e_link].
    split; [reflexivity|]. split; [reflexivity|].
    apply truncate_bound. lia.
Qed.

Lemma pipe_entries_ok (v : Valves) (l : list pyval) :
  forall idx blocks,
    R2RPipe.context_entries v idx l = Ret blocks ->
    map e_idx blocks = seq idx (List.length blocks) /\ Forall (block_ok v) blocks.
Proof.
  induction l as [|c r IH]; cbn [R2RPipe.context_entries]; intros idx blocks H.
  - injection H as <-. split; [reflexivity | constructor].
  - destruct (R2RPipe.context_entry v idx c) as [b|] eqn:Hb; [|discriminate H].
    destruct (R2RPipe.context_entries v (S idx) r) as [bs|] eqn:Hbs;
      [|discriminate H].
    injection H as <-. destruct (pipe_entry_ok v idx c b Hb) as [Hi Hok].
    destruct (IH (S idx) bs Hbs) as [Hs Hf].
    split; [cbn [map List.length seq]; now rewrite Hi, Hs | now constructor].
Qed.

Lemma tool_entries_ok (v : Valves) (l : list pyval) :
  forall idx pairs,
    R2RTool.context_entries v idx l = Ret pairs ->
    map e_idx (map snd pairs) = seq idx (List.length pairs) /\
    Forall (block_ok v) (map snd pairs) /\ Forall source_ok pairs.
Proof.
  induction l as [|c r IH]; cbn [R2RTool.context_entries]; intros idx pairs H.
  - injection H as <-. split; [reflexivity|]. split; constructor.
  - destruct (R2RTool.context_entry v idx c) as [p|] eqn:Hp; [|discriminate H].
    destruct (R2RTool.context_entries v (S idx) r) as [ps|] eqn:Hps;
      [|discriminate H].
    injection H as <-. destruct (tool_entry_ok v idx c p Hp) as (Hi & Hok & Hsrc).
    destruct (IH (S idx) ps Hps) as (Hs & Hf & Hg).
    split; [cbn [map List.length seq]; now rewrite Hi, Hs|].
    split; [cbn [map] |]; now constructor.
Qed.

Lemma list_slice_to_length {A} (l : list A) (k : Z) :
  (List.length (list_slice_to l k) <= List.length l)%nat.
Proof. unfold list_slice_to. rewrite length_firstn. lia. Qed.

(** X23. The blocks of a context, in both entry points, are numbered
    1, 2, ... in order and are never more than the results counted in
    the heading; each has a citation identifier that is not empty and
    carries no surrounding whitespace, a text within
    [max_chars_per_chunk] (for a budget of at least 3), and with a file
    identifier, which is a non-empty string of characters that
    [str.isdigit] accepts, the link [<base>/f/<id>].  The
    sources the tool emits, which it does only when source emission is
    enabled, stand beside the blocks one for one: same name, the link
    or an empty string, at most 300 characters of text. *)
Theorem context_blocks_shape (v : Valves) :
  (forall q chunks ci q' n blocks ci',
      R2RPipe._build_context_from_results v q chunks ci
      = Ret (ContextBlocks q' n blocks ci') ->
      q' = q /\ ci' = ci /\ (List.length blocks <= n)%nat /\
      map e_idx blocks = seq 1 (List.length blocks) /\
      Forall (block_ok v) blocks) /\
  (forall E query q ci rd srcs query' q' n blocks ci',
      R2RTool.context_from_response v E query q ci rd
      = Ret (R2RTool.FinalContext srcs query' (ContextBlocks q' n blocks ci')) ->
      q' = q /\ ci' = ci /\ (List.length blocks <= n)%nat /\
      map e_idx blocks = seq 1 (List.length blocks) /\
      Forall (block_ok v) blocks /\
      forall sources, srcs = Some sources ->
        enable_source_emission v = true /\
        exists pairs,
          sources = map fst pairs /\ blocks = map snd pairs /\
          Forall source_ok pairs).
Proof.
  split.
  - intros q chunks ci q' n blocks ci'.
    unfold R2RPipe._build_context_from_results.
    destruct (iterate chunks) as [l|]; [|discriminate].
    destruct (filter_by_score (min_relevance_score v) l) as [[|k ks]|];
      try discriminate.
    destruct (R2RPipe.context_entries v 1 _) as [bs|] eqn:Hbs; [|discriminate].
    intros [= <- <- <- <-].
    destruct (pipe_entries_ok v _ 1 bs Hbs) as [Hs Hf].
    repeat split; auto.
    rewrite (pipe_entries_length v _ 1 bs Hbs).
    exact (list_slice_to_length (k :: ks) _).
  - intros E query q ci rd srcs query' q' n blocks ci'.
    unfold R2RTool.context_from_response.
    destruct (chunks_of_response rd) as [chunks|]; [|discriminate].
    destruct (negb (Val.truthy chunks)); [discriminate|].
    destruct (iterate chunks) as [l|]; [|discriminate].
    destruct (filter_by_score (min_relevance_score v) l) as [[|k ks]|];
      try discriminate.
    destruct (R2RTool.context_entries v 1 _) as [ps|] eqn:Hps; [|discriminate].
    destruct (tool_entries_ok v _ 1 ps Hps) as (Hs & Hf & Hg).
    pose proof (tool_entries_length v _ 1 ps Hps) as Hlen.
    intros H.
    assert (Hctx : ContextBlocks q (List.length (k :: ks)) (map snd ps) ci
                   = ContextBlocks q' n blocks ci' /\
                   forall sources, srcs = Some sources ->
                     enable_source_emission v = true /\ sources = map fst ps).
    { destruct (map fst ps) eqn:Hsrc;
        [|destruct (enable_source_emission v)]; injection H as <- _ <- <- <- <-;
        (split; [reflexivity|]); intros sources Hss;
        solve [discriminate Hss | injection Hss as <-; auto]. }
    destruct Hctx as [Hctx Hsources]. injection Hctx as <- <- <- <-.
    rewrite length_map in *.
    repeat split; auto.
    + rewrite Hlen. exact (list_slice_to_length (k :: ks) _).
    + apply (Hsources sources H0).
    + exists ps. repeat split; auto. apply (Hsources sources H0).
Qed.

Lemma context_blocks_shape_witness :
  exists blocks,
    R2RPipe._build_context_from_results default_valves "cats"
      (PList [example_chunk]) None
    = Ret (ContextBlocks "cats" 1 blocks None) /\
    map e_idx blocks = seq 1 (List.length blocks) /\
    Forall (block_ok default_valves) blocks.
Proof.
  eexists. split; [reflexivity|].
  destruct (context_blocks_shape default_valves) as [Hp _].
  destruct (Hp "cats" (PList [example_chunk]) None _ _ _ _ eq_refl)
    as (_ & _ & _ & Hs & Hf).
  split; [exact Hs | exact Hf].
Defined.

(** ** Scores that are not numbers *)

Lemma scored_dec (c : pyval) : {scored c} + {score_value c = None}.
Proof.
  unfold scored. destruct (score_value c) as [q|]; [left; now exists q | now right].
Qed.

Lemma filter_by_score_cases (floor : Q) (l : list pyval) :
  match filter_by_score floor l with
  | Ret kept => Forall scored l /\ kept = filter (meets_floor floor) l
  | Raise e =>
      Exists (fun c => score_value c = None) l /\
      (e = AttributeError \/ e = TypeError)
  end.
Proof.
  induction l as [|c r IH]; cbn [filter_by_score]; [split; [constructor | reflexivity]|].
  destruct c as [| | | | | |d];
    try (cbn [chunk_score]; split; [left; reflexivity | left; reflexivity]).
  cbn [chunk_score]. unfold score_ge.
  destruct (number_of match Val.assoc "score" d with
                      | Some s => s
                      | None => PFloat 0
                      end) as [q|] eqn:Hq.
  - assert (Hs : score_value (PDict d) = Some q).
    { cbn [score_value]. destruct (Val.assoc "score" d); exact Hq. }
    destruct (filter_by_score floor r) as [kept|e].
    + destruct IH as [Hf ->]. split.
      * constructor; [now exists q | exact Hf].
      * assert (Hm : meets_floor floor (PDict d) = Qle_bool floor q)
          by (unfold meets_floor; now rewrite Hs).
        cbn [filter]. rewrite Hm. reflexivity.
    + destruct IH as [Hex He]. split; [now right | exact He].
  - split; [|right; reflexivity]. left. cbn [score_value].
    destruct (Val.assoc "score" d); [exact Hq | discriminate Hq].
Qed.

(** X24. The relevance filter returns exactly when every chunk is a
    dict whose score is a number or missing; one chunk that is not a
    dict, or whose score is a string, a list, a dict or null, makes it
    raise ([AttributeError] or [TypeError]) whatever the other chunks
    are, and then the pipe builds no context. *)
Theorem filter_by_score_raises (floor : Q) (l : list pyval) :
  ((exists kept, filter_by_score floor l = Ret kept) <-> Forall scored l) /\
  (Exists (fun c => score_value c = None) l ->
   (exists e, filter_by_score floor l = Raise e /\
              (e = AttributeError \/ e = TypeError)) /\
   forall v q ci,
     min_relevance_score v = floor ->
     exists e, R2RPipe._build_context_from_results v q (PList l) ci = Raise e).
Proof.
  pose proof (filter_by_score_cases floor l) as H.
  assert (Hno : Exists (fun c => score_value c = None) l -> ~ Forall scored l).
  { intros Hex Hall. rewrite Exists_exists in Hex. rewrite Forall_forall in Hall.
    destruct Hex as (c & Hin & Hc). destruct (Hall c Hin) as [q Hq].
    rewrite Hc in Hq. discriminate Hq. }
  split; [split|].
  - intros [kept Hk]. rewrite Hk in H. exact (proj1 H).
  - intros Hall. eexists. now apply filter_by_score_total.
  - intros Hex.
    destruct (filter_by_score floor l) as [kept|e] eqn:Hf.
    + exfalso. exact (Hno Hex (proj1 H)).
    + split; [exists e; split; [reflexivity | exact (proj2 H)]|].
      intros v q ci Hfloor. exists e.
      unfold R2RPipe._build_context_from_results. cbn [iterate].
      now rewrite Hfloor, Hf.
Qed.

Lemma filter_by_score_raises_witness :
  Exists (fun c => score_value c = None)
    [example_chunk; PDict [("text", PStr "x"); ("score", PStr "high")]] /\
  exists e,
    filter_by_score 0
      [example_chunk; PDict [("text", PStr "x"); ("score", PStr "high")]]
    = Raise e.
Proof.
  assert (Hex : Exists (fun c => score_value c = None)
                  [example_chunk;
                   PDict [("text", PStr "x"); ("score", PStr "high")]])
    by (right; left; reflexivity).
  split; [exact Hex|].
  destruct (filter_by_score_raises 0
              [example_chunk; PDict [("text", PStr "x"); ("score", PStr "high")]])
    as [_ H].
  destruct (H Hex) as [(e & He & _) _]. now exists e.
Defined.

(** ** The metadata line *)

Lemma info_part_length (fmt : pyval -> string) (d : list (string * pyval))
  (test : pyval -> bool) (keys : list string) :
  (List.length (flat_map (Meta.info_part fmt d test) keys) <= List.length keys)%nat.
Proof.
  induction keys as [|k r IH]; cbn [flat_map List.length]; [lia|].
  rewrite List.length_app. unfold Meta.info_part at 1.
  destruct (Val.assoc k d) as [x|]; [destruct (test x)|]; cbn [List.length]; lia.
Qed.

Lemma info_part_in (fmt : pyval -> string) (d : list (string * pyval))
  (test : pyval -> bool) (keys : list string) (p : string) :
  In p (flat_map (Meta.info_part fmt d test) keys) <->
  exists key x, In key keys /\ Val.assoc key d = Some x /\ test x = true /\
                p = key ++ ": " ++ fmt x.
Proof.
  rewrite in_flat_map. unfold Meta.info_part. split.
  - intros (key & Hk & Hin).
    destruct (Val.assoc key d) as [x|] eqn:Hx; [|destruct Hin].
    destruct (test x) eqn:Ht; [|destruct Hin].
    destruct Hin as [<-|[]]. now exists key, x.
  - intros (key & x & Hk & Hx & Ht & ->). exists key. split; [exact Hk|].
    rewrite Hx, Ht. now left.
Qed.

Lemma truthy_not_none (x : pyval) : Val.truthy x = true -> Meta.is_not_none x = true.
Proof. destruct x; [discriminate | reflexivity ..]. Qed.

Lemma not_none_iff (x : pyval) : Meta.is_not_none x = true <-> x <> PNone.
Proof. destruct x; cbn; split; intros H; congruence. Qed.

(** The entries of [_format_metadata_info] on a dict, loop by loop. *)
Lemma format_metadata_in (fmt : pyval -> string) (d : list (string * pyval))
  (p : string) :
  In p (Meta._format_metadata_info fmt (PDict d)) <->
  exists key x,
    Val.assoc key d = Some x /\ p = key ++ ": " ++ fmt x /\
    ((In key ["document_id"; "document_type"; "filename"; "file_name"] /\
      Val.truthy x = true) \/
     (In key ["chunk_index"; "page"; "page_number"; "section"; "chapter"] /\
      Meta.is_not_none x = true) \/
     (In key ["created_at"; "updated_at"; "date"; "year"] /\
      Val.truthy x = true) \/
     (In key ["size_in_bytes"; "total_tokens"] /\ Meta.is_not_none x = true)).
Proof.
  unfold Meta._format_metadata_info. rewrite !in_app_iff, !info_part_in. split.
  - intros [H|[H|[H|H]]]; destruct H as (key & x & Hk & Hx & Ht & ->);
      exists key, x; (split; [exact Hx|]); (split; [reflexivity|]); tauto.
  - intros (key & x & Hx & -> & [[Hk Ht]|[[Hk Ht]|[[Hk Ht]|[Hk Ht]]]]);
      [left | right; left | right; right; left | right; right; right];
      now exists key, x.
Qed.

Ltac split_keys :=
  repeat match goal with
         | H : In _ (_ :: _) |- _ => destruct H as [<-|H]
         | H : In _ [] |- _ => destruct H
         end.

(** An entry determines its key: no key followed by a colon and a space
    begins the entry of another key. *)
Lemma entry_of_other_key (fmt : pyval -> string) (d : list (string * pyval))
  (key : string) (x : pyval) :
  In key ["document_id"; "document_type"; "filename"; "file_name";
          "chunk_index"; "page"; "page_number"; "section"; "chapter";
          "created_at"; "updated_at"; "date"; "year";
          "size_in_bytes"; "total_tokens"] ->
  Val.assoc key d = Some x ->
  In (key ++ ": " ++ fmt x) (Meta._format_metadata_info fmt (PDict d)) ->
  (In key ["document_id"; "document_type"; "filename"; "file_name";
           "created_at"; "updated_at"; "date"; "year"] /\ Val.truthy x = true) \/
  (In key ["chunk_index"; "page"; "page_number"; "section"; "chapter";
           "size_in_bytes"; "total_tokens"] /\ Meta.is_not_none x = true).
Proof.
  intros Hkey Hx Hin. apply format_metadata_in in Hin.
  destruct Hin as (key' & x' & Hx' & E & Hcase).
  destruct Hcase as [[Hk Ht]|[[Hk Ht]|[[Hk Ht]|[Hk Ht]]]];
    split_keys;
    try (cbn [append] in E; discriminate E);
    rewrite Hx in Hx'; injection Hx' as <-;
    solve [left; split; [cbn [In]; tauto | exact Ht]
          | right; split; [cbn [In]; tauto | exact Ht]].
Qed.

Lemma keys_apart (key : string) :
  In key ["document_id"; "document_type"; "filename"; "file_name";
          "created_at"; "updated_at"; "date"; "year"] ->
  In key ["chunk_index"; "page"; "page_number"; "section"; "chapter";
          "size_in_bytes"; "total_tokens"] -> False.
Proof.
  intros H H'. cbn [In] in H.
  repeat (destruct H as [<-|H];
          [cbn [In] in H';
           repeat (destruct H' as [H'|H']; [discriminate H'|]); exact H'|]).
  exact H.
Qed.

(** X25. [_format_metadata_info] gives nothing for a metadata that is
    not a dict and at most fifteen entries otherwise; every entry is
    [key: value] for a key that the metadata holds with a value other
    than null.  Identifiers, names and dates are listed exactly when
    their value is truthy, so an empty string or a zero is left out;
    positions and sizes are listed exactly when they are not null, so a
    page 0 is kept. *)
Theorem format_metadata_parts (fmt : pyval -> string) (meta : pyval) :
  (Val.is_dict meta = false -> Meta._format_metadata_info fmt meta = []) /\
  (List.length (Meta._format_metadata_info fmt meta) <= 15)%nat /\
  (forall p, In p (Meta._format_metadata_info fmt meta) ->
     exists d key x,
       meta = PDict d /\ Val.assoc key d = Some x /\ x <> PNone /\
       p = key ++ ": " ++ fmt x) /\
  (forall d key x,
     meta = PDict d -> Val.assoc key d = Some x ->
     (In key ["document_id"; "document_type"; "filename"; "file_name";
              "created_at"; "updated_at"; "date"; "year"] ->
      (In (key ++ ": " ++ fmt x) (Meta._format_metadata_info fmt meta)
       <-> Val.truthy x = true)) /\
     (In key ["chunk_index"; "page"; "page_number"; "section"; "chapter";
              "size_in_bytes"; "total_tokens"] ->
      (In (key ++ ": " ++ fmt x) (Meta._format_metadata_info fmt meta)
       <-> x <> PNone))).
Proof.
  split; [|split; [|split]].
  - destruct meta; try reflexivity. discriminate.
  - destruct meta as [| | | | | |d]; cbn [Meta._format_metadata_info List.length];
      try lia.
    rewrite !List.length_app.
    pose proof (info_part_length fmt d Val.truthy
                  ["document_id"; "document_type"; "filename"; "file_name"]).
    pose proof (info_part_length fmt d Meta.is_not_none
                  ["chunk_index"; "page"; "page_number"; "section"; "chapter"]).
    pose proof (info_part_length fmt d Val.truthy
                  ["created_at"; "updated_at"; "date"; "year"]).
    pose proof (info_part_length fmt d Meta.is_not_none
                  ["size_in_bytes"; "total_tokens"]).
    cbn [List.length] in *. lia.
  - intros p Hin. destruct meta as [| | | | | |d]; try destruct Hin.
    apply format_metadata_in in Hin.
    destruct Hin as (key & x & Hx & -> & Hcase). exists d, key, x.
    repeat split; auto.
    destruct Hcase as [[_ Ht]|[[_ Ht]|[[_ Ht]|[_ Ht]]]];
      try apply truthy_not_none in Ht; now apply not_none_iff.
  - intros d key x -> Hx. split; intros Hk; split.
    + intros Hin.
      destruct (entry_of_other_key fmt d key x) as [[_ Ht]|[Hk' _]];
        [cbn [In] in *; tauto | exact Hx | exact Hin | exact Ht |].
      exfalso. exact (keys_apart key Hk Hk').
    + intros Ht. apply format_metadata_in. exists key, x.
      split; [exact Hx|]. split; [reflexivity|]. cbn [In] in *. tauto.
    + intros Hin.
      destruct (entry_of_other_key fmt d key x) as [[Hk' _]|[_ Ht]];
        [cbn [In] in *; tauto | exact Hx | exact Hin | |].
      * exfalso. exact (keys_apart key Hk' Hk).
      * now apply not_none_iff.
    + intros Hn. apply not_none_iff in Hn. apply format_metadata_in.
      exists key, x. split; [exact Hx|]. split; [reflexivity|].
      cbn [In] in *. tauto.
Qed.

Lemma format_metadata_parts_witness :
  Val.assoc "page" [("document_id", PStr ""); ("page", PInt 0)] = Some (PInt 0) /\
  In "page" ["chunk_index"; "page"; "page_number"; "section"; "chapter";
             "size_in_bytes"; "total_tokens"] /\
  PInt 0 <> PNone /\
  In ("page" ++ ": " ++ Py.str_of_int 0)
    (Meta._format_metadata_info
       (fun x => match x with PInt z => Py.str_of_int z | _ => "" end)
       (PDict [("document_id", PStr ""); ("page", PInt 0)])).
Proof.
  assert (Hk : In "page" ["chunk_index"; "page"; "page_number"; "section";
                          "chapter"; "size_in_bytes"; "total_tokens"])
    by (right; left; reflexivity).
  assert (Hn : PInt 0 <> PNone) by discriminate.
  split; [reflexivity|]. split; [exact Hk|]. split; [exact Hn|].
  destruct (format_metadata_parts
              (fun x => match x with PInt z => Py.str_of_int z | _ => "" end)
              (PDict [("document_id", PStr ""); ("page", PInt 0)]))
    as (_ & _ & _ & H).
  destruct (H [("document_id", PStr ""); ("page", PInt 0)] "page" (PInt 0)
              eq_refl eq_refl) as [_ Hp].
  apply (Hp Hk). exact Hn.
Defined.

Lemma firstn_le {A} (n : nat) (l : list A) : (List.length (firstn n l) <= n)%nat.
Proof. rewrite length_firstn. lia. Qed.

(** X26. With [include_metadata] the metadata line of a block has at
    most six entries: the filename of the metadata when it is truthy,
    then the chunk's own [document_id] when it is truthy, then the
    entries of [_format_metadata_info], of which five are shown, or four
    after a [document_id].  A metadata that is not a dict raises
    [AttributeError] instead. *)
Theorem metadata_line_parts (fmt : pyval -> string)
  (chunk : list (string * pyval)) :
  match Meta.meta_info fmt chunk with
  | Raise e => e = AttributeError /\ Val.is_dict (chunk_metadata chunk) = false
  | Ret parts =>
      Val.is_dict (chunk_metadata chunk) = true /\
      (List.length parts <= 6)%nat /\
      exists m,
        chunk_metadata chunk = PDict m /\
        parts =
        ((if Val.truthy (get_filename m)
          then [("filename: " ++ fmt (get_filename m))%string] else [])
         ++ match Val.assoc "document_id" chunk with
            | Some x =>
                if Val.truthy x
                then ("document_id: " ++ fmt x)%string
                     :: firstn 4 (Meta._format_metadata_info fmt (PDict m))
                else firstn 5 (Meta._format_metadata_info fmt (PDict m))
            | None => firstn 5 (Meta._format_metadata_info fmt (PDict m))
            end)%list
  end.
Proof.
  unfold Meta.meta_info.
  destruct (chunk_metadata chunk) as [| | | | | |m]; try (split; reflexivity).
  cbv zeta. split; [reflexivity|]. split.
  - rewrite List.length_app.
    pose proof (firstn_le 5
                  (if Val.truthy match Val.assoc "document_id" chunk with
                                 | Some x => x
                                 | None => PStr ""
                                 end
                   then ("document_id: "
                         ++ fmt match Val.assoc "document_id" chunk with
                                | Some x => x
                                | None => PStr ""
                                end)
                        :: Meta._format_metadata_info fmt (PDict m)
                   else Meta._format_metadata_info fmt (PDict m))).
    destruct (Val.truthy (get_filename m)); cbn [List.length]; lia.
  - exists m. split; [reflexivity|]. f_equal.
    destruct (Val.assoc "document_id" chunk) as [x|]; [|reflexivity].
    destruct (Val.truthy x); reflexivity.
Qed.

(** X27. A chunk whose metadata is not a dict (a string, a list, null)
    is treated differently by the two entry points.  The tool reads
    [metadata.get] for every chunk and raises [AttributeError].  The
    pipe raises only with [include_metadata]; without it the chunk
    becomes a block cited as [Unknown], with no file identifier and no
    link. *)
Theorem non_dict_metadata (v : Valves) (idx : nat)
  (d : list (string * pyval)) (text : string)
  (Htext : chunk_text d = Ret text)
  (Hmeta : Val.is_dict (chunk_metadata d) = false) :
  R2RTool.context_entry v idx (PDict d) = Raise AttributeError /\
  R2RPipe.context_entry v idx (PDict d) =
  (if include_metadata v then Raise AttributeError
   else Ret {| e_idx := idx; e_citation_id := "Unknown";
               e_file_id := None; e_link := None;
               e_text := _truncate (Some text) (max_chars_per_chunk v);
               e_score := chunk_score_opt d |}) /\
  (forall fmt, Meta.meta_info fmt d = Raise AttributeError).
Proof.
  unfold R2RTool.context_entry, R2RPipe.context_entry, Meta.meta_info.
  rewrite Htext.
  destruct (chunk_metadata d) as [| | | | | |m]; try discriminate Hmeta;
    (split; [reflexivity|]); (split; [|reflexivity]);
    destruct (include_metadata v); reflexivity.
Qed.

Lemma non_dict_metadata_witness :
  chunk_text [("text", PStr " Leave. "); ("metadata", PStr "policy.pdf")]
  = Ret "Leave." /\
  Val.is_dict
    (chunk_metadata [("text", PStr " Leave. "); ("metadata", PStr "policy.pdf")])
  = false /\
  R2RTool.context_entry default_valves 1
    (PDict [("text", PStr " Leave. "); ("metadata", PStr "policy.pdf")])
  = Raise AttributeError /\
  R2RPipe.context_entry default_valves 1
    (PDict [("text", PStr " Leave. "); ("metadata", PStr "policy.pdf")])
  = Raise AttributeError.
Proof.
  destruct (non_dict_metadata default_valves 1
              [("text", PStr " Leave. "); ("metadata", PStr "policy.pdf")]
              "Leave." eq_refl eq_refl) as (Ht & Hp & _).
  split; [reflexivity|]. split; [reflexivity|]. split; [exact Ht | exact Hp].
Defined.

(** ** The health check *)

Lemma replace_go_absent (old new s : string) :
  Py.index_of old s = None -> Health.replace_go old new 0 s = s.
Proof.
  induction s as [|c r IH]; [reflexivity|].
  rewrite index_of_cons. cbn [Health.replace_go].
  destruct (Py.prefixb old (String c r)); [discriminate|].
  destruct (Py.index_of old r); [discriminate|].
  intros _. now rewrite IH.
Qed.

Lemma truthy_str_iff (s : string) : Py.truthy_str s = true <-> s <> "".
Proof. destruct s; cbn; split; intros H; congruence. Qed.

(** X28. [Tools.health_check] sends no request when the token or the
    API URL is blank, and otherwise exactly one, to the API URL with
    every [/search] replaced by [/health] (to the API URL itself when it
    contains no [/search]).  Whatever the request does, the report then
    reads ready, and its token mark is always the tick: the cross is
    never printed, because a token that passed the blank test is not
    empty. *)
Theorem health_check_report (v : Valves) (get : string -> option Z) :
  (Py.strip (bearer_token v) = "" ->
   Health.health_check v get = (Health.msg_no_token, [])) /\
  (Py.strip (bearer_token v) <> "" -> Py.strip (api_url v) = "" ->
   Health.health_check v get = (Health.msg_no_url, [])) /\
  (Py.strip (bearer_token v) <> "" -> Py.strip (api_url v) <> "" ->
   exists api_status,
     Health.health_check v get =
     ("✅ R2R Tool Ready | " ++ api_status ++ " | Token: ✓",
      [Health.replace (api_url v) "/search" "/health"]) /\
     (Py.contains "/search" (api_url v) = false ->
      Health.replace (api_url v) "/search" "/health" = api_url v)).
Proof.
  unfold Health.health_check. split; [|split].
  - intros H. now rewrite H.
  - intros Ht Hu. apply truthy_str_iff in Ht. now rewrite Ht, Hu.
  - intros Ht Hu. apply truthy_str_iff in Ht, Hu. rewrite Ht, Hu. cbn [negb].
    rewrite (strip_truthy _ Ht). eexists. split; [reflexivity|].
    unfold Py.contains, Health.replace. intros Hc.
    apply replace_go_absent.
    destruct (Py.index_of "/search" (api_url v)); [discriminate Hc | reflexivity].
Qed.

Lemma health_check_report_witness :
  Py.strip (bearer_token default_valves) <> "" /\
  Py.strip (api_url default_valves) <> "" /\
  exists api_status,
    Health.health_check default_valves (fun _ => None) =
    ("✅ R2R Tool Ready | " ++ api_status ++ " | Token: ✓",
     ["http://your-r2r-server:7272/v3/retrieval/health"]).
Proof.
  assert (Ht : Py.strip (bearer_token default_valves) <> "") by discriminate.
  assert (Hu : Py.strip (api_url default_valves) <> "") by discriminate.
  split; [exact Ht|]. split; [exact Hu|].
  destruct (health_check_report default_valves (fun _ => None))
    as (_ & _ & H).
  destruct (H Ht Hu) as (api_status & Hr & _).
  exists api_status. exact Hr.
Defined.
